(** * Career-counselling chatbot: persistence store and request handlers

    A shallow embedding of [database.py] (class [CareerCounselingDB]) and of
    the answer generator and request handlers of [app.py], followed by the
    properties of the store and of the handlers.

    Conventions of the embedding.
    - A Python [str] is a Rocq [string]; each character stands for the code
      point of the same number (0..255).  The interests of a user, which go
      through [json.dumps] and [json.loads], are Python values whose
      strings range over all code points ([Json.pyobj], [Json.ustr]).
    - Python's [None] where a string is expected is [None : option string];
      in a statement it becomes SQL's NULL.
    - A SQLite table is the list of its rows in rowid order (oldest first);
      a scan visits the rows in that order.
    - [CURRENT_TIMESTAMP] has a resolution of one second; every store
      operation receives the clock reading [now] (in seconds) it observes.
    - [uuid.uuid4()] is an input of the operation that calls it.
    - A call that may raise returns an [outcome]; a method that changes the
      database file takes the old state and returns the new one. *)

From Stdlib Require Import ZArith List String Ascii Bool Lia Sorted Permutation.
From Stdlib Require DecimalString.
Import ListNotations.

Local Open Scope string_scope.
Local Open Scope list_scope.
Local Open Scope Z_scope.

(* ================================================================== *)
(** * Python values and control flow *)

Module Py.

(** The exception classes the modelled code can meet.  All of them derive
    from [Exception]. *)
Inductive exn : Type :=
| AttributeError
| IntegrityError
| JSONDecodeError
| BadRequest
| OtherError (msg : string).

(** The result of a call: a value, or a raised exception. *)
Inductive outcome (A : Type) : Type :=
| Ok (a : A)
| Raise (e : exn).
Arguments Ok {A} a.
Arguments Raise {A} e.

Definition bind {A B} (m : outcome A) (k : A -> outcome B) : outcome B :=
  match m with
  | Ok a => k a
  | Raise e => Raise e
  end.

(** A [str] argument that may be [None]. *)
Definition pystr := option string.

(** Truth value of a [str] or [None]: only a non-empty string is true. *)
Definition truthy (v : pystr) : bool :=
  match v with
  | Some (String _ _) => true
  | _ => false
  end.

(** [str.isspace] on one character, for the code points below 256. *)
Definition isspace (c : ascii) : bool :=
  let n := Z.of_nat (nat_of_ascii c) in
  ((9 <=? n) && (n <=? 13)) || ((28 <=? n) && (n <=? 32))
  || (n =? 133) || (n =? 160).

Fixpoint lstrip (s : string) : string :=
  match s with
  | String c r => if isspace c then lstrip r else s
  | EmptyString => EmptyString
  end.

Fixpoint string_rev (s : string) : string :=
  match s with
  | EmptyString => EmptyString
  | String c r => (string_rev r ++ String c EmptyString)%string
  end.

Definition rstrip (s : string) : string :=
  string_rev (lstrip (string_rev s)).

(** [str.strip()] with no argument. *)
Definition strip (s : string) : string := rstrip (lstrip s).

(** [str.encode()]: UTF-8, as a list of byte values. *)
Fixpoint encode (s : string) : list Z :=
  match s with
  | EmptyString => []
  | String c r =>
      let n := Z.of_nat (nat_of_ascii c) in
      if n <? 128 then n :: encode r
      else Z.lor 192 (Z.shiftr n 6) :: Z.lor 128 (Z.land n 63) :: encode r
  end.

End Py.

Notation "x <- m ;; k" := (Py.bind m (fun x => k))
  (at level 61, m at next level, right associativity).

(* ================================================================== *)
(** * hashlib.sha256 *)

Module Sha256.

Definition w32 (x : Z) : Z := x mod 2 ^ 32.
Definition add32 (a b : Z) : Z := w32 (a + b).
Definition rotr (n x : Z) : Z :=
  Z.lor (Z.shiftr x n) (w32 (Z.shiftl x (32 - n))).
Definition not32 (x : Z) : Z := Z.lxor x 0xffffffff.

Definition Ch (x y z : Z) : Z := Z.lxor (Z.land x y) (Z.land (not32 x) z).
Definition Maj (x y z : Z) : Z :=
  Z.lxor (Z.land x y) (Z.lxor (Z.land x z) (Z.land y z)).
Definition Sigma0 (x : Z) : Z :=
  Z.lxor (rotr 2 x) (Z.lxor (rotr 13 x) (rotr 22 x)).
Definition Sigma1 (x : Z) : Z :=
  Z.lxor (rotr 6 x) (Z.lxor (rotr 11 x) (rotr 25 x)).
Definition sigma0 (x : Z) : Z :=
  Z.lxor (rotr 7 x) (Z.lxor (rotr 18 x) (Z.shiftr x 3)).
Definition sigma1 (x : Z) : Z :=
  Z.lxor (rotr 17 x) (Z.lxor (rotr 19 x) (Z.shiftr x 10)).

(** The round constants are the first 32 bits of the fractional parts of
    the cube roots of the first 64 primes; the initial hash value takes the
    square roots of the first 8. *)
Definition primes : list Z :=
  [2; 3; 5; 7; 11; 13; 17; 19; 23; 29; 31; 37; 41; 43; 47; 53; 59; 61; 67; 71;
   73; 79; 83; 89; 97; 101; 103; 107; 109; 113; 127; 131; 137; 139; 149; 151;
   157; 163; 167; 173; 179; 181; 191; 193; 197; 199; 211; 223; 227; 229; 233;
   239; 241; 251; 257; 263; 269; 271; 277; 281; 283; 293; 307; 311].

Fixpoint root3_between (fuel : nat) (lo hi n : Z) : Z :=
  match fuel with
  | O => lo
  | S f =>
      if hi <=? lo + 1 then lo
      else
        let mid := (lo + hi) / 2 in
        if mid * mid * mid <=? n then root3_between f mid hi n
        else root3_between f lo mid n
  end.

Definition frac_root3 (p : Z) : Z := w32 (root3_between 64 0 (2 ^ 40) (p * 2 ^ 96)).
Definition frac_root2 (p : Z) : Z := w32 (Z.sqrt (p * 2 ^ 64)).

Definition K : list Z := Eval vm_compute in map frac_root3 primes.
Definition H0 : list Z := Eval vm_compute in map frac_root2 (firstn 8 primes).

(** Padding: a 1 bit, zeros up to 56 modulo 64, the bit length on 8 bytes. *)
Definition be_bytes (n : nat) (x : Z) : list Z :=
  map (fun i => Z.land (Z.shiftr x (8 * Z.of_nat i)) 255) (rev (seq 0 n)).

Definition pad (msg : list Z) : list Z :=
  let len := Z.of_nat (List.length msg) in
  let zeros := Z.to_nat ((55 - len) mod 64) in
  msg ++ [128] ++ repeat 0 zeros ++ be_bytes 8 (8 * len).

Fixpoint be_words (fuel : nat) (bs : list Z) : list Z :=
  match fuel, bs with
  | S f, a :: b :: c :: d :: r =>
      (Z.shiftl a 24 + Z.shiftl b 16 + Z.shiftl c 8 + d) :: be_words f r
  | _, _ => []
  end.

(** Message schedule, most recent word first while it is built. *)
Fixpoint extend (n : nat) (w : list Z) : list Z :=
  match n with
  | O => w
  | S n' =>
      let x := add32 (add32 (sigma1 (nth 1 w 0)) (nth 6 w 0))
                     (add32 (sigma0 (nth 14 w 0)) (nth 15 w 0)) in
      extend n' (x :: w)
  end.

Definition schedule (block : list Z) : list Z :=
  rev (extend 48 (rev (be_words 16 block))).

Record regs : Type := Regs { ra : Z; rb : Z; rc : Z; rd : Z;
                             re : Z; rf : Z; rg : Z; rh : Z }.

Definition round (s : regs) (kw : Z * Z) : regs :=
  let t1 := add32 (add32 (add32 (rh s) (Sigma1 (re s)))
                         (add32 (Ch (re s) (rf s) (rg s)) (fst kw)))
                  (snd kw) in
  let t2 := add32 (Sigma0 (ra s)) (Maj (ra s) (rb s) (rc s)) in
  Regs (add32 t1 t2) (ra s) (rb s) (rc s) (add32 (rd s) t1) (re s) (rf s) (rg s).

Definition compress (h : regs) (block : list Z) : regs :=
  let s := fold_left round (combine K (schedule block)) h in
  Regs (add32 (ra h) (ra s)) (add32 (rb h) (rb s)) (add32 (rc h) (rc s))
       (add32 (rd h) (rd s)) (add32 (re h) (re s)) (add32 (rf h) (rf s))
       (add32 (rg h) (rg s)) (add32 (rh h) (rh s)).

Fixpoint blocks (fuel : nat) (h : regs) (bs : list Z) : regs :=
  match fuel, bs with
  | S f, _ :: _ => blocks f (compress h (firstn 64 bs)) (skipn 64 bs)
  | _, _ => h
  end.

Definition init : regs :=
  Regs (nth 0 H0 0) (nth 1 H0 0) (nth 2 H0 0) (nth 3 H0 0)
       (nth 4 H0 0) (nth 5 H0 0) (nth 6 H0 0) (nth 7 H0 0).

Definition digest (msg : list Z) : list Z :=
  let p := pad msg in
  let h := blocks (List.length p) init p in
  [ra h; rb h; rc h; rd h; re h; rf h; rg h; rh h].

Definition hex_digit (n : Z) : ascii :=
  ascii_of_nat (Z.to_nat (if n <? 10 then 48 + n else 87 + n)).

Fixpoint hex (digits : nat) (x : Z) (acc : string) : string :=
  match digits with
  | O => acc
  | S d => hex d (Z.shiftr x 4) (String (hex_digit (Z.land x 15)) acc)
  end.

(** [hashlib.sha256(data).hexdigest()] *)
Definition hexdigest (msg : list Z) : string :=
  fold_right (fun w acc => hex 8 w acc) EmptyString (digest msg).
#[global] Arguments hexdigest : simpl never.

End Sha256.

(* ================================================================== *)
(** * The json module

    [value] is the body that [request.get_json] hands to a handler.
    [pyobj] is what the store passes to [json.dumps] and gets from
    [json.loads]: the interests of a user. *)

Module Json.

#[local] Unset Elimination Schemes.
Inductive value : Type :=
| Null
| Bool (b : bool)
| Num (n : Z)
| Str (s : string)
| Arr (items : list value)
| Obj (members : list (string * value)).
#[local] Set Elimination Schemes.

(** [dict.get(key)] on a decoded object. *)
Fixpoint get (key : string) (members : list (string * value)) : option value :=
  match members with
  | [] => None
  | (k, v) :: r => if String.eqb k key then Some v else get key r
  end.

Definition code (c : ascii) : Z := Z.of_nat (nat_of_ascii c).
Definition chr (n : Z) : ascii := ascii_of_nat (Z.to_nat n).

Definition quote : ascii := chr 34.
Definition backslash : ascii := chr 92.

(** ** Python values that [json.dumps] accepts and [json.loads] returns *)

(** A [str] by its code points, 0 to 0x10FFFF, surrogates included: the
    escapes of json depend on the code point, so the strings that go
    through [dumps] and [loads] are not cut down to the code points below
    256. *)
Definition ustr : Type := list Z.

Fixpoint ustr_eqb (a b : ustr) : bool :=
  match a, b with
  | [], [] => true
  | x :: r, y :: t => (x =? y) && ustr_eqb r t
  | _, _ => false
  end.

(** The code points of a string of the store. *)
Fixpoint ustr_of (s : string) : ustr :=
  match s with
  | EmptyString => []
  | String c r => code c :: ustr_of r
  end.

(** [None], [bool], [int], [float], [str], [list] and [dict] with [str]
    keys.  A float is carried as the literal json writes for it
    ([float.__repr__], or NaN, Infinity, -Infinity); [loads] gives the
    literal it read.  CPython's bounds on the nesting depth and on the
    number of digits of an int are not modelled. *)
#[local] Unset Elimination Schemes.
Inductive pyobj : Type :=
| PyNone
| PyBool (b : bool)
| PyInt (n : Z)
| PyFloat (literal : string)
| PyStr (s : ustr)
| PyList (items : list pyobj)
| PyDict (members : list (ustr * pyobj)).
#[local] Set Elimination Schemes.

(** ** Encoder ([ensure_ascii=True] and the default separators) *)

Definition short (c : ascii) : string := String backslash (String c EmptyString).

Definition uXXXX (n : Z) : string :=
  String backslash (String "u" (Sha256.hex 4 n EmptyString)).

(** One code point of a string: [ESCAPE_DCT]; printable ASCII as it is;
    [\uXXXX] below 0x10000; a UTF-16 surrogate pair above. *)
Definition escape_char (n : Z) : string :=
  if n =? 34 then short quote
  else if n =? 92 then short backslash
  else if n =? 8 then short "b"
  else if n =? 12 then short "f"
  else if n =? 10 then short "n"
  else if n =? 13 then short "r"
  else if n =? 9 then short "t"
  else if (32 <=? n) && (n <=? 126) then String (chr n) EmptyString
  else if n <? 65536 then uXXXX n
  else
    let v := n - 65536 in
    (uXXXX (Z.lor 55296 (Z.land (Z.shiftr v 10) 1023))
     ++ uXXXX (Z.lor 56320 (Z.land v 1023)))%string.

Fixpoint escape (s : ustr) : string :=
  match s with
  | [] => EmptyString
  | n :: r => (escape_char n ++ escape r)%string
  end.

Definition encode_basestring_ascii (s : ustr) : string :=
  String quote (escape s ++ String quote EmptyString)%string.

(** [json.dumps] *)
Fixpoint dumps (o : pyobj) : string :=
  match o with
  | PyNone => "null"
  | PyBool true => "true"
  | PyBool false => "false"
  | PyInt n => DecimalString.NilZero.string_of_int (Z.to_int n)
  | PyFloat literal => literal
  | PyStr s => encode_basestring_ascii s
  | PyList [] => "[]"
  | PyList (x :: r) =>
      ("[" ++ dumps x
       ++ (fix rest (l : list pyobj) : string :=
             match l with
             | [] => "]"
             | y :: t => ", " ++ dumps y ++ rest t
             end) r)%string
  | PyDict [] => "{}"
  | PyDict ((k, x) :: r) =>
      ("{" ++ encode_basestring_ascii k ++ ": " ++ dumps x
       ++ (fix rest (l : list (ustr * pyobj)) : string :=
             match l with
             | [] => "}"
             | (k', y) :: t =>
                 ", " ++ encode_basestring_ascii k' ++ ": " ++ dumps y ++ rest t
             end) r)%string
  end.

(** What [dumps] writes after the first item of a list. *)
Fixpoint list_rest (l : list pyobj) : string :=
  match l with
  | [] => "]"
  | y :: t => (", " ++ dumps y ++ list_rest t)%string
  end.

(** ** Decoder *)

Definition is_ws (c : ascii) : bool :=
  let n := code c in (n =? 32) || (n =? 9) || (n =? 10) || (n =? 13).

Fixpoint skip_ws (s : string) : string :=
  match s with
  | String c r => if is_ws c then skip_ws r else s
  | EmptyString => EmptyString
  end.

Definition hex_value (c : ascii) : option Z :=
  let n := code c in
  if (48 <=? n) && (n <=? 57) then Some (n - 48)
  else if (97 <=? n) && (n <=? 102) then Some (n - 87)
  else if (65 <=? n) && (n <=? 70) then Some (n - 55)
  else None.

Definition decode_uXXXX (a b c d : ascii) : option Z :=
  match hex_value a, hex_value b, hex_value c, hex_value d with
  | Some x3, Some x2, Some x1, Some x0 =>
      Some (4096 * x3 + 256 * x2 + 16 * x1 + x0)
  | _, _, _, _ => None
  end.

(** The [BACKSLASH] table of the decoder. *)
Definition unescape (e : ascii) : option Z :=
  let n := code e in
  if n =? 34 then Some 34
  else if n =? 92 then Some 92
  else if n =? 47 then Some 47
  else if n =? 98 then Some 8
  else if n =? 102 then Some 12
  else if n =? 110 then Some 10
  else if n =? 114 then Some 13
  else if n =? 116 then Some 9
  else None.

Definition prepend (n : Z) (r : option (ustr * string))
  : option (ustr * string) :=
  match r with
  | Some (v, rest) => Some (n :: v, rest)
  | None => None
  end.

Definition is_high_surrogate (n : Z) : bool := (55296 <=? n) && (n <=? 56319).
Definition is_low_surrogate (n : Z) : bool := (56320 <=? n) && (n <=? 57343).

Definition join_surrogates (high low : Z) : Z :=
  65536 + Z.lor (Z.shiftl (high - 55296) 10) (low - 56320).

(** [scanstring], entered after the opening quote: the decoded string and
    the text after the closing quote; [None] where Python raises.  A
    [\uXXXX] escape of a high surrogate that is followed by the escape of
    a low surrogate is read with it as one code point. *)
Fixpoint scanstring (s : string) : option (ustr * string) :=
  match s with
  | EmptyString => None
  | String c r =>
      if code c =? 34 then Some ([], r)
      else if code c =? 92 then
        match r with
        | EmptyString => None
        | String e r1 =>
            if code e =? 117 then
              match r1 with
              | String a (String b (String x (String d r2))) =>
                  match decode_uXXXX a b x d with
                  | Some uni =>
                      if is_high_surrogate uni then
                        match r2 with
                        | String e1 (String e2 r3) =>
                            if (code e1 =? 92) && (code e2 =? 117) then
                              match r3 with
                              | String a2 (String b2 (String x2 (String d2 r4))) =>
                                  match decode_uXXXX a2 b2 x2 d2 with
                                  | Some uni2 =>
                                      if is_low_surrogate uni2
                                      then prepend (join_surrogates uni uni2)
                                                   (scanstring r4)
                                      else prepend uni (scanstring r2)
                                  | None => None
                                  end
                              | _ => prepend uni (scanstring r2)
                              end
                            else prepend uni (scanstring r2)
                        | _ => prepend uni (scanstring r2)
                        end
                      else prepend uni (scanstring r2)
                  | None => None
                  end
              | _ => None
              end
            else
              match unescape e with
              | Some ch => prepend ch (scanstring r1)
              | None => None
              end
        end
      else if code c <? 32 then None
      else prepend (code c) (scanstring r)
  end.

(** [text.startswith(prefix)], with what follows the prefix. *)
Fixpoint after_prefix (prefix text : string) : option string :=
  match prefix, text with
  | EmptyString, _ => Some text
  | String p r, String c t =>
      if Ascii.eqb p c then after_prefix r t else None
  | String _ _, EmptyString => None
  end.

(** The named constants of the scanner. *)
Definition constant (s : string) : option (pyobj * string) :=
  match after_prefix "null" s with
  | Some rest => Some (PyNone, rest)
  | None =>
  match after_prefix "true" s with
  | Some rest => Some (PyBool true, rest)
  | None =>
  match after_prefix "false" s with
  | Some rest => Some (PyBool false, rest)
  | None =>
  match after_prefix "NaN" s with
  | Some rest => Some (PyFloat "NaN", rest)
  | None =>
  match after_prefix "Infinity" s with
  | Some rest => Some (PyFloat "Infinity", rest)
  | None =>
  match after_prefix "-Infinity" s with
  | Some rest => Some (PyFloat "-Infinity", rest)
  | None => None
  end end end end end end.

Definition is_digit (c : ascii) : bool := (48 <=? code c) && (code c <=? 57).

(** The digits at the head of [s], and what follows them. *)
Fixpoint digits (s : string) : string * string :=
  match s with
  | String c r =>
      if is_digit c
      then let (d, rest) := digits r in (String c d, rest)
      else (EmptyString, s)
  | EmptyString => (EmptyString, EmptyString)
  end.

(** [int] of a run of digits. *)
Fixpoint int_of_digits (acc : Z) (d : string) : Z :=
  match d with
  | String c r => int_of_digits (10 * acc + (code c - 48)) r
  | EmptyString => acc
  end.

(** The fraction of a number: a dot and at least one digit. *)
Definition fraction (s : string) : string * string :=
  match s with
  | String p r =>
      if code p =? 46 then
        match digits r with
        | (EmptyString, _) => (EmptyString, s)
        | (d, rest) => (String p d, rest)
        end
      else (EmptyString, s)
  | EmptyString => (EmptyString, s)
  end.

(** The exponent of a number: e or E, an optional sign, at least one
    digit. *)
Definition exponent (s : string) : string * string :=
  match s with
  | String e r =>
      if (code e =? 101) || (code e =? 69) then
        let (sign, r1) :=
          match r with
          | String g t =>
              if (code g =? 43) || (code g =? 45)
              then (String g EmptyString, t) else (EmptyString, r)
          | EmptyString => (EmptyString, r)
          end in
        match digits r1 with
        | (EmptyString, _) => (EmptyString, s)
        | (d, rest) => (String e (sign ++ d), rest)
        end
      else (EmptyString, s)
  | EmptyString => (EmptyString, s)
  end.

(** A number: an int when it has neither fraction nor exponent, a float
    otherwise. *)
Definition match_number (s : string) : option (pyobj * string) :=
  let (sign, s1) :=
    match s with
    | String c r => if code c =? 45 then (String c EmptyString, r)
                    else (EmptyString, s)
    | EmptyString => (EmptyString, s)
    end in
  match s1 with
  | String c r =>
      if is_digit c then
        let (integer, rest) :=
          if code c =? 48 then (String c EmptyString, r)
          else let (d, t) := digits r in (String c d, t) in
        let (frac, rest1) := fraction rest in
        let (exp, rest2) := exponent rest1 in
        match frac, exp with
        | EmptyString, EmptyString =>
            let n := int_of_digits 0 integer in
            Some (PyInt (match sign with
                         | EmptyString => n
                         | String _ _ => - n
                         end), rest2)
        | _, _ => Some (PyFloat (sign ++ integer ++ frac ++ exp), rest2)
        end
      else None
  | EmptyString => None
  end.

(** [dict[key] = v] on the pairs of a dict, in insertion order. *)
Fixpoint dict_set (key : ustr) (v : pyobj) (d : list (ustr * pyobj))
  : list (ustr * pyobj) :=
  match d with
  | [] => [(key, v)]
  | (k, x) :: r =>
      if ustr_eqb k key then (k, v) :: r else (k, x) :: dict_set key v r
  end.

(** The scanner.  [scan_once] reads one value at the head of [s];
    [JSONArray] is the loop of an array, entered at a value with the items
    read so far; [JSONObject] is the loop of an object, entered at a key
    with the members read so far.  Each gives the value and the text after
    it, [None] where Python raises. *)
Fixpoint scan_once (fuel : nat) (s : string) {struct fuel}
  : option (pyobj * string) :=
  match fuel with
  | O => None
  | S f =>
      match s with
      | EmptyString => None
      | String c r =>
          if code c =? 34 then
            match scanstring r with
            | Some (v, rest) => Some (PyStr v, rest)
            | None => None
            end
          else if code c =? 123 then
            match skip_ws r with
            | String d rest =>
                if code d =? 125 then Some (PyDict [], rest)
                else JSONObject f [] (String d rest)
            | EmptyString => None
            end
          else if code c =? 91 then
            match skip_ws r with
            | String d rest =>
                if code d =? 93 then Some (PyList [], rest)
                else JSONArray f [] (String d rest)
            | EmptyString => None
            end
          else
            match constant s with
            | Some res => Some res
            | None => match_number s
            end
      end
  end
with JSONArray (fuel : nat) (acc : list pyobj) (s : string) {struct fuel}
  : option (pyobj * string) :=
  match fuel with
  | O => None
  | S f =>
      match scan_once f s with
      | Some (v, rest) =>
          match skip_ws rest with
          | String d rest' =>
              if code d =? 93 then Some (PyList (acc ++ [v]), rest')
              else if code d =? 44 then
                JSONArray f (acc ++ [v]) (skip_ws rest')
              else None
          | EmptyString => None
          end
      | None => None
      end
  end
with JSONObject (fuel : nat) (acc : list (ustr * pyobj)) (s : string)
                {struct fuel} : option (pyobj * string) :=
  match fuel with
  | O => None
  | S f =>
      match s with
      | String q r =>
          if code q =? 34 then
            match scanstring r with
            | Some (key, rest) =>
                match skip_ws rest with
                | String d rest1 =>
                    if code d =? 58 then
                      match scan_once f (skip_ws rest1) with
                      | Some (v, rest2) =>
                          match skip_ws rest2 with
                          | String e rest3 =>
                              if code e =? 125
                              then Some (PyDict (dict_set key v acc), rest3)
                              else if code e =? 44 then
                                JSONObject f (dict_set key v acc) (skip_ws rest3)
                              else None
                          | EmptyString => None
                          end
                      | None => None
                      end
                    else None
                | EmptyString => None
                end
            | None => None
            end
          else None
      | EmptyString => None
      end
  end.

(** [json.loads]: one value, with whitespace around it and nothing else.
    [None] where Python raises [JSONDecodeError]. *)
Definition loads (s : string) : option pyobj :=
  match scan_once (2 * String.length s + 2) (skip_ws s) with
  | Some (v, rest) =>
      match skip_ws rest with
      | EmptyString => Some v
      | String _ _ => None
      end
  | None => None
  end.

(** A high surrogate followed at once by a low surrogate: the two code
    points that [ensure_ascii] writes for one code point above 0xFFFF. *)
Fixpoint has_surrogate_pair (s : ustr) : bool :=
  match s with
  | [] => false
  | a :: r =>
      match r with
      | b :: _ => is_high_surrogate a && is_low_surrogate b
      | [] => false
      end
      || has_surrogate_pair r
  end.

(** The code points a [str] can hold. *)
Definition is_code_point (n : Z) : bool := (0 <=? n) && (n <=? 1114111).

End Json.

(* ================================================================== *)
(** * SQLite: what the statements of database.py rely on *)

Module Sql.

(** [column = ?] on a TEXT column: a comparison with NULL on either side
    is not true. *)
Definition text_eq (column parameter : option string) : bool :=
  match column, parameter with
  | Some a, Some b => String.eqb a b
  | _, _ => false
  end.

(** INTEGER PRIMARY KEY AUTOINCREMENT: one more than the largest rowid the
    table has ever held ([seq] is the table's entry in sqlite_sequence). *)
Definition max_rowid (ids : list Z) : Z := fold_right Z.max 0 ids.
Definition next_rowid (seq : Z) (ids : list Z) : Z :=
  Z.max seq (max_rowid ids) + 1.

(** ORDER BY over a table scan.  SQLite's sorter is a stable merge sort
    that compares the ORDER BY terms only: rows with equal keys come out
    in scan order.  [before x y] says that [x] may stand before [y]. *)
Fixpoint insert_sorted {A} (before : A -> A -> bool) (x : A) (l : list A)
  : list A :=
  match l with
  | [] => [x]
  | y :: r => if before x y then x :: l else y :: insert_sorted before x r
  end.

Definition order_by {A} (before : A -> A -> bool) (rows : list A) : list A :=
  fold_right (insert_sorted before) [] rows.

Definition asc {A} (key : A -> Z) (x y : A) : bool := key x <=? key y.
Definition desc {A} (key : A -> Z) (x y : A) : bool := key y <=? key x.

End Sql.

(* ================================================================== *)
(** * database.py: class CareerCounselingDB *)

Module CareerCounselingDB.

Import Py.

(** ** Tables *)

Record UserRow : Type := mkUserRow {
  u_id : Z;
  u_username : string;                       (* UNIQUE NOT NULL *)
  u_email : string;                          (* UNIQUE NOT NULL *)
  u_password_hash : string;                  (* NOT NULL *)
  u_full_name : option string;
  u_phone_number : option string;
  u_educational_background : option string;
  u_interests : option string;
  u_created_at : Z
}.

Record SessionRow : Type := mkSessionRow {
  s_session_id : string;                     (* PRIMARY KEY *)
  s_user_id : Z;
  s_session_name : string;
  s_created_at : Z;
  s_updated_at : Z
}.

Record MessageRow : Type := mkMessageRow {
  m_id : Z;
  m_session_id : option string;
  m_user_id : Z;
  m_message_type : string;
  m_message_text : string;
  m_timestamp : Z
}.

(** The database file.  The foreign keys of the schema are declared but
    not enforced: [sqlite3.connect] leaves [PRAGMA foreign_keys] off. *)
Record DB : Type := mkDB {
  users : list UserRow;
  users_seq : Z;
  chat_sessions : list SessionRow;
  chat_messages : list MessageRow;
  chat_messages_seq : Z
}.

Definition with_users (db : DB) (us : list UserRow) (seq : Z) : DB :=
  mkDB us seq (chat_sessions db) (chat_messages db) (chat_messages_seq db).
Definition with_sessions (db : DB) (ss : list SessionRow) : DB :=
  mkDB (users db) (users_seq db) ss (chat_messages db) (chat_messages_seq db).
Definition with_messages (db : DB) (ms : list MessageRow) (seq : Z) : DB :=
  mkDB (users db) (users_seq db) (chat_sessions db) ms seq.

(** [init_db]: CREATE TABLE IF NOT EXISTS on the file at [db_path]; [None]
    is a path with no file yet. *)
Definition init_db (file : option DB) : DB :=
  match file with
  | Some db => db
  | None => mkDB [] 0 [] [] 0
  end.

(** ** Results handed to the caller *)

Record User : Type := mkUser {
  id : Z;
  username : string;
  email : string;
  full_name : option string;
  phone_number : option string;
  educational_background : option string;
  interests : Json.pyobj
}.

Record SessionInfo : Type := mkSessionInfo {
  session_id : string;
  session_name : string;
  created_at : Z;
  updated_at : Z
}.

Record Message : Type := mkMessage {
  type : string;
  text : string;
  timestamp : Z
}.

(** ** Methods *)

Definition hash_password (password : pystr) : outcome string :=
  match password with
  | Some p => Ok (Sha256.hexdigest (encode p))
  | None => Raise AttributeError
  end.

Definition default_session_name : string := "Career Counseling Session".

(** INSERT INTO chat_sessions; the primary key rejects a repeated id. *)
Definition create_session (now : Z) (uuid4 : string) (user_id : Z)
           (name : string) (db : DB) : DB * outcome string :=
  if existsb (fun s => String.eqb (s_session_id s) uuid4) (chat_sessions db)
  then (db, Raise IntegrityError)
  else (with_sessions db
          (chat_sessions db ++ [mkSessionRow uuid4 user_id name now now]),
        Ok uuid4).

(** INSERT INTO users, with the NOT NULL and UNIQUE constraints of the
    table; the new rowid on success. *)
Definition insert_user (now : Z) (username email : pystr)
           (password_hash full_name phone_number : string) (db : DB)
  : outcome (DB * Z) :=
  match username, email with
  | Some u, Some e =>
      if existsb (fun r => String.eqb (u_username r) u) (users db)
         || existsb (fun r => String.eqb (u_email r) e) (users db)
      then Raise IntegrityError
      else
        let rowid := Sql.next_rowid (users_seq db) (map u_id (users db)) in
        Ok (with_users db
              (users db ++ [mkUserRow rowid u e password_hash (Some full_name)
                                      (Some phone_number) None None now])
              rowid,
            rowid)
  | _, _ => Raise IntegrityError
  end.

Definition create_user (now : Z) (uuid4 : string) (username email password : pystr)
           (full_name phone_number : string) (db : DB)
  : DB * outcome (option Z) :=
  match hash_password password with
  | Raise e => (db, Raise e)
  | Ok password_hash =>
      match insert_user now username email password_hash full_name
                        phone_number db with
      | Raise IntegrityError => (db, Ok None)
      | Raise e => (db, Raise e)
      | Ok (db1, user_id) =>
          (* Create default session for the user *)
          match create_session now uuid4 user_id default_session_name db1 with
          | (db2, Ok _) => (db2, Ok (Some user_id))
          | (db2, Raise IntegrityError) => (db2, Ok None)
          | (db2, Raise e) => (db2, Raise e)
          end
      end
  end.

(** The dictionary built from a fetched row of [users]. *)
Definition user_of_row (r : UserRow) : outcome User :=
  interests <-
    match u_interests r with
    | Some (String c t) =>
        match Json.loads (String c t) with
        | Some v => Ok v
        | None => Raise JSONDecodeError
        end
    | _ => Ok (Json.PyList [])
    end ;;
  Ok (mkUser (u_id r) (u_username r) (u_email r) (u_full_name r)
             (u_phone_number r) (u_educational_background r) interests).

Definition fetched_user (row : option UserRow) : outcome (option User) :=
  match row with
  | Some r => u <- user_of_row r ;; Ok (Some u)
  | None => Ok None
  end.

Definition verify_user (username password : pystr) (db : DB)
  : outcome (option User) :=
  password_hash <- hash_password password ;;
  fetched_user
    (find (fun r => Sql.text_eq (Some (u_username r)) username
                    && String.eqb (u_password_hash r) password_hash)
          (users db)).

Definition get_user_by_id (user_id : Z) (db : DB) : outcome (option User) :=
  fetched_user (find (fun r => u_id r =? user_id) (users db)).

(** UPDATE chat_sessions SET updated_at = CURRENT_TIMESTAMP WHERE
    session_id = ?, on one row. *)
Definition touched (now : Z) (session_id : option string) (s : SessionRow)
  : SessionRow :=
  if Sql.text_eq (Some (s_session_id s)) session_id
  then mkSessionRow (s_session_id s) (s_user_id s) (s_session_name s)
                    (s_created_at s) now
  else s.

Definition save_message (now : Z) (session_id : option string) (user_id : Z)
           (message_type message_text : string) (db : DB) : DB :=
  let rowid := Sql.next_rowid (chat_messages_seq db)
                              (map m_id (chat_messages db)) in
  let db1 := with_messages db
               (chat_messages db
                ++ [mkMessageRow rowid session_id user_id message_type
                                 message_text now])
               rowid in
  (* Update session updated_at *)
  with_sessions db1 (map (touched now session_id) (chat_sessions db1)).

Definition session_info (s : SessionRow) : SessionInfo :=
  mkSessionInfo (s_session_id s) (s_session_name s) (s_created_at s)
                (s_updated_at s).

Definition select_user_sessions (user_id : Z) (db : DB) : list SessionRow :=
  Sql.order_by (Sql.desc s_updated_at)
               (filter (fun s => s_user_id s =? user_id) (chat_sessions db)).

Definition get_user_sessions (user_id : Z) (db : DB) : list SessionInfo :=
  map session_info (select_user_sessions user_id db).

Definition message_of_row (m : MessageRow) : Message :=
  mkMessage (m_message_type m) (m_message_text m) (m_timestamp m).

Definition select_chat_history (session_id : option string) (user_id : Z)
           (db : DB) : list MessageRow :=
  Sql.order_by (Sql.asc m_timestamp)
               (filter (fun m => Sql.text_eq (m_session_id m) session_id
                                 && (m_user_id m =? user_id))
                       (chat_messages db)).

Definition get_chat_history (session_id : option string) (user_id : Z)
           (db : DB) : list Message :=
  map message_of_row (select_chat_history session_id user_id db).

(** UPDATE users SET educational_background = ?, interests = ? WHERE
    id = ?, on one row. *)
Definition updated (user_id : Z) (educational_background : option string)
           (interests : Json.pyobj) (r : UserRow) : UserRow :=
  if u_id r =? user_id
  then mkUserRow (u_id r) (u_username r) (u_email r) (u_password_hash r)
                 (u_full_name r) (u_phone_number r) educational_background
                 (Some (Json.dumps interests)) (u_created_at r)
  else r.

Definition update_user_profile (user_id : Z)
           (educational_background : option string)
           (interests : Json.pyobj) (db : DB) : DB :=
  with_users db
    (map (updated user_id educational_background interests) (users db))
    (users_seq db).

End CareerCounselingDB.

(* ================================================================== *)
(** * app.py: the answer generator and the request handlers *)

Module App.

Import Py.
Module DB := CareerCounselingDB.

(** ** AI components

    What [setup_ai_components] leaves in the module globals [model] and
    [retriever], seen through the calls [get_ai_response] makes on them.
    A reply either has a [content] attribute or is turned into text by
    [str], which may itself raise. *)

Inductive Reply : Type :=
| WithContent (content : string)
| NoContent (as_str : outcome string).

Record Components : Type := mkComponents {
  model : option (string -> outcome Reply);
  retriever : option (string -> outcome (list string))
}.

Definition nl : string := String (Json.chr 10) EmptyString.

Definition unavailable : string :=
  "AI service is not available. Please check your API keys and dependencies.".

Definition apology : string :=
  "I apologize, but I'm having trouble processing your question. Please try again.".

Definition simple_prompt (question : string) : string :=
  ("You are a helpful career counselor assistant. " ++ nl
   ++ "Answer the following question about career guidance:" ++ nl
   ++ nl
   ++ "Question: " ++ question ++ nl
   ++ nl
   ++ "Answer:")%string.

Definition rag_prompt (context question : string) : string :=
  ("You are a helpful and knowledgeable career counselor assistant." ++ nl
   ++ "Answer questions based on the context provided." ++ nl
   ++ nl
   ++ "Context:" ++ nl
   ++ context ++ nl
   ++ nl
   ++ "Question:" ++ nl
   ++ question ++ nl
   ++ nl
   ++ "Answer:")%string.

(** [sep.join(parts)] *)
Fixpoint join (sep : string) (parts : list string) : string :=
  match parts with
  | [] => EmptyString
  | [p] => p
  | p :: r => (p ++ sep ++ join sep r)%string
  end.

(** [response.content if hasattr(response, 'content') else str(response)] *)
Definition reply_text (r : Reply) : outcome string :=
  match r with
  | WithContent c => Ok c
  | NoContent s => s
  end.

(** The body of the [try] block, for a configured model.  The [print] of
    the handler writes to the log and is not modelled. *)
Definition ask (invoke : string -> outcome Reply)
           (retriever : option (string -> outcome (list string)))
           (question : string) : outcome string :=
  match retriever with
  | None =>
      response <- invoke (simple_prompt question) ;;
      reply_text response
  | Some retrieve =>
      docs <- retrieve question ;;
      response <- invoke (rag_prompt (join (nl ++ nl) docs) question) ;;
      reply_text response
  end.

Definition get_ai_response (ai : Components) (question : string) : string :=
  match model ai with
  | None => unavailable
  | Some invoke =>
      match ask invoke (retriever ai) question with
      | Ok answer => answer
      | Raise _ => apology                       (* except Exception *)
      end
  end.

(** ** Requests, responses and the session cookie *)

Inductive Method : Type := GET | POST.

(** [request.form.get(key)] *)
Fixpoint form_get (key : string) (form : list (string * string)) : pystr :=
  match form with
  | [] => None
  | (k, v) :: r => if String.eqb k key then Some v else form_get key r
  end.

Definition form_get_default (key : string) (form : list (string * string))
           (default : string) : string :=
  match form_get key form with
  | Some v => v
  | None => default
  end.

Inductive Response : Type :=
| redirect (endpoint : string)
| render_template (name : string) (context : list (string * pystr))
| jsonify (body : Json.value) (status : Z).

(** Flask's [session]: each key is absent ([None]) or holds a value. *)
Record Session : Type := mkSession {
  user_id : option Z;
  username : option pystr;
  full_name : option pystr;
  session_id : option string
}.

Definition no_session : Session := mkSession None None None None.

Definition set_user (s : Session) (uid : Z) (name full : pystr) : Session :=
  mkSession (Some uid) (Some name) (Some full) (session_id s).

Definition set_session_id (s : Session) (sid : string) : Session :=
  mkSession (user_id s) (username s) (full_name s) (Some sid).

(** What a handler leaves behind: the database file, the cookie, and the
    response or the exception that escaped the handler. *)
Record Handled : Type := mkHandled {
  db_after : DB.DB;
  session_after : Session;
  response : outcome Response
}.

Definition error_context (msg : string) : list (string * pystr) :=
  [("error", Some msg)].

(** ** Routes; [database_available] is the global [DATABASE_AVAILABLE] *)

Definition signup (database_available : bool) (now : Z) (uuid4 : string)
           (method : Method) (form : list (string * string))
           (session : Session) (db : DB.DB) : Handled :=
  match method with
  | POST =>
      let username := form_get "username" form in
      let email := form_get "email" form in
      let password := form_get "password" form in
      let full_name := form_get_default "full_name" form "" in
      if database_available then
        match DB.create_user now uuid4 username email password full_name "" db with
        | (db1, Raise e) => mkHandled db1 session (Raise e)
        | (db1, Ok created) =>
            match created with
            | Some uid =>
                if uid =? 0
                then mkHandled db1 session
                       (Ok (render_template "signup.html"
                              (error_context "Username or email already exists")))
                else mkHandled db1 (set_user session uid username (Some full_name))
                       (Ok (redirect "dashboard"))
            | None =>
                mkHandled db1 session
                  (Ok (render_template "signup.html"
                         (error_context "Username or email already exists")))
            end
        end
      else
        (* Mock authentication for demo *)
        mkHandled db (set_user session 1 username (Some full_name))
          (Ok (redirect "dashboard"))
  | GET => mkHandled db session (Ok (render_template "signup.html" []))
  end.

Definition login (database_available : bool) (now : Z) (uuid4 : string)
           (method : Method) (form : list (string * string))
           (session : Session) (db : DB.DB) : Handled :=
  match method with
  | POST =>
      let username := form_get "username" form in
      let password := form_get "password" form in
      if database_available then
        match DB.verify_user username password db with
        | Raise e => mkHandled db session (Raise e)
        | Ok None =>
            mkHandled db session
              (Ok (render_template "login.html"
                     (error_context "Invalid username or password")))
        | Ok (Some user) =>
            let shown :=
              if truthy (DB.full_name user) then DB.full_name user
              else Some (DB.username user) in
            let session1 :=
              set_user session (DB.id user) (Some (DB.username user)) shown in
            match DB.get_user_sessions (DB.id user) db with
            | first :: _ =>
                mkHandled db (set_session_id session1 (DB.session_id first))
                  (Ok (redirect "dashboard"))
            | [] =>
                match DB.create_session now uuid4 (DB.id user)
                        DB.default_session_name db with
                | (db1, Ok sid) =>
                    mkHandled db1 (set_session_id session1 sid)
                      (Ok (redirect "dashboard"))
                | (db1, Raise e) => mkHandled db1 session1 (Raise e)
                end
            end
        end
      else
        (* Mock authentication for demo *)
        mkHandled db
          (set_session_id (set_user session 1 username username) "demo-session")
          (Ok (redirect "dashboard"))
  | GET => mkHandled db session (Ok (render_template "login.html" []))
  end.

Definition logout (session : Session) (db : DB.DB) : Handled :=
  mkHandled db no_session (Ok (redirect "landing")).

(** [session.get(key, 'User')] *)
Definition shown (v : option pystr) : pystr :=
  match v with
  | Some x => x
  | None => Some "User"
  end.

Definition chat (database_available : bool) (now : Z) (uuid4 : string)
           (session : Session) (db : DB.DB) : Handled :=
  match user_id session with
  | None => mkHandled db session (Ok (redirect "login"))
  | Some uid =>
      let page (s : Session) :=
        Ok (render_template "chat.html"
              [("username", shown (username s));
               ("full_name", shown (full_name s))]) in
      match session_id session with
      | Some _ => mkHandled db session (page session)
      | None =>
          if database_available then
            match DB.create_session now uuid4 uid DB.default_session_name db with
            | (db1, Ok sid) =>
                let session1 := set_session_id session sid in
                mkHandled db1 session1 (page session1)
            | (db1, Raise e) => mkHandled db1 session (Raise e)
            end
          else
            let session1 := set_session_id session "demo-session" in
            mkHandled db session1 (page session1)
      end
  end.

Definition error_body (msg : string) : Json.value :=
  Json.Obj [("error", Json.Str msg)].

(** [data.get("message", "").strip()] on the decoded request body. *)
Definition message_of (data : Json.value) : outcome string :=
  match data with
  | Json.Obj members =>
      match Json.get "message" members with
      | None => Ok (strip "")
      | Some (Json.Str s) => Ok (strip s)
      | Some _ => Raise AttributeError
      end
  | _ => Raise AttributeError
  end.

Definition json_of_pystr (v : pystr) : Json.value :=
  match v with
  | Some s => Json.Str s
  | None => Json.Null
  end.

(** POST /api/chat.  [body] is the decoded request body, [None] when
    [get_json(force=True)] cannot decode it; [now_user] and
    [now_assistant] are the clock readings of the two [save_message]
    calls. *)
Definition api_chat (database_available : bool) (ai : Components)
           (now_user now_assistant : Z) (body : option Json.value)
           (session : Session) (db : DB.DB) : Handled :=
  match user_id session with
  | None =>
      mkHandled db session (Ok (jsonify (error_body "Not authenticated") 401))
  | Some uid =>
      match body with
      | None => mkHandled db session (Raise BadRequest)
      | Some data =>
          match message_of data with
          | Raise e => mkHandled db session (Raise e)
          | Ok user_message =>
              if negb (truthy (Some user_message)) then
                mkHandled db session
                  (Ok (jsonify (error_body "Message is empty") 400))
              else
                let sid := session_id session in
                (* Save user message *)
                let db1 :=
                  if database_available
                  then DB.save_message now_user sid uid "user" user_message db
                  else db in
                (* Get AI response *)
                let ai_response := get_ai_response ai user_message in
                (* Save AI response *)
                let db2 :=
                  if database_available
                  then DB.save_message now_assistant sid uid "assistant"
                                       ai_response db1
                  else db1 in
                mkHandled db2 session
                  (Ok (jsonify
                         (Json.Obj [("response", Json.Str ai_response);
                                    ("session_id", json_of_pystr sid)])
                         200))
          end
      end
  end.

End App.

(* ================================================================== *)
(** * Vocabulary of the properties *)

Module Props.

Import Py.
Module DB := CareerCounselingDB.

(** No stored timestamp lies after the clock reading [now]: the state of a
    database whose operations all ran at or before [now]. *)
Definition clock_ok (now : Z) (db : DB.DB) : Prop :=
  Forall (fun m => DB.m_timestamp m <= now) (DB.chat_messages db)
  /\ Forall (fun s => DB.s_updated_at s <= now) (DB.chat_sessions db).

(** A string made of whitespace only (the empty string included). *)
Fixpoint only_whitespace (s : string) : bool :=
  match s with
  | EmptyString => true
  | String c r => isspace c && only_whitespace r
  end.



(** The integers SQLite stores and sqlite3 binds: 64 bits, signed.  Binding
    a Python int outside this range raises [OverflowError] before the
    statement runs. *)
Definition sqlite_integer (n : Z) : Prop := - 2 ^ 63 <= n < 2 ^ 63.

(** Referential integrity of one message row and of one session row. *)
Definition message_refs_ok (db : DB.DB) (m : DB.MessageRow) : bool :=
  existsb (fun s => Sql.text_eq (DB.m_session_id m) (Some (DB.s_session_id s)))
          (DB.chat_sessions db)
  && existsb (fun u => DB.u_id u =? DB.m_user_id m) (DB.users db).

Definition session_refs_ok (db : DB.DB) (s : DB.SessionRow) : bool :=
  existsb (fun u => DB.u_id u =? DB.s_user_id s) (DB.users db).

Definition refs_ok (db : DB.DB) : bool :=
  forallb (message_refs_ok db) (DB.chat_messages db)
  && forallb (session_refs_ok db) (DB.chat_sessions db).

End Props.

(* ================================================================== *)
(** * Concrete runs *)

Module Scenario.

Module DB := CareerCounselingDB.

Definition no_ai : App.Components := App.mkComponents None None.

Definition alice : list (string * string) :=
  [("username", "alice"); ("email", "a@x.com"); ("password", "pw");
   ("full_name", "Alice")].

Definition uuid_a : string := "0b0e7a2c-5d1f-4c59-9d53-6f1b2a7c8e01".
Definition uuid_b : string := "7c9e6679-7425-40de-944b-e07fc1f90ae7".

Definition fresh_db : DB.DB := DB.init_db None.

(** POST /signup on a fresh database, with no cookie. *)
Definition after_signup : App.Handled :=
  App.signup true 100 uuid_a App.POST alice App.no_session fresh_db.

Definition question : Json.value :=
  Json.Obj [("message", Json.Str "What can I do with a biology degree?")].

(** POST /api/chat right after the signup, with the cookie it left. *)
Definition chat_after_signup : App.Handled :=
  App.api_chat true no_ai 101 102 (Some question)
               (App.session_after after_signup) (App.db_after after_signup).

(** POST /login of the same user, with no cookie. *)
Definition after_login : App.Handled :=
  App.login true 103 uuid_b App.POST alice App.no_session
            (App.db_after after_signup).

(** GET /chat after the signup creates a second session in the second
    of the signup; a message saved to it in that same second. *)
Definition two_sessions : DB.DB :=
  App.db_after
    (App.chat true 100 uuid_b (App.session_after after_signup)
              (App.db_after after_signup)).

Definition two_sessions_saved : DB.DB :=
  DB.save_message 100 (Some uuid_b) 1 "user" "hello" two_sessions.

(** A configured model whose every invocation raises. *)
Definition failing_ai : App.Components :=
  App.mkComponents (Some (fun _ => Py.Raise (Py.OtherError "timeout"))) None.

(** A request body whose message is made of blanks. *)
Definition blank : list (string * Json.value) :=
  [("message", Json.Str "   ")].

End Scenario.

(* ================================================================== *)
(** * app.py: the remaining routes and the dispatch of requests *)

Module Router.

Import Py App.

(** [jsonify] of one entry of [get_chat_history] and of
    [get_user_sessions]. *)
Definition json_of_message (m : DB.Message) : Json.value :=
  Json.Obj [("type", Json.Str (DB.type m));
            ("text", Json.Str (DB.text m));
            ("timestamp", Json.Num (DB.timestamp m))].

Definition json_of_session (s : DB.SessionInfo) : Json.value :=
  Json.Obj [("session_id", Json.Str (DB.session_id s));
            ("session_name", Json.Str (DB.session_name s));
            ("created_at", Json.Num (DB.created_at s));
            ("updated_at", Json.Num (DB.updated_at s))].

Definition user_context (s : Session) : list (string * pystr) :=
  [("username", shown (username s)); ("full_name", shown (full_name s))].

(** The pages that need no session. *)
Definition landing (session : Session) (db : DB.DB) : Handled :=
  mkHandled db session (Ok (render_template "landing.html" [])).

Definition about (session : Session) (db : DB.DB) : Handled :=
  mkHandled db session (Ok (render_template "about.html" [])).

Definition contact (session : Session) (db : DB.DB) : Handled :=
  mkHandled db session (Ok (render_template "contact.html" [])).

(** GET /dashboard; the second component is the [sessions] argument of the
    template. *)
Definition dashboard (database_available : bool) (session : Session)
           (db : DB.DB) : Handled * list DB.SessionInfo :=
  match user_id session with
  | None => (mkHandled db session (Ok (redirect "login")), [])
  | Some uid =>
      let sessions :=
        if database_available then DB.get_user_sessions uid db else [] in
      (mkHandled db session
         (Ok (render_template "dashboard.html" (user_context session))),
       sessions)
  end.

Definition suggested : list string :=
  ["What are the career options after FSC Pre-Medical?";
   "Which fields have the highest growth potential in healthcare?";
   "How can I transition from medical to business fields?";
   "What are the scope and salary of data science in healthcare?"].

Definition suggested_questions (session : Session) (db : DB.DB) : Handled :=
  mkHandled db session (Ok (jsonify (Json.Arr (map Json.Str suggested)) 200)).

Definition api_history (database_available : bool) (session : Session)
           (db : DB.DB) : Handled :=
  match user_id session with
  | None => mkHandled db session (Ok (jsonify (Json.Arr []) 200))
  | Some uid =>
      if database_available then
        let history := DB.get_chat_history (session_id session) uid db in
        mkHandled db session
          (Ok (jsonify (Json.Arr (map json_of_message history)) 200))
      else mkHandled db session (Ok (jsonify (Json.Arr []) 200))
  end.

Definition api_sessions (database_available : bool) (session : Session)
           (db : DB.DB) : Handled :=
  match user_id session with
  | None => mkHandled db session (Ok (jsonify (Json.Arr []) 200))
  | Some uid =>
      if database_available then
        mkHandled db session
          (Ok (jsonify (Json.Arr (map json_of_session
                                      (DB.get_user_sessions uid db))) 200))
      else
        mkHandled db session
          (Ok (jsonify
                 (Json.Arr [Json.Obj [("session_id", Json.Str "demo-session");
                                      ("created_at", Json.Str "2024-01-01")]])
                 200))
  end.

Definition api_user_profile (session : Session) (db : DB.DB) : Handled :=
  match user_id session with
  | None => mkHandled db session (Ok (jsonify (Json.Obj []) 401))
  | Some _ =>
      mkHandled db session
        (Ok (jsonify
               (Json.Obj [("username", json_of_pystr (shown (username session)));
                          ("full_name", json_of_pystr (shown (full_name session)));
                          ("educational_background", Json.Str "");
                          ("interests", Json.Arr [])])
               200))
  end.

(** ** Dispatch

    A request, by the route that serves it.  /api/update-profile is not
    among them. *)
Inductive Request : Type :=
| Landing
| About
| Contact
| Signup (method : Method) (form : list (string * string))
| Login (method : Method) (form : list (string * string))
| Logout
| Dashboard
| Chat
| ApiChat (body : option Json.value)
| SuggestedQuestions
| ApiHistory
| ApiSessions
| ApiUserProfile.

(** What a request observes of its surroundings: the clock when it starts,
    the clock when /api/chat saves the answer, the value [uuid4] returns,
    and the AI components. *)
Record Env : Type := mkEnv {
  now : Z;
  now_answer : Z;
  uuid4 : string;
  ai : Components
}.

Definition handle (database_available : bool) (env : Env) (req : Request)
           (session : Session) (db : DB.DB) : Handled :=
  match req with
  | Landing => landing session db
  | About => about session db
  | Contact => contact session db
  | Signup method form =>
      signup database_available (now env) (uuid4 env) method form session db
  | Login method form =>
      login database_available (now env) (uuid4 env) method form session db
  | Logout => logout session db
  | Dashboard => fst (dashboard database_available session db)
  | Chat => chat database_available (now env) (uuid4 env) session db
  | ApiChat body =>
      api_chat database_available (ai env) (now env) (now_answer env) body
               session db
  | SuggestedQuestions => suggested_questions session db
  | ApiHistory => api_history database_available session db
  | ApiSessions => api_sessions database_available session db
  | ApiUserProfile => api_user_profile session db
  end.

(** The states the application reaches from a new database file: any
    request may come with any cookie issued so far (cookies live in the
    browsers), or with none. *)
Inductive reachable (database_available : bool)
  : DB.DB -> list Session -> Prop :=
| reach_start : reachable database_available (DB.init_db None) [no_session]
| reach_request (db : DB.DB) (cookies : list Session) (env : Env)
                (req : Request) (c : Session) :
    reachable database_available db cookies ->
    In c cookies ->
    reachable database_available
              (db_after (handle database_available env req c db))
              (session_after (handle database_available env req c db)
               :: cookies).

End Router.

(* ================================================================== *)
(** * Invariants of the store and of the cookies *)

Module Inv.

Import Py CareerCounselingDB.

Definition user_ids (db : DB) : list Z := map u_id (users db).
Definition session_ids (db : DB) : list string :=
  map s_session_id (chat_sessions db).

(** The keys of the schema: UNIQUE columns hold no value twice, rowids are
    positive and distinct. *)
Definition keys_ok (db : DB) : Prop :=
  NoDup (map u_username (users db))
  /\ NoDup (map u_email (users db))
  /\ NoDup (user_ids db)
  /\ NoDup (session_ids db)
  /\ NoDup (map m_id (chat_messages db))
  /\ Forall (fun i => 0 < i) (user_ids db)
  /\ Forall (fun i => 0 < i) (map m_id (chat_messages db)).

(** The foreign keys of the schema, as SQL reads them: a NULL reference is
    allowed, any other value names a stored row. *)
Definition message_fk (db : DB) (m : MessageRow) : Prop :=
  match m_session_id m with
  | None => True
  | Some sid => In sid (session_ids db)
  end
  /\ In (m_user_id m) (user_ids db).

Definition session_fk (db : DB) (s : SessionRow) : Prop :=
  In (s_user_id s) (user_ids db).

Definition fk_ok (db : DB) : Prop :=
  Forall (message_fk db) (chat_messages db)
  /\ Forall (session_fk db) (chat_sessions db).

(** A cookie whose user id and chat session id, when present, name stored
    rows. *)
Definition cookie_ok (db : DB) (c : App.Session) : Prop :=
  match App.user_id c with
  | None => True
  | Some uid => In uid (user_ids db)
  end
  /\ match App.session_id c with
     | None => True
     | Some sid => In sid (session_ids db)
     end.

(** A string that neither starts nor ends with whitespace. *)
Definition starts_clean (s : string) : Prop :=
  match s with
  | EmptyString => True
  | String c _ => isspace c = false
  end.

Definition trimmed (s : string) : Prop :=
  starts_clean s /\ starts_clean (string_rev s).

(** A string of lower-case hexadecimal digits. *)
Definition is_hex (c : ascii) : bool :=
  let n := Json.code c in
  ((48 <=? n) && (n <=? 57)) || ((97 <=? n) && (n <=? 102)).

Fixpoint all_hex (s : string) : bool :=
  match s with
  | EmptyString => true
  | String c r => is_hex c && all_hex r
  end.

End Inv.

(* ================================================================== *)
(** * More concrete runs *)

Module Cases.

Module DB := CareerCounselingDB.

Definition env1 : Router.Env :=
  Router.mkEnv 104 105 Scenario.uuid_b Scenario.no_ai.

(** The cookie and database after signup and a first GET /chat. *)
Definition opened : App.Handled :=
  App.chat true 101 Scenario.uuid_b
           (App.session_after Scenario.after_signup)
           (App.db_after Scenario.after_signup).

Definition bob : list (string * string) :=
  [("username", "bob"); ("password", "hunter2")].

(** The database after the signup and one message saved to the signup's
    session at second 105. *)
Definition one_message : DB.DB :=
  DB.save_message 105 (Some Scenario.uuid_a) 1 "user" "first"
                  (App.db_after Scenario.after_signup).

Definition number_body : Json.value :=
  Json.Obj [("message", Json.Num 5)].

End Cases.

(* ================================================================== *)
(* ================================================================== *)
(** * Properties *)

Example sha256_abc :
  Sha256.hexdigest (Py.encode "abc")
  = "ba7816bf8f01cfea414140de5dae2223b00361a396177a9cb410ff61f20015ad".
Proof. vm_compute. reflexivity. Qed.

Example sha256_two_blocks :
  Sha256.hexdigest
    (Py.encode "abcdbcdecdefdefgefghfghighijhijkijkljklmklmnlmnomnopnopq")
  = "248d6a61d20638b8e5c026930c3e6039a33ce45964ff2167f6ecedd419db06c1".
Proof. vm_compute. reflexivity. Qed.

Example sha256_non_ascii :
  Sha256.hexdigest (Py.encode (String (Json.chr 233) "t" ++ String (Json.chr 233) ""))
  = Sha256.hexdigest [195; 169; 116; 195; 169].
Proof. vm_compute. reflexivity. Qed.

Example strip_keeps_inner_blanks :
  Py.strip (String (Json.chr 9) " a b " ++ String (Json.chr 160) "") = "a b".
Proof. vm_compute. reflexivity. Qed.

Example sha256_empty :
  Sha256.hexdigest (Py.encode "")
  = "e3b0c44298fc1c149afbf4c8996fb92427ae41e4649b934ca495991b7852b855".
Proof. vm_compute. reflexivity. Qed.

(* ================================================================== *)
(** ** ORDER BY *)

Module SqlFacts.

Import Sql.

Section OrderBy.

Context {A : Type} (before : A -> A -> bool).

Lemma insert_sorted_perm (x : A) (l : list A) :
  Permutation (x :: l) (insert_sorted before x l).
Proof.
  induction l as [|y r IH]; simpl.
  - apply Permutation_refl.
  - destruct (before x y).
    + apply Permutation_refl.
    + apply perm_trans with (y :: x :: r).
      * apply perm_swap.
      * apply perm_skip, IH.
Qed.

Lemma order_by_perm (l : list A) : Permutation l (order_by before l).
Proof.
  induction l as [|x r IH]; simpl.
  - apply perm_nil.
  - apply perm_trans with (x :: order_by before r).
    + apply perm_skip, IH.
    + apply insert_sorted_perm.
Qed.

Lemma order_by_In (l : list A) (x : A) :
  In x (order_by before l) <-> In x l.
Proof.
  split; intro H.
  - eapply Permutation_in; [apply Permutation_sym, order_by_perm | exact H].
  - eapply Permutation_in; [apply order_by_perm | exact H].
Qed.

(** A row that may stand after every row of the scan, and comes last in
    it, comes last in the result: the sort is stable. *)
Lemma insert_sorted_snoc (a x : A) (s : list A) :
  before a x = true ->
  insert_sorted before a (s ++ [x]) = insert_sorted before a s ++ [x].
Proof.
  intro Hax. induction s as [|y s IH]; simpl.
  - now rewrite Hax.
  - destruct (before a y); [reflexivity|]. now rewrite IH.
Qed.

Lemma order_by_snoc (l : list A) (x : A) :
  Forall (fun y => before y x = true) l ->
  order_by before (l ++ [x]) = order_by before l ++ [x].
Proof.
  induction 1 as [|a l Ha _ IH]; simpl.
  - reflexivity.
  - rewrite IH. now apply insert_sorted_snoc.
Qed.

Hypothesis before_total : forall x y, before x y = false -> before y x = true.
Hypothesis before_trans :
  forall x y z, before x y = true -> before y z = true -> before x z = true.

Lemma insert_sorted_sorted (x : A) (l : list A) :
  StronglySorted (fun a b => before a b = true) l ->
  StronglySorted (fun a b => before a b = true) (insert_sorted before x l).
Proof.
  induction 1 as [|y r Hr IH Hy]; simpl.
  - constructor; constructor.
  - destruct (before x y) eqn:E.
    + constructor.
      * now constructor.
      * constructor; [exact E|].
        eapply Forall_impl; [|exact Hy].
        intros z Hz. now apply before_trans with y.
    + constructor; [exact IH|].
      rewrite Forall_forall. intros z Hz.
      apply (Permutation_in _ (Permutation_sym (insert_sorted_perm x r))) in Hz.
      destruct Hz as [<- | Hz].
      * now apply before_total.
      * rewrite Forall_forall in Hy. now apply Hy.
Qed.

Lemma order_by_sorted (l : list A) :
  StronglySorted (fun a b => before a b = true) (order_by before l).
Proof.
  induction l as [|x r IH]; simpl.
  - constructor.
  - now apply insert_sorted_sorted.
Qed.

Lemma insert_sorted_app (a : A) (p r : list A) :
  insert_sorted before a (p ++ r)
  = if existsb (before a) p then insert_sorted before a p ++ r
    else p ++ insert_sorted before a r.
Proof.
  induction p as [|y p IH]; simpl.
  - reflexivity.
  - destruct (before a y); simpl; [reflexivity|].
    rewrite IH. now destruct (existsb (before a) p).
Qed.

(** Where the last row of the scan lands: after the rows that may stand
    before it (equal keys included: the sort is stable), before the
    others. *)
Lemma order_by_last (l : list A) (x : A) :
  exists p r : list A,
    order_by before l = p ++ r
    /\ order_by before (l ++ [x]) = p ++ x :: r
    /\ Forall (fun y => before y x = true) p
    /\ Forall (fun y => before y x = false) r.
Proof.
  induction l as [|a l IH].
  - exists [], []. repeat split; constructor.
  - destruct IH as [p [r [E1 [E2 [Hp Hr]]]]].
    cbn [app order_by fold_right]. fold (order_by before l).
    fold (order_by before (l ++ [x])). rewrite E1, E2.
    rewrite !insert_sorted_app.
    destruct (existsb (before a) p) eqn:Ex.
    + exists (insert_sorted before a p), r. repeat split; try assumption.
      apply existsb_exists in Ex. destruct Ex as [y [Hy Hay]].
      rewrite Forall_forall in Hp |- *. intros z Hz.
      apply (Permutation_in _ (Permutation_sym (insert_sorted_perm a p))) in Hz.
      destruct Hz as [<- | Hz]; [|now apply Hp].
      apply before_trans with y; [exact Hay | now apply Hp].
    + cbn [insert_sorted]. destruct (before a x) eqn:Eax.
      * exists (p ++ [a]), r. rewrite <- !app_assoc. cbn [app].
        repeat split; try assumption.
        -- f_equal. destruct r as [|z r]; [reflexivity|]. cbn [insert_sorted].
           replace (before a z) with true; [reflexivity|]. symmetry.
           apply before_trans with x; [exact Eax|].
           apply before_total. now inversion Hr.
        -- apply Forall_app. split; [exact Hp|]. now constructor.
      * exists p, (insert_sorted before a r). repeat split; try assumption.
        rewrite Forall_forall in Hr |- *. intros z Hz.
        apply (Permutation_in _ (Permutation_sym (insert_sorted_perm a r))) in Hz.
        destruct Hz as [<- | Hz]; [exact Eax | now apply Hr].
Qed.

End OrderBy.

Lemma asc_total {A} (key : A -> Z) (x y : A) :
  asc key x y = false -> asc key y x = true.
Proof. unfold asc. rewrite Z.leb_gt, Z.leb_le. lia. Qed.

Lemma asc_trans {A} (key : A -> Z) (x y z : A) :
  asc key x y = true -> asc key y z = true -> asc key x z = true.
Proof. unfold asc. rewrite !Z.leb_le. lia. Qed.

Lemma desc_total {A} (key : A -> Z) (x y : A) :
  desc key x y = false -> desc key y x = true.
Proof. unfold desc. rewrite Z.leb_gt, Z.leb_le. lia. Qed.

Lemma desc_trans {A} (key : A -> Z) (x y z : A) :
  desc key x y = true -> desc key y z = true -> desc key x z = true.
Proof. unfold desc. rewrite !Z.leb_le. lia. Qed.

End SqlFacts.

(* ================================================================== *)
(** ** The persistence store *)

Module StoreFacts.

Import Py CareerCounselingDB Props.

Lemma existsb_none {A} (f : A -> bool) (l : list A) :
  (forall x, In x l -> f x = false) -> existsb f l = false.
Proof.
  induction l as [|a l IH]; simpl; intro H; [reflexivity|].
  rewrite (H a) by now left. apply IH. intros x Hx. apply H. now right.
Qed.

Lemma find_snoc {A} (f : A -> bool) (l : list A) (x : A) :
  (forall y, In y l -> f y = false) -> f x = true ->
  find f (l ++ [x]) = Some x.
Proof.
  induction l as [|a l IH]; simpl; intros H Hx.
  - now rewrite Hx.
  - rewrite (H a) by now left. apply IH; [|exact Hx].
    intros y Hy. apply H. now right.
Qed.

Lemma filter_snoc {A} (f : A -> bool) (l : list A) (x : A) :
  filter f (l ++ [x]) = filter f l ++ (if f x then [x] else []).
Proof.
  induction l as [|a l IH]; simpl.
  - reflexivity.
  - rewrite IH. now destruct (f a).
Qed.

Lemma strongly_sorted_weaken {A} (R S : A -> A -> Prop) (l : list A) :
  (forall a b, R a b -> S a b) -> StronglySorted R l -> StronglySorted S l.
Proof.
  intro H. induction 1 as [|a l _ IH Ha]; constructor; [exact IH|].
  eapply Forall_impl; [|exact Ha]. intros b. apply H.
Qed.

Lemma strongly_sorted_map {A B} (f : A -> B) (R : B -> B -> Prop) (l : list A) :
  StronglySorted (fun a b => R (f a) (f b)) l -> StronglySorted R (map f l).
Proof.
  induction 1 as [|a l _ IH Ha]; simpl; constructor; [exact IH|].
  rewrite Forall_map. exact Ha.
Qed.

Lemma max_rowid_nonneg (ids : list Z) : 0 <= Sql.max_rowid ids.
Proof. induction ids; simpl; lia. Qed.

Lemma next_rowid_positive (seq : Z) (ids : list Z) : 0 < Sql.next_rowid seq ids.
Proof. unfold Sql.next_rowid. pose proof (max_rowid_nonneg ids). lia. Qed.

(** *** The clock *)

Lemma clock_ok_init (now : Z) : clock_ok now (init_db None).
Proof. split; constructor. Qed.

Lemma clock_ok_later (t t' : Z) (db : DB) :
  clock_ok t db -> t <= t' -> clock_ok t' db.
Proof.
  intros [Hm Hs] Hle. split.
  - eapply Forall_impl; [|exact Hm]. simpl. intros; lia.
  - eapply Forall_impl; [|exact Hs]. simpl. intros; lia.
Qed.

Lemma clock_ok_create_session (now : Z) (uuid4 name : string) (uid : Z) (db : DB) :
  clock_ok now db -> clock_ok now (fst (create_session now uuid4 uid name db)).
Proof.
  intros [Hm Hs]. unfold create_session.
  destruct (existsb _ _); simpl; [now split|].
  split; [exact Hm|]. simpl. apply Forall_app. split; [exact Hs|].
  constructor; [simpl; lia | constructor].
Qed.

Lemma clock_ok_save_message (now : Z) (sid : option string) (uid : Z)
      (role body : string) (db : DB) :
  clock_ok now db -> clock_ok now (save_message now sid uid role body db).
Proof.
  intros [Hm Hs]. unfold save_message.
  split; cbn [chat_messages chat_sessions with_sessions with_messages].
  - apply Forall_app. split; [exact Hm|].
    constructor; [simpl; lia | constructor].
  - rewrite Forall_map. eapply Forall_impl; [|exact Hs].
    intros s Hle. cbn beta in Hle |- *. unfold touched.
    destruct (Sql.text_eq (Some (s_session_id s)) sid); simpl; lia.
Qed.

Lemma clock_ok_update_user_profile (now uid : Z) (bg : option string)
      (tags : Json.pyobj) (db : DB) :
  clock_ok now db -> clock_ok now (update_user_profile uid bg tags db).
Proof. intros [Hm Hs]. split; assumption. Qed.

Lemma clock_ok_create_user (now : Z) (uuid4 : string) (u e p : pystr)
      (fn ph : string) (db : DB) :
  clock_ok now db -> clock_ok now (fst (create_user now uuid4 u e p fn ph db)).
Proof.
  intro H. unfold create_user.
  destruct (hash_password p) as [h|x]; [|exact H].
  destruct (insert_user now u e h fn ph db) as [[db1 uid]|x] eqn:E.
  - assert (H1 : clock_ok now db1).
    { unfold insert_user in E. destruct u as [u|]; [|discriminate].
      destruct e as [e|]; [|discriminate].
      destruct (_ || _); [discriminate|]. inversion E; subst. exact H. }
    pose proof (clock_ok_create_session now uuid4 default_session_name uid db1 H1) as H2.
    destruct (create_session now uuid4 uid default_session_name db1) as [db2 [sid|x]];
      [exact H2|]. now destruct x.
  - now destruct x.
Qed.

(** *** Chat history *)

Lemma chat_messages_save_message (now : Z) (sid : option string) (uid : Z)
      (role body : string) (db : DB) :
  chat_messages (save_message now sid uid role body db)
  = chat_messages db
    ++ [mkMessageRow (Sql.next_rowid (chat_messages_seq db)
                                     (map m_id (chat_messages db)))
                     sid uid role body now].
Proof. reflexivity. Qed.

Lemma history_rows_owned (sid : option string) (uid : Z) (db : DB) :
  Forall (fun m => In m (chat_messages db)
                   /\ m_user_id m = uid
                   /\ Sql.text_eq (m_session_id m) sid = true)
         (select_chat_history sid uid db).
Proof.
  unfold select_chat_history. rewrite Forall_forall. intros m Hm.
  apply SqlFacts.order_by_In in Hm. apply filter_In in Hm.
  destruct Hm as [Hin Hp]. apply andb_true_iff in Hp. destruct Hp as [Hs Hu].
  apply Z.eqb_eq in Hu. auto.
Qed.

End StoreFacts.

Module StoreSpec.

Import Py CareerCounselingDB Props StoreFacts.

(** C1: for a username and an email that no stored user has, and any
    password, full name and phone, [create_user] returns a positive
    identifier, and [verify_user] with the same username and password then
    returns the user just created (not [None]).  The identifier that
    [uuid4] yields for the default session is assumed new. *)
Theorem create_user_then_verify
        (now : Z) (uuid4 u e p fn ph : string) (db : DB) :
  ~ In u (map u_username (users db)) ->
  ~ In e (map u_email (users db)) ->
  ~ In uuid4 (map s_session_id (chat_sessions db)) ->
  exists (uid : Z) (db' : DB),
    create_user now uuid4 (Some u) (Some e) (Some p) fn ph db
    = (db', Ok (Some uid))
    /\ 0 < uid
    /\ verify_user (Some u) (Some p) db'
       = Ok (Some (mkUser uid u e (Some fn) (Some ph) None (Json.PyList []))).
Proof.
  intros Hu He Hs.
  assert (Eu : existsb (fun r => String.eqb (u_username r) u) (users db) = false).
  { apply existsb_none. intros r Hr. apply String.eqb_neq. intro E.
    apply Hu. rewrite <- E. now apply in_map. }
  assert (Ee : existsb (fun r => String.eqb (u_email r) e) (users db) = false).
  { apply existsb_none. intros r Hr. apply String.eqb_neq. intro E.
    apply He. rewrite <- E. now apply in_map. }
  assert (Es : existsb (fun s => String.eqb (s_session_id s) uuid4)
                       (chat_sessions db) = false).
  { apply existsb_none. intros r Hr. apply String.eqb_neq. intro E.
    apply Hs. rewrite <- E. now apply in_map. }
  unfold create_user, hash_password, insert_user. rewrite Eu, Ee.
  cbn [orb]. unfold create_session.
  cbn [chat_sessions with_users]. rewrite Es.
  eexists _, _. split; [reflexivity|]. split; [apply next_rowid_positive|].
  unfold verify_user, hash_password. cbn [bind users with_sessions with_users].
  rewrite find_snoc.
  - reflexivity.
  - intros r Hr. cbn [Sql.text_eq]. apply andb_false_iff. left.
    apply String.eqb_neq. intro E. apply Hu. rewrite <- E. now apply in_map.
  - cbn [Sql.text_eq u_username u_password_hash].
    now rewrite !String.eqb_refl.
Qed.

Lemma create_user_then_verify_witness :
  (~ In "alice" (map u_username (users Scenario.fresh_db))
   /\ ~ In "a@x.com" (map u_email (users Scenario.fresh_db))
   /\ ~ In Scenario.uuid_a (map s_session_id (chat_sessions Scenario.fresh_db)))
  /\ exists (uid : Z) (db' : DB),
    create_user 100 Scenario.uuid_a (Some "alice") (Some "a@x.com") (Some "pw")
                "Alice" "" Scenario.fresh_db
    = (db', Ok (Some uid))
    /\ 0 < uid
    /\ verify_user (Some "alice") (Some "pw") db'
       = Ok (Some (mkUser uid "alice" "a@x.com" (Some "Alice") (Some "") None (Json.PyList []))).
Proof.
  split; [simpl; tauto|].
  apply (create_user_then_verify 100 Scenario.uuid_a "alice" "a@x.com" "pw"
                                 "Alice" "" Scenario.fresh_db);
    simpl; tauto.
Defined.

(** C4: a signup attempt whose username or email a stored user already
    has makes [create_user] return [None] (a returned value, not a raised
    exception) and leaves the database, hence the stored users, as it
    was. *)
Theorem create_user_duplicate
        (now : Z) (uuid4 u e p fn ph : string) (db : DB) :
  In u (map u_username (users db)) \/ In e (map u_email (users db)) ->
  create_user now uuid4 (Some u) (Some e) (Some p) fn ph db = (db, Ok None).
Proof.
  intro H.
  assert (E : existsb (fun r => String.eqb (u_username r) u) (users db)
              || existsb (fun r => String.eqb (u_email r) e) (users db) = true).
  { apply orb_true_iff. destruct H as [H | H]; [left | right];
      apply in_map_iff in H; destruct H as [r [Hr Hin]];
      apply existsb_exists; exists r; (split; [exact Hin|]);
      now apply String.eqb_eq. }
  unfold create_user, hash_password, insert_user. now rewrite E.
Qed.

Lemma create_user_duplicate_witness :
  (In "alice" (map u_username (users (App.db_after Scenario.after_signup)))
   \/ In "b@x.com" (map u_email (users (App.db_after Scenario.after_signup))))
  /\ create_user 200 Scenario.uuid_b (Some "alice") (Some "b@x.com") (Some "pw2")
              "Alice B" "" (App.db_after Scenario.after_signup)
  = (App.db_after Scenario.after_signup, Ok None).
Proof.
  assert (H : In "alice" (map u_username (users (App.db_after Scenario.after_signup)))
              \/ In "b@x.com" (map u_email (users (App.db_after Scenario.after_signup)))).
  { left. vm_compute. now left. }
  split; [exact H|].
  exact (create_user_duplicate 200 Scenario.uuid_b "alice" "b@x.com" "pw2"
                               "Alice B" "" (App.db_after Scenario.after_signup) H).
Defined.

(** C2, counterexample: a message saved at second 103 to a session that
    holds a message of second 105 is listed before it, not after. *)
Lemma save_message_before_older :
  get_chat_history (Some Scenario.uuid_a) 1 Cases.one_message
  = [mkMessage "user" "first" 105]
  /\ get_chat_history (Some Scenario.uuid_a) 1
       (save_message 103 (Some Scenario.uuid_a) 1 "assistant" "second"
                     Cases.one_message)
     = [mkMessage "assistant" "second" 103; mkMessage "user" "first" 105].
Proof.
  split; reflexivity.
Qed.

(** C2, amended: saving a message and then reading the history of the same
    session and user returns the former history with that message put in,
    carrying the role and text it was saved with.  The history is in
    ascending order of timestamp; the message stands after every former
    entry whose timestamp is not later than its own and before the others.
    When no stored timestamp is later than the time of the save, it is the
    last entry: it stands after every message saved before it. *)
Theorem save_message_then_history
        (now : Z) (sid : string) (uid : Z) (role body : string) (db : DB) :
  let former := get_chat_history (Some sid) uid db in
  let history :=
    get_chat_history (Some sid) uid
                     (save_message now (Some sid) uid role body db) in
  (exists earlier later : list Message,
      former = earlier ++ later
      /\ history = earlier ++ mkMessage role body now :: later
      /\ Forall (fun m => timestamp m <= now) earlier
      /\ Forall (fun m => now < timestamp m) later)
  /\ StronglySorted (fun a b => timestamp a <= timestamp b) history
  /\ (clock_ok now db -> history = former ++ [mkMessage role body now]).
Proof.
  cbv zeta. unfold get_chat_history, select_chat_history.
  rewrite chat_messages_save_message, filter_snoc.
  cbn [m_session_id m_user_id Sql.text_eq].
  rewrite String.eqb_refl, Z.eqb_refl. cbn [andb].
  set (rows := filter _ (chat_messages db)).
  set (row := mkMessageRow _ (Some sid) uid role body now).
  split; [|split].
  - destruct (SqlFacts.order_by_last (Sql.asc m_timestamp)
                (SqlFacts.asc_total m_timestamp)
                (SqlFacts.asc_trans m_timestamp) rows row)
      as [p [r [E1 [E2 [Hp Hr]]]]].
    exists (map message_of_row p), (map message_of_row r).
    rewrite E1, E2, !map_app. cbn [map]. repeat split.
    + rewrite Forall_map. eapply Forall_impl; [|exact Hp].
      intros m H. unfold Sql.asc in H. apply Z.leb_le in H. exact H.
    + rewrite Forall_map. eapply Forall_impl; [|exact Hr].
      intros m H. unfold Sql.asc in H. apply Z.leb_gt in H. exact H.
  - apply strongly_sorted_map.
    eapply strongly_sorted_weaken;
      [|apply (SqlFacts.order_by_sorted (Sql.asc m_timestamp)
                 (SqlFacts.asc_total m_timestamp)
                 (SqlFacts.asc_trans m_timestamp))].
    intros a b H. unfold Sql.asc in H. apply Z.leb_le in H. exact H.
  - intros [Hm _]. rewrite SqlFacts.order_by_snoc.
    + now rewrite map_app.
    + rewrite Forall_forall. intros m Hin. apply filter_In in Hin.
      destruct Hin as [Hin _]. rewrite Forall_forall in Hm.
      unfold Sql.asc. cbn [m_timestamp]. apply Z.leb_le. now apply Hm.
Qed.

Lemma save_message_then_history_witness :
  clock_ok 106 Cases.one_message
  /\ get_chat_history (Some Scenario.uuid_a) 1 Cases.one_message
     = [mkMessage "user" "first" 105]
  /\ get_chat_history (Some Scenario.uuid_a) 1
       (save_message 106 (Some Scenario.uuid_a) 1 "assistant" "second"
                     Cases.one_message)
     = [mkMessage "user" "first" 105] ++ [mkMessage "assistant" "second" 106].
Proof.
  assert (H : clock_ok 106 Cases.one_message).
  { split; vm_compute; repeat constructor; discriminate. }
  split; [exact H|]. split; [reflexivity|].
  exact (proj2 (proj2 (save_message_then_history 106 Scenario.uuid_a 1
                         "assistant" "second" Cases.one_message)) H).
Defined.

(** C10: [get_chat_history] returns the projection of stored message rows
    that all carry the queried user id (and the queried session id): a
    message of another user is never among them. *)
Theorem get_chat_history_own_messages
        (sid : option string) (uid : Z) (db : DB) :
  get_chat_history sid uid db
  = map message_of_row (select_chat_history sid uid db)
  /\ Forall (fun m => In m (chat_messages db)
                      /\ m_user_id m = uid
                      /\ m_session_id m = sid)
            (select_chat_history sid uid db)
  /\ Forall (fun m => m_user_id m = uid \/ ~ In m (select_chat_history sid uid db))
            (chat_messages db).
Proof.
  split; [reflexivity|].
  pose proof (history_rows_owned sid uid db) as H. split.
  - eapply Forall_impl; [|exact H]. intros m [Hin [Hu Hs]].
    repeat split; try assumption.
    unfold Sql.text_eq in Hs. destruct (m_session_id m), sid; try discriminate.
    apply String.eqb_eq in Hs. now subst.
  - rewrite Forall_forall. intros m _.
    destruct (Z.eq_dec (m_user_id m) uid) as [E | N]; [now left | right].
    intro Hin. rewrite Forall_forall in H. now destruct (H m Hin) as [_ [Hu _]].
Qed.

(** *** Session lists *)

Lemma chat_sessions_save_message (now : Z) (sid : option string) (uid : Z)
      (role body : string) (db : DB) :
  chat_sessions (save_message now sid uid role body db)
  = map (touched now sid) (chat_sessions db).
Proof. reflexivity. Qed.

Lemma select_user_sessions_sorted (uid : Z) (db : DB) :
  StronglySorted (fun a b => s_updated_at b <= s_updated_at a)
                 (select_user_sessions uid db).
Proof.
  unfold select_user_sessions.
  eapply strongly_sorted_weaken;
    [| apply SqlFacts.order_by_sorted;
       [apply SqlFacts.desc_total | apply SqlFacts.desc_trans]].
  intros a b H. unfold Sql.desc in H. now apply Z.leb_le.
Qed.

Lemma select_user_sessions_In (uid : Z) (db : DB) (s : SessionRow) :
  In s (select_user_sessions uid db)
  <-> In s (chat_sessions db) /\ s_user_id s = uid.
Proof.
  unfold select_user_sessions.
  rewrite SqlFacts.order_by_In, filter_In, Z.eqb_eq. tauto.
Qed.

(** Two saves in the same second leave the same session table whichever
    comes first: no way of ordering rows with equal updated-at can put the
    session saved to last in front in both orders. *)
Lemma save_message_same_second
      (now : Z) (sid1 sid2 : option string) (uid1 uid2 : Z)
      (role1 body1 role2 body2 : string) (db : DB) :
  chat_sessions (save_message now sid2 uid2 role2 body2
                              (save_message now sid1 uid1 role1 body1 db))
  = chat_sessions (save_message now sid1 uid1 role1 body1
                                (save_message now sid2 uid2 role2 body2 db)).
Proof.
  rewrite !chat_sessions_save_message, !map_map.
  apply map_ext. intro s. unfold touched.
  destruct (Sql.text_eq (Some (s_session_id s)) sid1) eqn:E1;
    destruct (Sql.text_eq (Some (s_session_id s)) sid2) eqn:E2;
    cbn [s_session_id]; rewrite ?E1, ?E2; reflexivity.
Qed.

(** C3, counterexample: a user with two sessions touched in the same
    second; a message saved to the second one leaves the first one at the
    head of the list. *)
Lemma save_message_not_first :
  In Scenario.uuid_b
     (map session_id (get_user_sessions 1 Scenario.two_sessions))
  /\ Scenario.two_sessions_saved
     = save_message 100 (Some Scenario.uuid_b) 1 "user" "hello"
                    Scenario.two_sessions
  /\ hd_error (map session_id (get_user_sessions 1 Scenario.two_sessions_saved))
     <> Some Scenario.uuid_b.
Proof.
  split; [|split].
  - vm_compute. right. now left.
  - reflexivity.
  - vm_compute. discriminate.
Qed.

(** C3, amended: [get_user_sessions] returns exactly the sessions of the
    user, ordered by updated-at descending; after [save_message] on one of
    the user's sessions, that session is the first element provided every
    other session of the user carries an updated-at strictly earlier than
    the clock reading of the save. *)
Theorem get_user_sessions_order
        (now : Z) (sid : string) (uid author : Z) (role body : string) (db : DB) :
  In sid (map session_id (get_user_sessions uid db)) ->
  Forall (fun s => s_user_id s = uid -> s_session_id s <> sid ->
                   s_updated_at s < now)
         (chat_sessions db) ->
  (forall u d,
      get_user_sessions u d = map session_info (select_user_sessions u d)
      /\ StronglySorted (fun a b => s_updated_at b <= s_updated_at a)
                        (select_user_sessions u d)
      /\ Permutation (filter (fun s => s_user_id s =? u) (chat_sessions d))
                     (select_user_sessions u d))
  /\ exists first rest,
      get_user_sessions uid (save_message now (Some sid) author role body db)
      = first :: rest
      /\ session_id first = sid
      /\ updated_at first = now.
Proof.
  intros Hin Hlt. split.
  { intros u d. split; [reflexivity|]. split.
    - apply select_user_sessions_sorted.
    - apply SqlFacts.order_by_perm. }
  set (db' := save_message now (Some sid) author role body db).
  set (upd := touched now (Some sid)).
  assert (Hupd_user : forall s, s_user_id (upd s) = s_user_id s).
  { intro s. unfold upd, touched. now destruct (Sql.text_eq _ _). }
  (* the session saved to, as a row of the table *)
  unfold get_user_sessions in Hin. rewrite map_map in Hin.
  apply in_map_iff in Hin. destruct Hin as [r0 [Hsid Hr0]].
  cbn [session_info session_id] in Hsid.
  apply select_user_sessions_In in Hr0. destruct Hr0 as [Hr0 Hu0].
  assert (H0 : In (upd r0) (select_user_sessions uid db')).
  { apply select_user_sessions_In. split.
    - unfold db'. rewrite chat_sessions_save_message.
      now apply (in_map upd).
    - now rewrite Hupd_user. }
  assert (Hnow : s_updated_at (upd r0) = now).
  { unfold upd, touched. cbn [Sql.text_eq].
    rewrite Hsid, String.eqb_refl. reflexivity. }
  destruct (select_user_sessions uid db') as [|h t] eqn:E; [destruct H0|].
  exists (session_info h), (map session_info t).
  split; [unfold get_user_sessions; now rewrite E|].
  (* the head carries the greatest updated-at *)
  assert (Hmax : now <= s_updated_at h).
  { pose proof (select_user_sessions_sorted uid db') as S. rewrite E in S.
    apply StronglySorted_inv in S. destruct S as [_ Hall].
    destruct H0 as [Eh | H0]; [rewrite Eh; lia|].
    rewrite Forall_forall in Hall. specialize (Hall _ H0). lia. }
  assert (Hh : In h (select_user_sessions uid db')) by (rewrite E; now left).
  apply select_user_sessions_In in Hh. destruct Hh as [Hh Hhu].
  unfold db' in Hh. rewrite chat_sessions_save_message in Hh.
  apply in_map_iff in Hh. destruct Hh as [r [Hr Hrin]].
  fold upd in Hr. subst h. rewrite Hupd_user in Hhu.
  cbn [session_info session_id updated_at].
  unfold upd, touched in *. cbn [Sql.text_eq] in *.
  destruct (String.eqb (s_session_id r) sid) eqn:Eq.
  - apply String.eqb_eq in Eq. cbn. auto.
  - apply String.eqb_neq in Eq. rewrite Forall_forall in Hlt.
    specialize (Hlt r Hrin Hhu Eq). lia.
Qed.

Lemma get_user_sessions_order_witness :
  In Scenario.uuid_b
     (map session_id (get_user_sessions 1 Scenario.two_sessions))
  /\ exists first rest,
      get_user_sessions 1
        (save_message 101 (Some Scenario.uuid_b) 1 "user" "hello"
                      Scenario.two_sessions)
      = first :: rest
      /\ session_id first = Scenario.uuid_b
      /\ updated_at first = 101.
Proof.
  assert (H : In Scenario.uuid_b
                 (map session_id (get_user_sessions 1 Scenario.two_sessions))).
  { vm_compute. right. now left. }
  split; [exact H|].
  apply (get_user_sessions_order 101 Scenario.uuid_b 1 1 "user" "hello"
                                 Scenario.two_sessions H).
  vm_compute. repeat constructor; intros; lia.
Defined.

End StoreSpec.

(* ================================================================== *)
(** ** json: decoding what the encoder wrote *)

Module JsonFacts.

Import Json.

Lemma append_assoc (a b c : string) :
  ((a ++ b) ++ c)%string = (a ++ (b ++ c))%string.
Proof. induction a as [|x a IH]; simpl; [reflexivity | now rewrite IH]. Qed.

Lemma append_empty (a : string) : (a ++ EmptyString)%string = a.
Proof. induction a as [|x a IH]; simpl; [reflexivity | now rewrite IH]. Qed.

Lemma length_append (a b : string) :
  String.length (a ++ b) = (String.length a + String.length b)%nat.
Proof. induction a as [|x a IH]; simpl; [reflexivity | now rewrite IH]. Qed.

(** *** Characters and code points *)

Lemma code_chr (n : Z) : 0 <= n < 256 -> code (chr n) = n.
Proof.
  intro H. unfold code, chr. rewrite nat_ascii_embedding; lia.
Qed.

Lemma code_inj (c d : ascii) : code c = code d -> c = d.
Proof.
  unfold code. intro H. apply Nat2Z.inj in H.
  rewrite <- (ascii_nat_embedding c), <- (ascii_nat_embedding d).
  now rewrite H.
Qed.

Lemma below_forall (P : Z -> bool) (k : nat) :
  forallb P (map Z.of_nat (seq 0 k)) = true ->
  forall n, 0 <= n < Z.of_nat k -> P n = true.
Proof.
  intros H n Hn. rewrite forallb_forall in H. apply H.
  rewrite <- (Z2Nat.id n) by lia. apply in_map. apply in_seq. lia.
Qed.

(** *** The four hex digits of an escape *)

Lemma hex_value_hex_digit (v : Z) :
  0 <= v < 16 -> hex_value (Sha256.hex_digit v) = Some v.
Proof.
  intro H.
  assert (C : v = 0 \/ v = 1 \/ v = 2 \/ v = 3 \/ v = 4 \/ v = 5 \/ v = 6
              \/ v = 7 \/ v = 8 \/ v = 9 \/ v = 10 \/ v = 11 \/ v = 12
              \/ v = 13 \/ v = 14 \/ v = 15) by lia.
  repeat (destruct C as [-> | C]; [reflexivity|]). subst. reflexivity.
Qed.

Lemma land_15 (x : Z) : Z.land x 15 = x mod 16.
Proof. change 15 with (Z.ones 4). now rewrite Z.land_ones by lia. Qed.

(** The escape of a code point below 0x10000 is [\u] and four digits that
    read back as the code point. *)
Lemma uXXXX_shape (n : Z) :
  0 <= n < 65536 ->
  exists a b c d : ascii,
    (forall t : string,
        (uXXXX n ++ t)%string
        = String backslash
            (String "u" (String a (String b (String c (String d t))))))
    /\ decode_uXXXX a b c d = Some n.
Proof.
  intro H. unfold uXXXX. cbn [Sha256.hex].
  eexists _, _, _, _. split; [intro t; reflexivity|].
  unfold decode_uXXXX. rewrite !land_15, !Z.shiftr_div_pow2 by lia.
  change (2 ^ 4) with 16.
  rewrite !hex_value_hex_digit by (apply Z.mod_pos_bound; lia).
  f_equal. Z.div_mod_to_equations. lia.
Qed.

(** *** Surrogate pairs *)

Lemma lor_high_table :
  forallb (fun a => (Z.lor 55296 a =? 55296 + a) && (Z.lor 56320 a =? 56320 + a))
          (map Z.of_nat (seq 0 1024)) = true.
Proof. vm_compute. reflexivity. Qed.

Lemma land_1023 (v : Z) : 0 <= Z.land v 1023 < 1024.
Proof.
  change 1023 with (Z.ones 10). rewrite Z.land_ones by lia.
  apply Z.mod_pos_bound. lia.
Qed.

Lemma lor_shiftl_parts (v : Z) :
  0 <= v < 1048576 ->
  Z.lor (Z.shiftl (Z.land (Z.shiftr v 10) 1023) 10) (Z.land v 1023) = v.
Proof.
  intro H. apply Z.bits_inj'. intros i Hi.
  rewrite Z.lor_spec. change 1023 with (Z.ones 10).
  destruct (Z.ltb_spec i 10) as [L | G].
  - rewrite Z.shiftl_spec_low by lia. rewrite Z.land_spec.
    rewrite Z.ones_spec_low by lia. cbn [orb]. apply andb_true_r.
  - rewrite Z.shiftl_spec_high by lia. rewrite !Z.land_spec.
    rewrite (Z.ones_spec_high 10 i) by lia.
    rewrite andb_false_r, orb_false_r.
    rewrite Z.shiftr_spec by lia. replace (i - 10 + 10) with i by lia.
    destruct (Z.ltb_spec i 20) as [L | G'].
    + rewrite Z.ones_spec_low by lia. apply andb_true_r.
    + rewrite Z.ones_spec_high by lia. rewrite andb_false_r.
      symmetry. destruct (Z.eq_dec v 0) as [-> | Nz]; [apply Z.bits_0|].
      apply Z.bits_above_log2; [lia|].
      apply Z.log2_lt_pow2; [lia|].
      apply Z.lt_le_trans with (2 ^ 20); [exact (proj2 H)|].
      apply Z.pow_le_mono_r; lia.
Qed.

Lemma surrogates_of (n : Z) :
  65536 <= n <= 1114111 ->
  let high := Z.lor 55296 (Z.land (Z.shiftr (n - 65536) 10) 1023) in
  let low := Z.lor 56320 (Z.land (n - 65536) 1023) in
  is_high_surrogate high = true /\ is_low_surrogate low = true
  /\ join_surrogates high low = n.
Proof.
  intros H high low.
  pose proof (land_1023 (Z.shiftr (n - 65536) 10)) as Ba.
  pose proof (land_1023 (n - 65536)) as Bb.
  pose proof (below_forall _ _ lor_high_table _ Ba) as Ta.
  pose proof (below_forall _ _ lor_high_table _ Bb) as Tb.
  cbv beta in Ta, Tb.
  apply andb_true_iff in Ta. destruct Ta as [Ta _]. apply Z.eqb_eq in Ta.
  apply andb_true_iff in Tb. destruct Tb as [_ Tb]. apply Z.eqb_eq in Tb.
  subst high low. rewrite Ta, Tb.
  unfold is_high_surrogate, is_low_surrogate, join_surrogates.
  split; [apply andb_true_iff; split; apply Z.leb_le; lia|].
  split; [apply andb_true_iff; split; apply Z.leb_le; lia|].
  replace (55296 + Z.land (Z.shiftr (n - 65536) 10) 1023 - 55296)
    with (Z.land (Z.shiftr (n - 65536) 10) 1023) by lia.
  replace (56320 + Z.land (n - 65536) 1023 - 56320)
    with (Z.land (n - 65536) 1023) by lia.
  rewrite lor_shiftl_parts by lia. lia.
Qed.

(** *** Reading back one escaped code point *)

Lemma scanstring_plain (c : ascii) (r : string) :
  (code c =? 34) = false -> (code c =? 92) = false -> (code c <? 32) = false ->
  scanstring (String c r) = prepend (code c) (scanstring r).
Proof.
  intros H1 H2 H3. cbn [scanstring]. now rewrite H1, H2, H3.
Qed.

(** An escape that is not a high surrogate is read on its own. *)
Lemma scanstring_uXXXX (n : Z) (t : string) :
  0 <= n < 65536 -> is_high_surrogate n = false ->
  scanstring (uXXXX n ++ t) = prepend n (scanstring t).
Proof.
  intros H Hh. destruct (uXXXX_shape n H) as [a [b [c [d [S D]]]]].
  rewrite S.
  change (scanstring
            (String backslash
               (String "u" (String a (String b (String c (String d t)))))))
    with (match decode_uXXXX a b c d with
          | Some uni =>
              if is_high_surrogate uni then
                match t with
                | String e1 (String e2 r3) =>
                    if (code e1 =? 92) && (code e2 =? 117) then
                      match r3 with
                      | String a2 (String b2 (String x2 (String d2 r4))) =>
                          match decode_uXXXX a2 b2 x2 d2 with
                          | Some uni2 =>
                              if is_low_surrogate uni2
                              then prepend (join_surrogates uni uni2)
                                           (scanstring r4)
                              else prepend uni (scanstring t)
                          | None => None
                          end
                      | _ => prepend uni (scanstring t)
                      end
                    else prepend uni (scanstring t)
                | _ => prepend uni (scanstring t)
                end
              else prepend uni (scanstring t)
          | None => None
          end).
  now rewrite D, Hh.
Qed.

(** The escape of a high surrogate is read on its own when the text after
    it does not start with the escape of a low surrogate. *)
Lemma scanstring_high (n : Z) (t : string) :
  0 <= n < 65536 ->
  (forall (a b c d : ascii) (r : string),
      t = String backslash (String "u" (String a (String b (String c (String d r))))) ->
      exists m, decode_uXXXX a b c d = Some m /\ is_low_surrogate m = false) ->
  scanstring (uXXXX n ++ t) = prepend n (scanstring t).
Proof.
  intros H Ht. destruct (uXXXX_shape n H) as [a [b [c [d [S D]]]]].
  rewrite S.
  change (scanstring
            (String backslash
               (String "u" (String a (String b (String c (String d t)))))))
    with (match decode_uXXXX a b c d with
          | Some uni =>
              if is_high_surrogate uni then
                match t with
                | String e1 (String e2 r3) =>
                    if (code e1 =? 92) && (code e2 =? 117) then
                      match r3 with
                      | String a2 (String b2 (String x2 (String d2 r4))) =>
                          match decode_uXXXX a2 b2 x2 d2 with
                          | Some uni2 =>
                              if is_low_surrogate uni2
                              then prepend (join_surrogates uni uni2)
                                           (scanstring r4)
                              else prepend uni (scanstring t)
                          | None => None
                          end
                      | _ => prepend uni (scanstring t)
                      end
                    else prepend uni (scanstring t)
                | _ => prepend uni (scanstring t)
                end
              else prepend uni (scanstring t)
          | None => None
          end).
  rewrite D. destruct (is_high_surrogate n); [|reflexivity].
  destruct t as [|e1 [|e2 r3]]; try reflexivity.
  destruct ((code e1 =? 92) && (code e2 =? 117)) eqn:E; [|reflexivity].
  destruct r3 as [|a2 [|b2 [|x2 [|d2 r4]]]]; try reflexivity.
  apply andb_true_iff in E. destruct E as [E1 E2].
  apply Z.eqb_eq in E1, E2.
  assert (e1 = backslash) by (apply code_inj; exact E1).
  assert (e2 = "u"%char) by (apply code_inj; exact E2).
  subst e1 e2.
  destruct (Ht a2 b2 x2 d2 r4 eq_refl) as [m [Dm Lm]].
  now rewrite Dm, Lm.
Qed.

(** A code point above 0xFFFF is written as two escapes and read as one
    code point. *)
Lemma scanstring_pair (n : Z) (t : string) :
  65536 <= n <= 1114111 ->
  scanstring (uXXXX (Z.lor 55296 (Z.land (Z.shiftr (n - 65536) 10) 1023))
              ++ uXXXX (Z.lor 56320 (Z.land (n - 65536) 1023)) ++ t)
  = prepend n (scanstring t).
Proof.
  intro H. destruct (surrogates_of n H) as [Hh [Hl J]]. cbv zeta in Hh, Hl, J.
  set (high := Z.lor 55296 _) in *. set (low := Z.lor 56320 _) in *.
  assert (Bh : 0 <= high < 65536).
  { unfold is_high_surrogate in Hh. apply andb_true_iff in Hh.
    destruct Hh as [A B]. apply Z.leb_le in A, B. lia. }
  assert (Bl : 0 <= low < 65536).
  { unfold is_low_surrogate in Hl. apply andb_true_iff in Hl.
    destruct Hl as [A B]. apply Z.leb_le in A, B. lia. }
  destruct (uXXXX_shape high Bh) as [a [b [c [d [S D]]]]].
  destruct (uXXXX_shape low Bl) as [a2 [b2 [c2 [d2 [S2 D2]]]]].
  rewrite S, S2.
  change (scanstring
            (String backslash
               (String "u" (String a (String b (String c (String d
                 (String backslash
                    (String "u" (String a2 (String b2 (String c2
                       (String d2 t)))))))))))))
    with (match decode_uXXXX a b c d with
          | Some uni =>
              if is_high_surrogate uni then
                match decode_uXXXX a2 b2 c2 d2 with
                | Some uni2 =>
                    if is_low_surrogate uni2
                    then prepend (join_surrogates uni uni2) (scanstring t)
                    else prepend uni
                           (scanstring
                              (String backslash
                                 (String "u" (String a2 (String b2 (String c2
                                    (String d2 t)))))))
                | None => None
                end
              else prepend uni
                     (scanstring
                        (String backslash
                           (String "u" (String a2 (String b2 (String c2
                              (String d2 t)))))))
          | None => None
          end).
  now rewrite D, Hh, D2, Hl, J.
Qed.

Lemma string_inj (c d : ascii) (s t : string) :
  String c s = String d t -> c = d /\ s = t.
Proof. intro H. now injection H. Qed.

Lemma escape_digits (a b c d a' b' c' d' : ascii) (r t : string) :
  String backslash (String "u" (String a' (String b' (String c' (String d' t)))))
  = String backslash (String "u" (String a (String b (String c (String d r))))) ->
  a' = a /\ b' = b /\ c' = c /\ d' = d.
Proof.
  intro E.
  apply string_inj in E. destruct E as [_ E].
  apply string_inj in E. destruct E as [_ E].
  apply string_inj in E. destruct E as [Ea E].
  apply string_inj in E. destruct E as [Eb E].
  apply string_inj in E. destruct E as [Ec E].
  apply string_inj in E. destruct E as [Ed _].
  now repeat split.
Qed.

Lemma high_not_low (n : Z) :
  is_high_surrogate n = true -> is_low_surrogate n = false.
Proof.
  unfold is_high_surrogate, is_low_surrogate. intro H.
  apply andb_true_iff in H. destruct H as [A B]. apply Z.leb_le in A, B.
  apply andb_false_iff. left. apply Z.leb_gt. lia.
Qed.

(** The text of an escaped code point that is not a low surrogate does
    not start with the escape of a low surrogate. *)
Lemma escape_char_not_low (m : Z) (t : string) :
  is_code_point m = true -> is_low_surrogate m = false ->
  forall (a b c d : ascii) (r : string),
    (escape_char m ++ t)%string
    = String backslash (String "u" (String a (String b (String c (String d r))))) ->
    exists k, decode_uXXXX a b c d = Some k /\ is_low_surrogate k = false.
Proof.
  intros Hc Hl a b c d r. unfold is_code_point in Hc.
  apply andb_true_iff in Hc. destruct Hc as [C0 C1].
  apply Z.leb_le in C0, C1. unfold escape_char.
  destruct (m =? 34); [intro E; discriminate E|].
  destruct (Z.eqb_spec m 92) as [|N92]; [intro E; discriminate E|].
  destruct (m =? 8); [intro E; discriminate E|].
  destruct (m =? 12); [intro E; discriminate E|].
  destruct (m =? 10); [intro E; discriminate E|].
  destruct (m =? 13); [intro E; discriminate E|].
  destruct (m =? 9); [intro E; discriminate E|].
  destruct ((32 <=? m) && (m <=? 126)) eqn:P.
  - apply andb_true_iff in P. destruct P as [P0 P1]. apply Z.leb_le in P0, P1.
    cbn [append]. intro E. exfalso. injection E as E _.
    apply (f_equal code) in E. rewrite code_chr in E by lia.
    change (code backslash) with 92 in E. contradiction.
  - destruct (Z.ltb_spec m 65536) as [L | G].
    + destruct (uXXXX_shape m (conj C0 L)) as [a' [b' [c' [d' [S D]]]]].
      rewrite S. intro E. apply escape_digits in E.
      destruct E as [-> [-> [-> ->]]]. now exists m.
    + assert (R : 65536 <= m <= 1114111) by lia.
      destruct (surrogates_of m R) as [Hh [_ _]]. cbv zeta in Hh.
      set (high := Z.lor 55296 _) in *.
      assert (Bh : 0 <= high < 65536).
      { unfold is_high_surrogate in Hh. apply andb_true_iff in Hh.
        destruct Hh as [A B]. apply Z.leb_le in A, B. lia. }
      destruct (uXXXX_shape high Bh) as [a' [b' [c' [d' [S D]]]]].
      rewrite append_assoc, S. intro E. apply escape_digits in E.
      destruct E as [-> [-> [-> ->]]]. exists high. split; [exact D | now apply high_not_low].
Qed.

(** One escaped code point reads back as itself when it is not a high
    surrogate that stands before a low one. *)
Lemma scanstring_escape_char (n : Z) (t : string) :
  is_code_point n = true ->
  (is_high_surrogate n = true ->
   forall (a b c d : ascii) (r : string),
     t = String backslash (String "u" (String a (String b (String c (String d r))))) ->
     exists m, decode_uXXXX a b c d = Some m /\ is_low_surrogate m = false) ->
  scanstring (escape_char n ++ t) = prepend n (scanstring t).
Proof.
  intros Hc Ht. unfold is_code_point in Hc.
  apply andb_true_iff in Hc. destruct Hc as [C0 C1].
  apply Z.leb_le in C0, C1. unfold escape_char.
  destruct (Z.eqb_spec n 34) as [->|N34]; [reflexivity|].
  destruct (Z.eqb_spec n 92) as [->|N92]; [reflexivity|].
  destruct (Z.eqb_spec n 8) as [->|N8]; [reflexivity|].
  destruct (Z.eqb_spec n 12) as [->|N12]; [reflexivity|].
  destruct (Z.eqb_spec n 10) as [->|N10]; [reflexivity|].
  destruct (Z.eqb_spec n 13) as [->|N13]; [reflexivity|].
  destruct (Z.eqb_spec n 9) as [->|N9]; [reflexivity|].
  destruct ((32 <=? n) && (n <=? 126)) eqn:P.
  - apply andb_true_iff in P. destruct P as [P0 P1]. apply Z.leb_le in P0, P1.
    cbn [append]. rewrite scanstring_plain; rewrite code_chr by lia.
    + reflexivity.
    + now apply Z.eqb_neq.
    + now apply Z.eqb_neq.
    + apply Z.ltb_ge. lia.
  - destruct (Z.ltb_spec n 65536) as [L | G].
    + destruct (is_high_surrogate n) eqn:Hh.
      * apply scanstring_high; [lia | now apply Ht].
      * apply scanstring_uXXXX; [lia | exact Hh].
    + rewrite append_assoc. apply scanstring_pair. lia.
Qed.

(** *** Reading back one string *)

Lemma scanstring_escape (s : ustr) (rest : string) :
  forallb is_code_point s = true -> has_surrogate_pair s = false ->
  scanstring (escape s ++ String quote rest) = Some (s, rest).
Proof.
  induction s as [|n s IH]; intros Hc Hp.
  - reflexivity.
  - cbn [forallb] in Hc. apply andb_true_iff in Hc. destruct Hc as [Hn Hs].
    cbn [has_surrogate_pair] in Hp. apply orb_false_iff in Hp.
    destruct Hp as [Hnext Hp].
    cbn [escape]. rewrite append_assoc, scanstring_escape_char.
    + now rewrite IH.
    + exact Hn.
    + intros Hh a b c d r. destruct s as [|m s'].
      * cbn [escape append]. intro E. discriminate E.
      * rewrite Hh in Hnext. cbn [andb] in Hnext.
        cbn [forallb] in Hs. apply andb_true_iff in Hs. destruct Hs as [Hm _].
        cbn [escape]. rewrite append_assoc.
        now apply escape_char_not_low.
Qed.

Lemma encode_unfold (s : ustr) (rest : string) :
  (encode_basestring_ascii s ++ rest)%string
  = String quote (escape s ++ String quote rest).
Proof.
  unfold encode_basestring_ascii. cbn [append]. now rewrite append_assoc.
Qed.

(** *** Reading back a list of strings *)

Lemma dumps_list (x : pyobj) (r : list pyobj) :
  dumps (PyList (x :: r)) = ("[" ++ dumps x ++ list_rest r)%string.
Proof.
  reflexivity.
Qed.

Lemma scan_once_string (f : nat) (s : ustr) (rest : string) :
  forallb is_code_point s = true -> has_surrogate_pair s = false ->
  scan_once (S f) (encode_basestring_ascii s ++ rest) = Some (PyStr s, rest).
Proof.
  intros H1 H2. rewrite encode_unfold. cbn [scan_once].
  change (code quote =? 34) with true. cbn iota.
  now rewrite scanstring_escape.
Qed.

Lemma JSONArray_unfold (f : nat) (acc : list pyobj) (s : string) :
  JSONArray (S f) acc s
  = match scan_once f s with
    | Some (v, rest) =>
        match skip_ws rest with
        | String d rest' =>
            if code d =? 93 then Some (PyList (acc ++ [v]), rest')
            else if code d =? 44 then
              JSONArray f (acc ++ [v]) (skip_ws rest')
            else None
        | EmptyString => None
        end
    | None => None
    end.
Proof. reflexivity. Qed.

Lemma JSONArray_strings (items : list ustr) :
  forall (x : ustr) (acc : list pyobj) (rest : string) (fuel : nat),
    Forall (fun s => forallb is_code_point s = true
                     /\ has_surrogate_pair s = false) (x :: items) ->
    (List.length items + 1 < fuel)%nat ->
    JSONArray fuel acc
              (encode_basestring_ascii x
               ++ list_rest (map PyStr items) ++ rest)
    = Some (PyList (acc ++ map PyStr (x :: items)), rest).
Proof.
  induction items as [|y r IH]; intros x acc rest fuel Hok Hfuel;
    (destruct fuel as [|[|f]]; [inversion Hfuel | cbn in Hfuel; lia |]);
    inversion Hok as [|? ? [Hx1 Hx2] Hrest]; subst;
    rewrite JSONArray_unfold, (scan_once_string f x _ Hx1 Hx2).
  - reflexivity.
  - cbn [map list_rest dumps]. rewrite !append_assoc.
    change (skip_ws ((", " ++ encode_basestring_ascii y
                      ++ list_rest (map PyStr r) ++ rest)%string))
      with (String "," (String " " (encode_basestring_ascii y
                                    ++ list_rest (map PyStr r) ++ rest))).
    cbn iota. change (code "," =? 93) with false.
    change (code "," =? 44) with true. cbn iota.
    rewrite (encode_unfold y).
    change (skip_ws (String " " (String quote ?t))) with (String quote t).
    rewrite <- (encode_unfold y), IH.
    + now rewrite <- app_assoc.
    + exact Hrest.
    + cbn [List.length] in Hfuel. lia.
Qed.

Lemma list_rest_length (items : list pyobj) :
  (List.length items < String.length (list_rest items))%nat.
Proof.
  induction items as [|x r IH]; simpl; [lia|].
  rewrite length_append. lia.
Qed.

(** Decoding the text written for a list of strings gives the list back,
    when no string holds a high surrogate followed at once by a low
    one. *)
Lemma loads_dumps (tags : list ustr) :
  Forall (fun s => forallb is_code_point s = true
                   /\ has_surrogate_pair s = false) tags ->
  loads (dumps (PyList (map PyStr tags))) = Some (PyList (map PyStr tags)).
Proof.
  intro Hok. destruct tags as [|x r]; [reflexivity|].
  cbn [map]. rewrite dumps_list. unfold loads.
  set (fuel := (2 * String.length _ + 2)%nat).
  assert (Hfuel : (List.length r + 2 < fuel)%nat).
  { subst fuel. cbn [append String.length]. rewrite length_append.
    pose proof (list_rest_length (map PyStr r)) as L.
    rewrite length_map in L. lia. }
  clearbody fuel. destruct fuel as [|f]; [inversion Hfuel|].
  cbn [dumps].
  change (skip_ws ("[" ++ encode_basestring_ascii x ++ list_rest (map PyStr r))%string)
    with (String "[" (encode_basestring_ascii x ++ list_rest (map PyStr r))).
  cbn [scan_once].
  change (code "[" =? 34) with false. change (code "[" =? 123) with false.
  change (code "[" =? 91) with true. cbn iota.
  rewrite (encode_unfold x).
  change (skip_ws (String quote ?t)) with (String quote t).
  cbn iota. change (code quote =? 93) with false. cbn iota.
  rewrite <- (encode_unfold x).
  rewrite <- (append_empty (list_rest (map PyStr r))).
  rewrite (JSONArray_strings r x [] EmptyString f Hok) by lia.
  reflexivity.
Qed.

(** The text written for a list is never the empty string. *)
Lemma dumps_list_not_empty (items : list pyobj) :
  exists c t, dumps (PyList items) = String c t.
Proof.
  destruct items as [|x r]; [now exists "["%char, "]" | ].
  rewrite dumps_list. now eexists _, _.
Qed.

End JsonFacts.

(* ================================================================== *)
(** ** The profile of a user *)

Module ProfileSpec.

Import Py CareerCounselingDB.

Lemma find_map_same {A} (f : A -> bool) (g : A -> A) (l : list A) :
  (forall x, f (g x) = f x) ->
  find f (map g l) = option_map g (find f l).
Proof.
  intro H. induction l as [|a l IH]; simpl; [reflexivity|].
  rewrite H. now destruct (f a).
Qed.

Lemma find_by_id_some (uid : Z) (rows : list UserRow) :
  In uid (map u_id rows) ->
  exists r, find (fun r => u_id r =? uid) rows = Some r /\ u_id r = uid.
Proof.
  induction rows as [|a l IH]; simpl; [easy|].
  intro H. destruct (u_id a =? uid) eqn:E.
  - exists a. split; [reflexivity | now apply Z.eqb_eq].
  - apply IH. destruct H as [H | H]; [|exact H].
    apply Z.eqb_neq in E. contradiction.
Qed.

Lemma users_update_user_profile (uid : Z) (bg : option string)
      (tags : Json.pyobj) (db : DB) :
  users (update_user_profile uid bg tags db)
  = map (updated uid bg tags) (users db).
Proof. reflexivity. Qed.

Lemma user_of_row_updated (uid : Z) (bg : option string)
      (tags : list Json.ustr) (r : UserRow) :
  Forall (fun tag => forallb Json.is_code_point tag = true
                     /\ Json.has_surrogate_pair tag = false) tags ->
  u_id r = uid ->
  user_of_row (updated uid bg (Json.PyList (map Json.PyStr tags)) r)
  = Ok (mkUser uid (u_username r) (u_email r) (u_full_name r)
               (u_phone_number r) bg (Json.PyList (map Json.PyStr tags))).
Proof.
  intros Hok E. unfold updated. rewrite E, Z.eqb_refl.
  unfold user_of_row. cbn [u_interests].
  destruct (JsonFacts.dumps_list_not_empty (map Json.PyStr tags)) as [c [t Ed]].
  rewrite Ed, <- Ed, (JsonFacts.loads_dumps tags Hok). reflexivity.
Qed.

Lemma id_of_row (r : UserRow) (u : User) :
  user_of_row r = Ok u -> id u = u_id r.
Proof.
  unfold user_of_row.
  destruct (match u_interests r with
            | Some (String c t) =>
                match Json.loads (String c t) with
                | Some v => Ok v
                | None => Raise JSONDecodeError
                end
            | _ => Ok (Json.PyList [])
            end) as [l|x]; simpl; [|discriminate].
  intro H. inversion H. reflexivity.
Qed.

(** C9, counterexample: a tag that holds a high surrogate followed at
    once by a low surrogate is stored as the two escapes that json writes
    for one code point above 0xFFFF, and is read back as that one code
    point: the list returned is not the list stored. *)
Lemma update_profile_joins_surrogates :
  get_user_by_id 1
    (update_user_profile 1 None (Json.PyList [Json.PyStr [55357; 56832]])
                         (App.db_after Scenario.after_signup))
  = Ok (Some (mkUser 1 "alice" "a@x.com" (Some "Alice") (Some "") None
                     (Json.PyList [Json.PyStr [128512]])))
  /\ Json.dumps (Json.PyList [Json.PyStr [55357; 56832]])
     = Json.dumps (Json.PyList [Json.PyStr [128512]]).
Proof.
  split; vm_compute; reflexivity.
Qed.

(** C9, amended: after [update_user_profile] stores a list of interest
    tags (possibly empty) for an existing user, [get_user_by_id] returns
    that user with the same list, and so does [verify_user] for
    credentials that identify the user: the serialised text is read back
    as the list that was written.  The tags are strings over all code
    points; none holds a high surrogate followed at once by a low
    surrogate. *)
Theorem update_profile_round_trip
        (uid : Z) (bg : option string) (tags : list Json.ustr) (db : DB) :
  In uid (map u_id (users db)) ->
  Forall (fun tag => forallb Json.is_code_point tag = true
                     /\ Json.has_surrogate_pair tag = false) tags ->
  let stored := Json.PyList (map Json.PyStr tags) in
  (exists u,
      get_user_by_id uid (update_user_profile uid bg stored db) = Ok (Some u)
      /\ id u = uid /\ interests u = stored)
  /\ (forall name pw u0,
         verify_user name pw db = Ok (Some u0) -> id u0 = uid ->
         exists u,
           verify_user name pw (update_user_profile uid bg stored db)
           = Ok (Some u)
           /\ id u = uid /\ interests u = stored).
Proof.
  intros Hin Hok stored. subst stored. split.
  - destruct (find_by_id_some uid (users db) Hin) as [r [Hf Hr]].
    unfold get_user_by_id. rewrite users_update_user_profile.
    rewrite find_map_same.
    + rewrite Hf. cbn [option_map fetched_user].
      rewrite (user_of_row_updated uid bg tags r Hok Hr). cbn [bind].
      eexists. split; [reflexivity|]. now split.
    + intro x. unfold updated.
      destruct (u_id x =? uid) eqn:E; [exact E | exact E].
  - intros name pw u0 Hv Hid. unfold verify_user in *.
    destruct (hash_password pw) as [h|x]; [|discriminate].
    cbn [bind] in *. rewrite users_update_user_profile, find_map_same.
    + destruct (find _ (users db)) as [r|]; [|discriminate].
      cbn [option_map fetched_user] in *.
      destruct (user_of_row r) as [u1|x] eqn:Eu; [|discriminate].
      cbn [bind] in Hv. inversion Hv; subst u1.
      apply id_of_row in Eu. rewrite Hid in Eu.
      rewrite (user_of_row_updated uid bg tags r Hok (eq_sym Eu)). cbn [bind].
      eexists. split; [reflexivity|]. now split.
    + intro x. unfold updated. now destruct (u_id x =? uid).
Qed.

Lemma update_profile_round_trip_witness :
  (In 1 (map u_id (users (App.db_after Scenario.after_signup)))
   /\ Forall (fun tag => forallb Json.is_code_point tag = true
                         /\ Json.has_surrogate_pair tag = false)
             [Json.ustr_of "data science"; [26085; 128512; 56832; 55357]])
  /\ exists u,
      get_user_by_id 1
        (update_user_profile 1 (Some "FSc Pre-Medical")
           (Json.PyList [Json.PyStr (Json.ustr_of "data science");
                         Json.PyStr [26085; 128512; 56832; 55357]])
           (App.db_after Scenario.after_signup))
      = Ok (Some u)
      /\ id u = 1
      /\ interests u
         = Json.PyList [Json.PyStr (Json.ustr_of "data science");
                        Json.PyStr [26085; 128512; 56832; 55357]].
Proof.
  assert (H : In 1 (map u_id (users (App.db_after Scenario.after_signup)))).
  { vm_compute. now left. }
  assert (K : Forall (fun tag => forallb Json.is_code_point tag = true
                                 /\ Json.has_surrogate_pair tag = false)
                     [Json.ustr_of "data science"; [26085; 128512; 56832; 55357]]).
  { repeat constructor. }
  split; [now split|].
  exact (proj1 (update_profile_round_trip 1 (Some "FSc Pre-Medical")
                  [Json.ustr_of "data science"; [26085; 128512; 56832; 55357]]
                  (App.db_after Scenario.after_signup) H K)).
Defined.

End ProfileSpec.

(* ================================================================== *)
(** ** The answer generator and the routes *)

Module AppSpec.

Import Py App Props.

Lemma lstrip_blank (s : string) : only_whitespace s = true -> lstrip s = EmptyString.
Proof.
  induction s as [|c s IH]; simpl; [reflexivity|].
  intro H. apply andb_true_iff in H. destruct H as [Hc Hs].
  rewrite Hc. now apply IH.
Qed.

Lemma strip_blank (s : string) : only_whitespace s = true -> strip s = EmptyString.
Proof. intro H. unfold strip. now rewrite (lstrip_blank s H). Qed.

(** C6: [get_ai_response] returns a string for every question and never
    raises: the fixed unavailability message when no model is configured,
    the fixed apology whenever the retrieval, the model invocation or the
    reading of the reply raises, and the model's answer otherwise. *)
Theorem get_ai_response_never_raises (ai : Components) (question : string) :
  (model ai = None -> get_ai_response ai question = unavailable)
  /\ (forall invoke,
         model ai = Some invoke ->
         (forall e, ask invoke (retriever ai) question = Raise e ->
                    get_ai_response ai question = apology)
         /\ ((forall prompt, exists e, invoke prompt = Raise e) ->
             get_ai_response ai question = apology)
         /\ (forall answer, ask invoke (retriever ai) question = Ok answer ->
                            get_ai_response ai question = answer))
  /\ (get_ai_response ai question = unavailable
      \/ get_ai_response ai question = apology
      \/ exists invoke,
          model ai = Some invoke
          /\ ask invoke (retriever ai) question = Ok (get_ai_response ai question)).
Proof.
  unfold get_ai_response. split; [|split].
  - now intros ->.
  - intros invoke ->. split; [|split].
    + now intros e ->.
    + intro Hraise. unfold ask.
      destruct (retriever ai) as [retrieve|].
      * destruct (retrieve question) as [docs|e]; [|reflexivity].
        cbn [bind].
        destruct (Hraise (rag_prompt (join (nl ++ nl) docs) question)) as [e ->].
        reflexivity.
      * destruct (Hraise (simple_prompt question)) as [e ->]. reflexivity.
    + now intros answer ->.
  - destruct (model ai) as [invoke|]; [|now left].
    destruct (ask invoke (retriever ai) question) as [answer|e] eqn:E.
    + right. right. now exists invoke.
    + right. now left.
Qed.

Lemma get_ai_response_never_raises_witness :
  get_ai_response Scenario.failing_ai "Which degree suits me?" = apology.
Proof.
  apply (proj1 (proj2 (proj1 (proj2
           (get_ai_response_never_raises Scenario.failing_ai
                                         "Which degree suits me?"))
           _ eq_refl))).
  intro prompt. now exists (OtherError "timeout").
Defined.

(** C5: an authenticated POST to /api/chat whose message is absent, empty
    or made of whitespace only is answered with status 400 and a JSON
    error body, and the database is left as it was: neither a user message
    nor an assistant message is stored. *)
Theorem api_chat_blank_message
        (database_available : bool) (ai : Components) (t1 t2 uid : Z)
        (members : list (string * Json.value)) (session : Session)
        (db : DB.DB) :
  user_id session = Some uid ->
  (Json.get "message" members = None
   \/ exists s, Json.get "message" members = Some (Json.Str s)
                /\ only_whitespace s = true) ->
  api_chat database_available ai t1 t2 (Some (Json.Obj members)) session db
  = mkHandled db session (Ok (jsonify (error_body "Message is empty") 400)).
Proof.
  intros Hauth Hblank. unfold api_chat, message_of. rewrite Hauth.
  destruct Hblank as [-> | [s [-> Hs]]].
  - reflexivity.
  - now rewrite (strip_blank s Hs).
Qed.

Lemma api_chat_blank_message_witness :
  (user_id (session_after Scenario.after_signup) = Some 1
   /\ exists s, Json.get "message" Scenario.blank = Some (Json.Str s)
                /\ only_whitespace s = true)
  /\ api_chat true Scenario.no_ai 101 102 (Some (Json.Obj Scenario.blank))
              (session_after Scenario.after_signup)
              (db_after Scenario.after_signup)
     = mkHandled (db_after Scenario.after_signup)
                 (session_after Scenario.after_signup)
                 (Ok (jsonify (error_body "Message is empty") 400)).
Proof.
  assert (Ha : user_id (session_after Scenario.after_signup) = Some 1)
    by reflexivity.
  assert (Hb : exists s, Json.get "message" Scenario.blank = Some (Json.Str s)
                         /\ only_whitespace s = true)
    by (exists "   "; split; reflexivity).
  split; [now split|].
  exact (api_chat_blank_message true Scenario.no_ai 101 102 1 Scenario.blank
           (session_after Scenario.after_signup)
           (db_after Scenario.after_signup) Ha (or_intror Hb)).
Defined.

(** /api/chat stores the session id it finds in the cookie, also when the
    cookie has none. *)
Lemma api_chat_stores_cookie_session
      (ai : Components) (t1 t2 uid : Z) (body : string)
      (members : list (string * Json.value)) (session : Session) (db : DB.DB) :
  user_id session = Some uid ->
  Json.get "message" members = Some (Json.Str body) ->
  truthy (Some (strip body)) = true ->
  exists m1 m2,
    DB.chat_messages
      (db_after (api_chat true ai t1 t2 (Some (Json.Obj members)) session db))
    = DB.chat_messages db ++ [m1; m2]
    /\ DB.m_session_id m1 = session_id session
    /\ DB.m_session_id m2 = session_id session.
Proof.
  intros Hauth Hmsg Hbody. unfold api_chat, message_of.
  rewrite Hauth, Hmsg, Hbody. cbn [negb db_after].
  rewrite !StoreFacts.chat_messages_save_message, <- app_assoc.
  eexists _, _. split; [reflexivity|]. now split.
Qed.

(** C7, the failing run: a signup on a fresh database followed at once by
    a POST to /api/chat.  Both requests succeed, and the two messages the
    second one stores carry no session id, although the signup created a
    session for the user. *)
Theorem chat_after_signup_stores_orphans :
  response Scenario.after_signup = Ok (redirect "dashboard")
  /\ refs_ok (db_after Scenario.after_signup) = true
  /\ (exists answer,
         response Scenario.chat_after_signup
         = Ok (jsonify (Json.Obj [("response", Json.Str answer);
                                  ("session_id", Json.Null)]) 200))
  /\ map DB.m_session_id (DB.chat_messages (db_after Scenario.chat_after_signup))
     = [None; None]
  /\ map DB.s_session_id (DB.chat_sessions (db_after Scenario.chat_after_signup))
     = [Scenario.uuid_a]
  /\ refs_ok (db_after Scenario.chat_after_signup) = false
  /\ DB.get_chat_history None 1 (db_after Scenario.chat_after_signup) = [].
Proof.
  repeat split; try reflexivity.
  eexists. vm_compute. reflexivity.
Qed.




(** In demo mode a login whose form has no username field succeeds and
    stores [None] under both names. *)
Lemma demo_login_without_username :
  response (login false 100 Scenario.uuid_a POST [] no_session (DB.init_db None))
  = Ok (redirect "dashboard")
  /\ username (session_after (login false 100 Scenario.uuid_a POST [] no_session
                                (DB.init_db None))) = Some None
  /\ full_name (session_after (login false 100 Scenario.uuid_a POST [] no_session
                                 (DB.init_db None))) = Some None.
Proof.
  repeat split.
Qed.



End AppSpec.

(* ================================================================== *)
(** ** The store: keys, frames and lookups *)

Module StoreMore.

Import Py CareerCounselingDB Props Inv StoreFacts.

Lemma nodup_snoc {A} (l : list A) (x : A) :
  NoDup l -> ~ In x l -> NoDup (l ++ [x]).
Proof.
  induction l as [|a l IH]; simpl; intros Hl Hx.
  - constructor; [easy | constructor].
  - inversion Hl as [|? ? Ha Hl']; subst. constructor.
    + rewrite in_app_iff. simpl. intros [H | [H | []]]; [easy|].
      apply Hx. now left.
    + apply IH; [exact Hl'|]. intro H. apply Hx. now right.
Qed.

Lemma existsb_eqb_false {A} (f : A -> string) (l : list A) (x : string) :
  existsb (fun r => String.eqb (f r) x) l = false <-> ~ In x (map f l).
Proof.
  split.
  - intros H Hin. apply in_map_iff in Hin. destruct Hin as [r [E Hr]].
    assert (T : existsb (fun r => String.eqb (f r) x) l = true).
    { apply existsb_exists. exists r. split; [exact Hr|]. now apply String.eqb_eq. }
    congruence.
  - intro H. apply existsb_none. intros r Hr. apply String.eqb_neq.
    intro E. apply H. rewrite <- E. now apply in_map.
Qed.

Lemma next_rowid_greater (seq : Z) (ids : list Z) (i : Z) :
  In i ids -> i < Sql.next_rowid seq ids.
Proof.
  unfold Sql.next_rowid. induction ids as [|a l IH]; simpl; [easy|].
  intros [-> | H]; [lia|]. specialize (IH H). lia.
Qed.

Lemma next_rowid_new (seq : Z) (ids : list Z) :
  ~ In (Sql.next_rowid seq ids) ids.
Proof. intro H. apply (next_rowid_greater seq) in H. lia. Qed.

Lemma find_none_iff {A} (f : A -> bool) (l : list A) :
  find f l = None <-> forall x, In x l -> f x = false.
Proof.
  split.
  - intros H x Hx. now apply (find_none f l H).
  - induction l as [|a l IH]; simpl; intro H; [reflexivity|].
    rewrite (H a) by now left. apply IH. intros x Hx. apply H. now right.
Qed.

Lemma find_app_found {A} (f : A -> bool) (l l' : list A) (x : A) :
  find f l = Some x -> find f (l ++ l') = Some x.
Proof.
  induction l as [|a l IH]; simpl; [discriminate|].
  destruct (f a); [easy | exact IH].
Qed.

Lemma find_by_id_found (uid : Z) (rows : list UserRow) :
  In uid (map u_id rows) ->
  exists r, find (fun r => u_id r =? uid) rows = Some r.
Proof.
  induction rows as [|a l IH]; simpl; [easy|].
  intro H. destruct (u_id a =? uid) eqn:E; [now exists a|].
  apply IH. destruct H as [H | H]; [|exact H].
  apply Z.eqb_neq in E. contradiction.
Qed.

(** *** What each method does to the tables *)

Lemma session_ids_touched (now : Z) (sid : option string) (rows : list SessionRow) :
  map s_session_id (map (touched now sid) rows) = map s_session_id rows.
Proof.
  rewrite map_map. apply map_ext. intro s. unfold touched.
  now destruct (Sql.text_eq _ _).
Qed.

Lemma session_owners_touched (now : Z) (sid : option string) (rows : list SessionRow) :
  map s_user_id (map (touched now sid) rows) = map s_user_id rows.
Proof.
  rewrite map_map. apply map_ext. intro s. unfold touched.
  now destruct (Sql.text_eq _ _).
Qed.

Lemma user_columns_updated (uid : Z) (bg : option string) (tags : Json.pyobj)
      (rows : list UserRow) :
  map u_id (map (updated uid bg tags) rows) = map u_id rows
  /\ map u_username (map (updated uid bg tags) rows) = map u_username rows
  /\ map u_email (map (updated uid bg tags) rows) = map u_email rows
  /\ map u_password_hash (map (updated uid bg tags) rows)
     = map u_password_hash rows.
Proof.
  repeat split; rewrite map_map; apply map_ext; intro r; unfold updated;
    now destruct (u_id r =? uid).
Qed.

(** The database a successful [create_user] leaves. *)
Lemma create_user_fresh (now : Z) (uuid4 u e p fn ph : string) (db : DB) :
  ~ In u (map u_username (users db)) ->
  ~ In e (map u_email (users db)) ->
  ~ In uuid4 (session_ids db) ->
  create_user now uuid4 (Some u) (Some e) (Some p) fn ph db
  = (let uid := Sql.next_rowid (users_seq db) (map u_id (users db)) in
     mkDB (users db
           ++ [mkUserRow uid u e (Sha256.hexdigest (encode p)) (Some fn)
                         (Some ph) None None now])
          uid
          (chat_sessions db
           ++ [mkSessionRow uuid4 uid default_session_name now now])
          (chat_messages db) (chat_messages_seq db),
     Ok (Some (Sql.next_rowid (users_seq db) (map u_id (users db))))).
Proof.
  intros Hu He Hs.
  apply existsb_eqb_false in Hu. apply existsb_eqb_false in He.
  apply existsb_eqb_false in Hs.
  unfold create_user, hash_password, insert_user. rewrite Hu, He.
  cbn [orb]. unfold create_session. cbn [chat_sessions with_users].
  rewrite Hs. reflexivity.
Qed.

(** X1: looking up the user that [create_user] has just stored, by the
    returned id, gives that user; every user stored before is found as
    before, and no message is touched. *)
Theorem create_user_then_get_user_by_id
        (now : Z) (uuid4 u e p fn ph : string) (db : DB) :
  ~ In u (map u_username (users db)) ->
  ~ In e (map u_email (users db)) ->
  ~ In uuid4 (session_ids db) ->
  exists (uid : Z) (db' : DB),
    create_user now uuid4 (Some u) (Some e) (Some p) fn ph db
    = (db', Ok (Some uid))
    /\ ~ In uid (user_ids db)
    /\ get_user_by_id uid db'
       = Ok (Some (mkUser uid u e (Some fn) (Some ph) None (Json.PyList [])))
    /\ (forall old, In old (user_ids db) ->
                    get_user_by_id old db' = get_user_by_id old db)
    /\ chat_messages db' = chat_messages db.
Proof.
  intros Hu He Hs. rewrite (create_user_fresh now uuid4 u e p fn ph db Hu He Hs).
  cbv zeta. eexists _, _. split; [reflexivity|].
  split; [apply next_rowid_new|].
  unfold get_user_by_id. cbn [users]. split; [|split; [|reflexivity]].
  - rewrite find_snoc.
    + reflexivity.
    + intros r Hr. apply Z.eqb_neq. intro E.
      apply (next_rowid_new (users_seq db) (map u_id (users db))).
      rewrite <- E. now apply in_map.
    + cbn [u_id]. apply Z.eqb_refl.
  - intros old Hold. destruct (find_by_id_found old (users db) Hold) as [r Hr].
    now rewrite (find_app_found _ _ _ _ Hr), Hr.
Qed.

Lemma create_user_then_get_user_by_id_witness :
  (~ In "bob" (map u_username (users (App.db_after Scenario.after_signup)))
   /\ ~ In "b@x.com" (map u_email (users (App.db_after Scenario.after_signup)))
   /\ ~ In Scenario.uuid_b (session_ids (App.db_after Scenario.after_signup)))
  /\ exists (uid : Z) (db' : DB),
      create_user 200 Scenario.uuid_b (Some "bob") (Some "b@x.com")
                  (Some "hunter2") "Bob" "" (App.db_after Scenario.after_signup)
      = (db', Ok (Some uid))
      /\ ~ In uid (user_ids (App.db_after Scenario.after_signup))
      /\ get_user_by_id uid db'
         = Ok (Some (mkUser uid "bob" "b@x.com" (Some "Bob") (Some "") None (Json.PyList [])))
      /\ (forall old, In old (user_ids (App.db_after Scenario.after_signup)) ->
                      get_user_by_id old db'
                      = get_user_by_id old (App.db_after Scenario.after_signup))
      /\ chat_messages db' = chat_messages (App.db_after Scenario.after_signup).
Proof.
  assert (H1 : ~ In "bob" (map u_username (users (App.db_after Scenario.after_signup)))).
  { vm_compute. intros [H | []]. discriminate. }
  assert (H2 : ~ In "b@x.com" (map u_email (users (App.db_after Scenario.after_signup)))).
  { vm_compute. intros [H | []]. discriminate. }
  assert (H3 : ~ In Scenario.uuid_b (session_ids (App.db_after Scenario.after_signup))).
  { vm_compute. intros [H | []]. discriminate. }
  split; [now repeat split|].
  exact (create_user_then_get_user_by_id 200 Scenario.uuid_b "bob" "b@x.com"
           "hunter2" "Bob" "" (App.db_after Scenario.after_signup) H1 H2 H3).
Defined.

End StoreMore.

(* ================================================================== *)
(** ** The store: what a method leaves alone *)

Module StoreFrames.

Import Py CareerCounselingDB Props Inv StoreFacts StoreMore.

Lemma text_eq_true (a b : option string) :
  Sql.text_eq a b = true -> a = b /\ a <> None.
Proof.
  destruct a as [x|], b as [y|]; simpl; try discriminate.
  intro H. apply String.eqb_eq in H. subst. split; [reflexivity | discriminate].
Qed.

(** X2: a lookup with a key that is not stored returns [None]: a user id
    that SQLite can hold (64 bits, signed) and that no user has, for
    [get_user_by_id]; an unknown or missing username for [verify_user],
    whatever the password.  A missing password makes [verify_user] raise
    before it reads the database.  (An integer outside the 64-bit range is
    not covered: sqlite3 refuses to bind it.) *)
Theorem lookups_of_unknown_keys (uid : Z) (u : string) (db : DB) :
  Props.sqlite_integer uid ->
  ~ In uid (user_ids db) ->
  ~ In u (map u_username (users db)) ->
  get_user_by_id uid db = Ok None
  /\ (forall p, verify_user (Some u) (Some p) db = Ok None)
  /\ (forall p, verify_user None (Some p) db = Ok None)
  /\ (forall name, verify_user name None db = Raise AttributeError).
Proof.
  intros _ Hid Hu. split; [|split; [|split]].
  - unfold get_user_by_id.
    replace (find (fun r => u_id r =? uid) (users db)) with (@None UserRow);
      [reflexivity|].
    symmetry. apply find_none_iff. intros r Hr. apply Z.eqb_neq. intro E.
    apply Hid. rewrite <- E. now apply in_map.
  - intro p. unfold verify_user, hash_password. cbn [bind].
    match goal with |- fetched_user ?f = _ => replace f with (@None UserRow) end;
      [reflexivity|].
    symmetry. apply find_none_iff. intros r Hr. apply andb_false_iff. left.
    cbn [Sql.text_eq]. apply String.eqb_neq. intro E.
    apply Hu. rewrite <- E. now apply in_map.
  - intro p. unfold verify_user, hash_password. cbn [bind].
    match goal with |- fetched_user ?f = _ => replace f with (@None UserRow) end;
      [reflexivity|].
    symmetry. apply find_none_iff. intros r Hr. reflexivity.
  - reflexivity.
Qed.

Lemma lookups_of_unknown_keys_witness :
  (Props.sqlite_integer 7
   /\ ~ In 7 (user_ids (App.db_after Scenario.after_signup))
   /\ ~ In "bob" (map u_username (users (App.db_after Scenario.after_signup))))
  /\ get_user_by_id 7 (App.db_after Scenario.after_signup) = Ok None
  /\ verify_user (Some "bob") (Some "hunter2") (App.db_after Scenario.after_signup)
     = Ok None.
Proof.
  assert (H1 : ~ In 7 (user_ids (App.db_after Scenario.after_signup))).
  { vm_compute. intros [H | []]. discriminate. }
  assert (H2 : ~ In "bob" (map u_username (users (App.db_after Scenario.after_signup)))).
  { vm_compute. intros [H | []]. discriminate. }
  assert (H0 : Props.sqlite_integer 7) by (unfold Props.sqlite_integer; lia).
  split; [split; [exact H0 | now split]|].
  destruct (lookups_of_unknown_keys 7 "bob" (App.db_after Scenario.after_signup)
              H0 H1 H2) as [A [B _]].
  split; [exact A | exact (B "hunter2")].
Defined.

(** X3: [save_message] changes one history only.  The users are left as
    they were; the history of any other session, or of the same session for
    another user, is what it was; a session row keeps its id, owner, name
    and creation time, and is left untouched when it is not the session
    named; and the history of no session (NULL) is empty whatever is
    stored. *)
Theorem save_message_touches_one_history
        (now : Z) (sid : option string) (uid : Z) (role body : string) (db : DB) :
  users (save_message now sid uid role body db) = users db
  /\ (forall sid' uid',
         sid' <> sid \/ uid' <> uid ->
         get_chat_history sid' uid' (save_message now sid uid role body db)
         = get_chat_history sid' uid' db)
  /\ (forall uid', get_chat_history None uid'
                     (save_message now sid uid role body db) = [])
  /\ map (fun s => (s_session_id s, s_user_id s, s_session_name s, s_created_at s))
         (chat_sessions (save_message now sid uid role body db))
     = map (fun s => (s_session_id s, s_user_id s, s_session_name s, s_created_at s))
           (chat_sessions db)
  /\ (forall s, In s (chat_sessions db) -> Some (s_session_id s) <> sid ->
                In s (chat_sessions (save_message now sid uid role body db))).
Proof.
  split; [reflexivity|]. split; [|split; [|split]].
  - intros sid' uid' Hne. unfold get_chat_history, select_chat_history.
    rewrite chat_messages_save_message, filter_snoc.
    cbn [m_session_id m_user_id].
    destruct (Sql.text_eq sid sid' && (uid =? uid')) eqn:E.
    + apply andb_true_iff in E. destruct E as [E1 E2].
      apply text_eq_true in E1. apply Z.eqb_eq in E2.
      destruct E1 as [E1 _]. destruct Hne as [Hne | Hne]; congruence.
    + now rewrite app_nil_r.
  - intro uid'. unfold get_chat_history, select_chat_history.
    match goal with |- map _ (Sql.order_by _ (filter ?f ?l)) = _ =>
      assert (F : filter f l = []) end.
    { induction (chat_messages (save_message now sid uid role body db)) as [|m l IH];
        [reflexivity|].
      simpl. destruct (m_session_id m); simpl; exact IH. }
    now rewrite F.
  - unfold save_message. cbn [chat_sessions with_sessions with_messages].
    rewrite map_map. apply map_ext. intro s. unfold touched.
    now destruct (Sql.text_eq _ _).
  - intros s Hs Hne. unfold save_message.
    cbn [chat_sessions with_sessions with_messages].
    apply in_map_iff. exists s. split; [|exact Hs].
    unfold touched. destruct (Sql.text_eq (Some (s_session_id s)) sid) eqn:E;
      [|reflexivity].
    apply text_eq_true in E. destruct E as [E _]. contradiction.
Qed.

(** X4: [get_chat_history] returns the matching messages, all of them and
    each once, with timestamps in ascending order. *)
Theorem get_chat_history_ascending (sid : option string) (uid : Z) (db : DB) :
  StronglySorted (fun a b => timestamp a <= timestamp b)
                 (get_chat_history sid uid db)
  /\ Permutation
       (map message_of_row
            (filter (fun m => Sql.text_eq (m_session_id m) sid
                              && (m_user_id m =? uid))
                    (chat_messages db)))
       (get_chat_history sid uid db).
Proof.
  unfold get_chat_history, select_chat_history. split.
  - apply strongly_sorted_map. cbn [message_of_row timestamp].
    eapply strongly_sorted_weaken;
      [| apply SqlFacts.order_by_sorted;
         [apply SqlFacts.asc_total | apply SqlFacts.asc_trans]].
    intros a b H. unfold Sql.asc in H. now apply Z.leb_le.
  - apply Permutation_map, SqlFacts.order_by_perm.
Qed.

(** X5: [update_user_profile] writes one profile only.  For an id that no
    user has it changes nothing at all; otherwise the sessions, the
    messages, and every user's id, username, email and password hash stay
    as they were, and any other user is read back as before. *)
Theorem update_user_profile_one_user
        (uid : Z) (bg : option string) (tags : Json.pyobj) (db : DB) :
  (~ In uid (user_ids db) -> update_user_profile uid bg tags db = db)
  /\ chat_sessions (update_user_profile uid bg tags db) = chat_sessions db
  /\ chat_messages (update_user_profile uid bg tags db) = chat_messages db
  /\ map (fun r => (u_id r, u_username r, u_email r, u_password_hash r))
         (users (update_user_profile uid bg tags db))
     = map (fun r => (u_id r, u_username r, u_email r, u_password_hash r))
           (users db)
  /\ (forall other, other <> uid ->
                    get_user_by_id other (update_user_profile uid bg tags db)
                    = get_user_by_id other db).
Proof.
  split; [|split; [reflexivity|split; [reflexivity|split]]].
  - intro Hid. unfold update_user_profile, with_users.
    replace (map (updated uid bg tags) (users db)) with (users db);
      [now destruct db|].
    unfold user_ids in Hid. induction (users db) as [|r l IH]; [reflexivity|].
    simpl in *. rewrite <- IH by tauto. f_equal. unfold updated.
    destruct (u_id r =? uid) eqn:E; [|reflexivity].
    apply Z.eqb_eq in E. tauto.
  - unfold update_user_profile. cbn [users with_users]. rewrite map_map.
    apply map_ext. intro r. unfold updated. now destruct (u_id r =? uid).
  - intros other Hne. unfold get_user_by_id, update_user_profile.
    cbn [users with_users]. rewrite ProfileSpec.find_map_same.
    + destruct (find (fun r => u_id r =? other) (users db)) as [r|] eqn:F;
        [|reflexivity].
      apply find_some in F. destruct F as [_ F]. apply Z.eqb_eq in F.
      cbn [option_map]. unfold updated.
      assert (N : (u_id r =? uid) = false) by (apply Z.eqb_neq; lia).
      now rewrite N.
    + intro r. unfold updated. now destruct (u_id r =? uid).
Qed.

End StoreFrames.

(* ================================================================== *)
(** ** The store: keys, and what is stored for a password *)

Module StoreKeys.

Import Py CareerCounselingDB Props Inv StoreFacts StoreMore.

Lemma keys_ok_init : keys_ok (init_db None).
Proof. repeat split; constructor. Qed.

Lemma keys_ok_create_session (now : Z) (uuid4 name : string) (uid : Z) (db : DB) :
  keys_ok db -> keys_ok (fst (create_session now uuid4 uid name db)).
Proof.
  intros K. unfold create_session.
  destruct (existsb _ (chat_sessions db)) eqn:E; [exact K|].
  destruct K as [K1 [K2 [K3 [K4 [K5 [K6 K7]]]]]].
  repeat split; try assumption.
  unfold session_ids. cbn [fst chat_sessions with_sessions]. rewrite map_app.
  apply nodup_snoc; [exact K4|]. now apply existsb_eqb_false.
Qed.

Lemma keys_ok_insert_user (now : Z) (u e : pystr) (h fn ph : string)
      (db db1 : DB) (uid : Z) :
  keys_ok db -> insert_user now u e h fn ph db = Ok (db1, uid) ->
  keys_ok db1 /\ In uid (user_ids db1)
  /\ incl (user_ids db) (user_ids db1)
  /\ chat_sessions db1 = chat_sessions db
  /\ chat_messages db1 = chat_messages db.
Proof.
  intros K H. unfold insert_user in H.
  destruct u as [u|]; [|discriminate]. destruct e as [e|]; [|discriminate].
  destruct (existsb _ (users db)) eqn:Eu; [discriminate|].
  destruct (existsb (fun r => String.eqb (u_email r) e) (users db)) eqn:Ee;
    [discriminate|].
  cbn [orb] in H. inversion H; subst; clear H.
  destruct K as [K1 [K2 [K3 [K4 [K5 [K6 K7]]]]]].
  unfold keys_ok, user_ids, session_ids.
  cbn [users chat_sessions chat_messages with_users]. rewrite !map_app.
  cbn [map u_username u_email u_id].
  split; [|split; [|split; [|split]]]; try reflexivity.
  - repeat split; try assumption.
    + apply nodup_snoc; [exact K1 | now apply existsb_eqb_false].
    + apply nodup_snoc; [exact K2 | now apply existsb_eqb_false].
    + apply nodup_snoc; [exact K3 | apply next_rowid_new].
    + apply Forall_app. split; [exact K6|].
      constructor; [apply next_rowid_positive | constructor].
  - apply in_or_app. right. now left.
  - apply incl_appl, incl_refl.
Qed.

Lemma keys_ok_create_user (now : Z) (uuid4 : string) (u e p : pystr)
      (fn ph : string) (db : DB) :
  keys_ok db -> keys_ok (fst (create_user now uuid4 u e p fn ph db)).
Proof.
  intro K. unfold create_user.
  destruct (hash_password p) as [h|x]; [|exact K].
  destruct (insert_user now u e h fn ph db) as [[db1 uid]|x] eqn:E.
  - destruct (keys_ok_insert_user now u e h fn ph db db1 uid K E) as [K1 _].
    pose proof (keys_ok_create_session now uuid4 default_session_name uid db1 K1)
      as K2.
    destruct (create_session now uuid4 uid default_session_name db1)
      as [db2 [sid|x]]; [exact K2|]. now destruct x.
  - now destruct x.
Qed.

Lemma keys_ok_save_message (now : Z) (sid : option string) (uid : Z)
      (role body : string) (db : DB) :
  keys_ok db -> keys_ok (save_message now sid uid role body db).
Proof.
  intros [K1 [K2 [K3 [K4 [K5 [K6 K7]]]]]].
  unfold keys_ok, user_ids, session_ids. rewrite chat_messages_save_message.
  unfold save_message. cbn [users chat_sessions with_sessions with_messages].
  rewrite session_ids_touched, map_app. cbn [map m_id].
  repeat split; try assumption.
  - apply nodup_snoc; [exact K5 | apply next_rowid_new].
  - apply Forall_app. split; [exact K7|].
    constructor; [apply next_rowid_positive | constructor].
Qed.

Lemma keys_ok_update_user_profile (uid : Z) (bg : option string)
      (tags : Json.pyobj) (db : DB) :
  keys_ok db -> keys_ok (update_user_profile uid bg tags db).
Proof.
  intros [K1 [K2 [K3 [K4 [K5 [K6 K7]]]]]].
  destruct (user_columns_updated uid bg tags (users db)) as [E1 [E2 [E3 _]]].
  unfold keys_ok, user_ids, session_ids, update_user_profile.
  cbn [users chat_sessions chat_messages with_users].
  rewrite E1, E2, E3. repeat split; assumption.
Qed.

(** X6: the keys of the schema hold in a new database and every method
    keeps them: no username, email, user id, session id or message id is
    stored twice, and the ids handed out are positive, whatever the
    arguments and whether the call succeeds, returns [None] or raises. *)
Theorem store_keeps_keys_distinct
        (now : Z) (uuid4 name : string) (u e p : pystr) (fn ph : string)
        (sid : option string) (uid : Z) (role body : string)
        (bg : option string) (tags : Json.pyobj) (db : DB) :
  keys_ok db ->
  keys_ok (init_db None)
  /\ keys_ok (fst (create_user now uuid4 u e p fn ph db))
  /\ keys_ok (fst (create_session now uuid4 uid name db))
  /\ keys_ok (save_message now sid uid role body db)
  /\ keys_ok (update_user_profile uid bg tags db).
Proof.
  intro K. split; [apply keys_ok_init|].
  split; [now apply keys_ok_create_user|].
  split; [now apply keys_ok_create_session|].
  split; [now apply keys_ok_save_message | now apply keys_ok_update_user_profile].
Qed.

Lemma store_keeps_keys_distinct_witness :
  keys_ok (App.db_after Scenario.after_signup)
  /\ keys_ok (fst (create_user 200 Scenario.uuid_a (Some "alice") None (Some "x")
                               "A" "" (App.db_after Scenario.after_signup)))
  /\ keys_ok (save_message 200 None 9 "user" "hi"
                           (App.db_after Scenario.after_signup)).
Proof.
  assert (K : keys_ok (App.db_after Scenario.after_signup)).
  { exact (keys_ok_create_user 100 Scenario.uuid_a (Some "alice") (Some "a@x.com")
             (Some "pw") "Alice" "" (init_db None) keys_ok_init). }
  split; [exact K|].
  destruct (store_keeps_keys_distinct 200 Scenario.uuid_a "n" (Some "alice") None
              (Some "x") "A" "" None 9 "user" "hi" None (Json.PyList [])
              (App.db_after Scenario.after_signup) K) as [_ [A [_ [B _]]]].
  split; [exact A | exact B].
Defined.

(** X7: when the id drawn for the default session is already a stored
    session id, [create_user] returns [None] although it has stored the
    user: the user row is committed, no session row is added, and
    [verify_user] finds the user with the password given.  (What a later
    write does is not covered: [create_session] leaves its connection
    open when its INSERT fails.) *)
Theorem create_user_session_id_taken
        (now : Z) (uuid4 u e p fn ph : string) (db : DB) :
  ~ In u (map u_username (users db)) ->
  ~ In e (map u_email (users db)) ->
  In uuid4 (session_ids db) ->
  exists (uid : Z) (db' : DB),
    create_user now uuid4 (Some u) (Some e) (Some p) fn ph db = (db', Ok None)
    /\ users db'
       = users db ++ [mkUserRow uid u e (Sha256.hexdigest (encode p)) (Some fn)
                                (Some ph) None None now]
    /\ chat_sessions db' = chat_sessions db
    /\ verify_user (Some u) (Some p) db'
       = Ok (Some (mkUser uid u e (Some fn) (Some ph) None (Json.PyList []))).
Proof.
  intros Hu He Hs.
  assert (Es : existsb (fun s => String.eqb (s_session_id s) uuid4)
                       (chat_sessions db) = true).
  { destruct (existsb _ (chat_sessions db)) eqn:E; [reflexivity|].
    apply existsb_eqb_false in E. contradiction. }
  pose proof Hu as Hu'. apply existsb_eqb_false in Hu'.
  apply existsb_eqb_false in He.
  unfold create_user at 1, hash_password, insert_user. rewrite Hu', He.
  cbn [orb]. unfold create_session. cbn [chat_sessions with_users].
  rewrite Es. eexists _, _. split; [reflexivity|].
  cbn [users chat_sessions with_users].
  split; [reflexivity|]. split; [reflexivity|].
  unfold verify_user, hash_password. cbn [bind users with_users].
  rewrite find_snoc.
  - reflexivity.
  - intros r Hr. cbn [Sql.text_eq]. apply andb_false_iff. left.
    apply String.eqb_neq. intro E. apply Hu. rewrite <- E. now apply in_map.
  - cbn [Sql.text_eq u_username u_password_hash].
    now rewrite !String.eqb_refl.
Qed.

Lemma create_user_session_id_taken_witness :
  (~ In "bob" (map u_username (users (App.db_after Scenario.after_signup)))
   /\ ~ In "b@x.com" (map u_email (users (App.db_after Scenario.after_signup)))
   /\ In Scenario.uuid_a (session_ids (App.db_after Scenario.after_signup)))
  /\ exists (uid : Z) (db' : DB),
      create_user 200 Scenario.uuid_a (Some "bob") (Some "b@x.com")
                  (Some "hunter2") "Bob" "" (App.db_after Scenario.after_signup)
      = (db', Ok None)
      /\ verify_user (Some "bob") (Some "hunter2") db'
         = Ok (Some (mkUser uid "bob" "b@x.com" (Some "Bob") (Some "") None (Json.PyList []))).
Proof.
  assert (H1 : ~ In "bob" (map u_username (users (App.db_after Scenario.after_signup)))).
  { vm_compute. intros [H | []]. discriminate. }
  assert (H2 : ~ In "b@x.com" (map u_email (users (App.db_after Scenario.after_signup)))).
  { vm_compute. intros [H | []]. discriminate. }
  assert (H3 : In Scenario.uuid_a (session_ids (App.db_after Scenario.after_signup))).
  { vm_compute. now left. }
  split; [now repeat split|].
  destruct (create_user_session_id_taken 200 Scenario.uuid_a "bob" "b@x.com"
              "hunter2" "Bob" "" (App.db_after Scenario.after_signup) H1 H2 H3)
    as [uid [db' [A [_ [_ B]]]]].
  exists uid, db'. now split.
Defined.

(** *** The stored password *)

Lemma hex_digit_is_hex (x : Z) : is_hex (Sha256.hex_digit (Z.land x 15)) = true.
Proof.
  assert (B : 0 <= Z.land x 15 < 16).
  { change 15 with (Z.ones 4). rewrite Z.land_ones by lia.
    apply Z.mod_pos_bound. lia. }
  remember (Z.land x 15) as v eqn:Ev. clear Ev.
  assert (C : v = 0 \/ v = 1 \/ v = 2 \/ v = 3 \/ v = 4 \/ v = 5 \/ v = 6
              \/ v = 7 \/ v = 8 \/ v = 9 \/ v = 10 \/ v = 11 \/ v = 12
              \/ v = 13 \/ v = 14 \/ v = 15) by lia.
  repeat (destruct C as [-> | C]; [reflexivity|]). subst. reflexivity.
Qed.

Lemma hex_shape (n : nat) :
  forall (x : Z) (acc : string),
    String.length (Sha256.hex n x acc) = (n + String.length acc)%nat
    /\ (all_hex acc = true -> all_hex (Sha256.hex n x acc) = true).
Proof.
  induction n as [|n IH]; intros x acc; cbn [Sha256.hex].
  - split; [reflexivity | easy].
  - destruct (IH (Z.shiftr x 4)
                 (String (Sha256.hex_digit (Z.land x 15)) acc)) as [L H].
    split.
    + rewrite L. simpl. lia.
    + intro A. apply H. cbn [all_hex]. now rewrite hex_digit_is_hex, A.
Qed.

Lemma hex_words_shape (ws : list Z) :
  String.length (fold_right (fun w acc => Sha256.hex 8 w acc) EmptyString ws)
  = (8 * List.length ws)%nat
  /\ all_hex (fold_right (fun w acc => Sha256.hex 8 w acc) EmptyString ws) = true.
Proof.
  induction ws as [|w ws [L A]]; [now split|].
  cbn [fold_right List.length].
  destruct (hex_shape 8 w
              (fold_right (fun w acc => Sha256.hex 8 w acc) EmptyString ws))
    as [L' A'].
  split; [rewrite L', L; lia | now apply A'].
Qed.

(** X8: for every password, [hash_password] returns a text of exactly 64
    lower-case hexadecimal digits, so that is what [create_user] stores in
    place of a password of any other shape; with no password it raises. *)
Theorem hash_password_is_hex_digest (p : string) :
  (exists h, hash_password (Some p) = Ok h
             /\ String.length h = 64%nat /\ all_hex h = true)
  /\ hash_password None = Raise AttributeError.
Proof.
  split; [|reflexivity].
  exists (Sha256.hexdigest (encode p)). split; [reflexivity|].
  unfold Sha256.hexdigest.
  destruct (hex_words_shape (Sha256.digest (encode p))) as [L A].
  split; [|exact A]. rewrite L. reflexivity.
Qed.

End StoreKeys.

(* ================================================================== *)
(** ** The routes: who gets in, and what a login picks up *)

Module RouteSpec.

Import Py App Router Props Inv.

(** X9: a request that comes without a user id in its cookie, other than
    a POST to /signup or /login, never changes the database and never
    puts a user id in the cookie; the pages behind the login redirect to
    it, /api/chat and /api/user-profile answer 401, and /api/history and
    /api/sessions answer an empty list. *)
Theorem requests_without_user_id
        (database_available : bool) (env : Env) (req : Request)
        (c : Session) (db : DB.DB) :
  user_id c = None ->
  (forall form, req <> Signup POST form) ->
  (forall form, req <> Login POST form) ->
  db_after (handle database_available env req c db) = db
  /\ user_id (session_after (handle database_available env req c db)) = None
  /\ (req = Dashboard \/ req = Chat ->
      response (handle database_available env req c db) = Ok (redirect "login"))
  /\ (forall body, req = ApiChat body ->
      response (handle database_available env req c db)
      = Ok (jsonify (error_body "Not authenticated") 401))
  /\ (req = ApiUserProfile ->
      response (handle database_available env req c db)
      = Ok (jsonify (Json.Obj []) 401))
  /\ (req = ApiHistory \/ req = ApiSessions ->
      response (handle database_available env req c db)
      = Ok (jsonify (Json.Arr []) 200)).
Proof.
  intros Hc Hs Hl.
  destruct req as [| | |m form|m form| | | |body| | | |];
    try (destruct m;
         [|exfalso; first [eapply Hs; reflexivity | eapply Hl; reflexivity]]);
    unfold handle, landing, about, contact, signup, login, logout, dashboard,
      chat, api_chat, suggested_questions, api_history, api_sessions,
      api_user_profile;
    rewrite ?Hc; cbn [fst db_after session_after response user_id no_session];
    (repeat split; try assumption; try reflexivity;
     try (intros; discriminate);
     try (intros [H | H]; discriminate || reflexivity)).
Qed.

Lemma requests_without_user_id_witness :
  user_id (session_after (logout (session_after Scenario.after_login)
                                 (db_after Scenario.after_login))) = None
  /\ response (handle true Cases.env1 (ApiChat (Some Scenario.question))
                      (session_after (logout (session_after Scenario.after_login)
                                             (db_after Scenario.after_login)))
                      (db_after Scenario.after_login))
     = Ok (jsonify (error_body "Not authenticated") 401).
Proof.
  assert (H : user_id (session_after (logout (session_after Scenario.after_login)
                                             (db_after Scenario.after_login)))
              = None) by reflexivity.
  split; [exact H|].
  refine (proj1 (proj2 (proj2 (proj2
            (requests_without_user_id true Cases.env1
               (ApiChat (Some Scenario.question)) _
               (db_after Scenario.after_login) H _ _)))) _ eq_refl);
    intros form E; discriminate E.
Defined.

(** X10: a login with a username that no stored user has, or with no
    username at all, shows the form again with the error and leaves the
    database and the cookie as they were; when the password field is
    missing the handler raises instead. *)
Theorem login_unknown_user
        (now : Z) (uuid4 : string) (form : list (string * string))
        (c : Session) (db : DB.DB) :
  (forall u, form_get "username" form = Some u ->
             ~ In u (map DB.u_username (DB.users db))) ->
  login true now uuid4 POST form c db
  = mkHandled db c
      (match form_get "password" form with
       | Some _ =>
           Ok (render_template "login.html"
                 (error_context "Invalid username or password"))
       | None => Raise AttributeError
       end).
Proof.
  intro Hu. unfold login, DB.verify_user, DB.hash_password.
  destruct (form_get "password" form) as [p|]; [|reflexivity].
  cbn [bind].
  match goal with |- context [DB.fetched_user ?f] =>
    replace f with (@None DB.UserRow) end; [reflexivity|].
  symmetry. apply StoreMore.find_none_iff. intros r Hr.
  apply andb_false_iff. left.
  destruct (form_get "username" form) as [u|]; [|reflexivity].
  cbn [Sql.text_eq]. apply String.eqb_neq. intro E.
  apply (Hu u eq_refl). rewrite <- E. now apply in_map.
Qed.

Lemma login_unknown_user_witness :
  (forall u, form_get "username" Cases.bob = Some u ->
             ~ In u (map DB.u_username (DB.users (db_after Scenario.after_signup))))
  /\ login true 200 Scenario.uuid_b POST Cases.bob no_session
           (db_after Scenario.after_signup)
     = mkHandled (db_after Scenario.after_signup) no_session
         (Ok (render_template "login.html"
                (error_context "Invalid username or password"))).
Proof.
  assert (H : forall u, form_get "username" Cases.bob = Some u ->
                        ~ In u (map DB.u_username
                                    (DB.users (db_after Scenario.after_signup)))).
  { intros u E. vm_compute in E. inversion E; subst.
    vm_compute. intros [H | []]. discriminate. }
  split; [exact H|].
  exact (login_unknown_user 200 Scenario.uuid_b Cases.bob no_session
                            (db_after Scenario.after_signup) H).
Defined.

(** X11: when the user who logs in already has a chat session, the login
    creates nothing: the database is unchanged and the cookie takes the id
    of one of that user's sessions, one with the latest updated-at. *)
Theorem login_reuses_a_session
        (now : Z) (uuid4 : string) (form : list (string * string))
        (c : Session) (db : DB.DB) (user : DB.User) :
  DB.verify_user (form_get "username" form) (form_get "password" form) db
  = Ok (Some user) ->
  DB.get_user_sessions (DB.id user) db <> [] ->
  db_after (login true now uuid4 POST form c db) = db
  /\ response (login true now uuid4 POST form c db) = Ok (redirect "dashboard")
  /\ user_id (session_after (login true now uuid4 POST form c db))
     = Some (DB.id user)
  /\ exists s,
      session_id (session_after (login true now uuid4 POST form c db))
      = Some (DB.s_session_id s)
      /\ In s (DB.chat_sessions db)
      /\ DB.s_user_id s = DB.id user
      /\ forall s', In s' (DB.chat_sessions db) ->
                    DB.s_user_id s' = DB.id user ->
                    DB.s_updated_at s' <= DB.s_updated_at s.
Proof.
  intros Hv Hne. unfold login. rewrite Hv.
  unfold DB.get_user_sessions in *.
  destruct (DB.select_user_sessions (DB.id user) db) as [|s t] eqn:E;
    [now elim Hne|].
  cbn [map db_after response session_after set_session_id set_user user_id
       session_id].
  repeat split. exists s. split; [reflexivity|].
  assert (Hs : In s (DB.select_user_sessions (DB.id user) db))
    by (rewrite E; now left).
  apply StoreSpec.select_user_sessions_In in Hs. destruct Hs as [Hs Hu].
  split; [exact Hs|]. split; [exact Hu|].
  intros s' Hs' Hu'.
  assert (Hin : In s' (DB.select_user_sessions (DB.id user) db))
    by (apply StoreSpec.select_user_sessions_In; now split).
  pose proof (StoreSpec.select_user_sessions_sorted (DB.id user) db) as S.
  rewrite E in S, Hin. apply StronglySorted_inv in S. destruct S as [_ Hall].
  destruct Hin as [<- | Hin]; [lia|].
  rewrite Forall_forall in Hall. now apply Hall.
Qed.

Lemma login_reuses_a_session_witness :
  (exists user,
      DB.verify_user (form_get "username" Scenario.alice)
                     (form_get "password" Scenario.alice)
                     (db_after Scenario.after_signup) = Ok (Some user)
      /\ DB.get_user_sessions (DB.id user) (db_after Scenario.after_signup) <> [])
  /\ db_after (login true 103 Scenario.uuid_b POST Scenario.alice no_session
                     (db_after Scenario.after_signup))
     = db_after Scenario.after_signup.
Proof.
  assert (V : DB.verify_user (form_get "username" Scenario.alice)
                             (form_get "password" Scenario.alice)
                             (db_after Scenario.after_signup)
              = Ok (Some (DB.mkUser 1 "alice" "a@x.com" (Some "Alice") (Some "")
                                    None (Json.PyList [])))) by (vm_compute; reflexivity).
  assert (N : DB.get_user_sessions 1 (db_after Scenario.after_signup) <> [])
    by (vm_compute; discriminate).
  split; [eexists; split; [exact V | exact N]|].
  exact (proj1 (login_reuses_a_session 103 Scenario.uuid_b Scenario.alice
                  no_session (db_after Scenario.after_signup) _ V N)).
Defined.

End RouteSpec.

(* ================================================================== *)
(** ** The routes: signing up, opening a chat, chatting *)

Module ChatSpec.

Import Py App Router Props Inv.

Lemma filter_none {A} (f : A -> bool) (l : list A) :
  (forall x, In x l -> f x = false) -> filter f l = [].
Proof.
  induction l as [|a l IH]; simpl; intro H; [reflexivity|].
  rewrite (H a) by now left. apply IH. intros x Hx. apply H. now right.
Qed.

(** The sessions of a user who owns none of the stored sessions, after one
    session has been created for that user. *)
Lemma sessions_of_new_owner (uid : Z) (s : DB.SessionRow)
      (rows : list DB.SessionRow) :
  ~ In uid (map DB.s_user_id rows) -> DB.s_user_id s = uid ->
  Sql.order_by (Sql.desc DB.s_updated_at)
               (filter (fun r => DB.s_user_id r =? uid) (rows ++ [s]))
  = [s].
Proof.
  intros Hn Hs. rewrite StoreFacts.filter_snoc, filter_none.
  - rewrite Hs, Z.eqb_refl. reflexivity.
  - intros r Hr. apply Z.eqb_neq. intro E. apply Hn. rewrite <- E.
    now apply in_map.
Qed.

(** The run of a signup followed by a login, state by state. *)
Lemma signup_login_run
      (now now' : Z) (uuid4 uuid4' u e p : string)
      (form form' : list (string * string)) (c c' : Session) (db : DB.DB) :
  form_get "username" form = Some u ->
  form_get "email" form = Some e ->
  form_get "password" form = Some p ->
  form_get "username" form' = Some u ->
  form_get "password" form' = Some p ->
  ~ In u (map DB.u_username (DB.users db)) ->
  ~ In e (map DB.u_email (DB.users db)) ->
  ~ In uuid4 (session_ids db) ->
  Forall (session_fk db) (DB.chat_sessions db) ->
  exists uid db1 shown_name,
    signup true now uuid4 POST form c db
    = mkHandled db1
        (set_user c uid (Some u) (Some (form_get_default "full_name" form "")))
        (Ok (redirect "dashboard"))
    /\ login true now' uuid4' POST form' c' db1
       = mkHandled db1
           (mkSession (Some uid) (Some (Some u)) (Some (Some shown_name))
                      (Some uuid4))
           (Ok (redirect "dashboard"))
    /\ shown_name = (if truthy (Some (form_get_default "full_name" form ""))
                     then form_get_default "full_name" form "" else u)
    /\ ~ In uid (user_ids db)
    /\ In uid (user_ids db1)
    /\ DB.chat_messages db1 = DB.chat_messages db
    /\ session_ids db1 = session_ids db ++ [uuid4].
Proof.
  intros Fu Fe Fp Fu' Fp' Hu He Hs Hfk.
  set (uid := Sql.next_rowid (DB.users_seq db) (map DB.u_id (DB.users db))).
  assert (Hpos : (uid =? 0) = false).
  { apply Z.eqb_neq. pose proof (StoreFacts.next_rowid_positive
                                    (DB.users_seq db) (map DB.u_id (DB.users db))).
    unfold uid. lia. }
  assert (Hown : ~ In uid (map DB.s_user_id (DB.chat_sessions db))).
  { intro H. apply in_map_iff in H. destruct H as [s [E Hin]].
    rewrite Forall_forall in Hfk. specialize (Hfk s Hin).
    unfold session_fk in Hfk. rewrite E in Hfk.
    exact (StoreMore.next_rowid_new _ _ Hfk). }
  exists uid. unfold signup. rewrite Fu, Fe, Fp.
  rewrite (StoreMore.create_user_fresh now uuid4 u e p
             (form_get_default "full_name" form "") "" db Hu He Hs).
  cbv zeta. fold uid. rewrite Hpos. eexists _, _.
  split; [reflexivity|].
  split; [|split; [reflexivity|split; [apply StoreMore.next_rowid_new|]]].
  - unfold login. rewrite Fu', Fp'.
    unfold DB.verify_user, DB.hash_password. cbn [bind DB.users].
    rewrite StoreFacts.find_snoc.
    + cbn [DB.fetched_user DB.user_of_row DB.u_interests bind DB.id DB.u_id
           DB.full_name DB.u_full_name DB.username DB.u_username].
      unfold DB.get_user_sessions, DB.select_user_sessions.
      cbn [DB.chat_sessions].
      rewrite (sessions_of_new_owner uid
                 (DB.mkSessionRow uuid4 uid DB.default_session_name now now)
                 _ Hown eq_refl).
      cbn [map DB.session_info DB.session_id DB.s_session_id
           set_session_id set_user user_id username full_name].
      destruct (form_get_default "full_name" form "") as [|ch r]; reflexivity.
    + intros r Hr. cbn [Sql.text_eq]. apply andb_false_iff. left.
      apply String.eqb_neq. intro E. apply Hu. rewrite <- E. now apply in_map.
    + cbn [Sql.text_eq DB.u_username DB.u_password_hash].
      now rewrite !String.eqb_refl.
  - unfold user_ids, session_ids. cbn [DB.users DB.chat_sessions DB.chat_messages].
    rewrite !map_app. split; [|split; reflexivity].
    apply in_or_app. right. now left.
Qed.

(** X12: a signup with an unused username and email succeeds, and a later
    login with the same username and password, from any browser, succeeds
    too: it changes nothing in the database, puts the same user id in the
    cookie as the signup did, and takes the default session that the signup
    created as the chat session.  No stored session belongs to a user that
    is not stored. *)
Theorem signup_then_login
        (now now' : Z) (uuid4 uuid4' u e p : string)
        (form form' : list (string * string)) (c c' : Session) (db : DB.DB) :
  form_get "username" form = Some u ->
  form_get "email" form = Some e ->
  form_get "password" form = Some p ->
  form_get "username" form' = Some u ->
  form_get "password" form' = Some p ->
  ~ In u (map DB.u_username (DB.users db)) ->
  ~ In e (map DB.u_email (DB.users db)) ->
  ~ In uuid4 (session_ids db) ->
  Forall (session_fk db) (DB.chat_sessions db) ->
  exists uid,
    response (signup true now uuid4 POST form c db) = Ok (redirect "dashboard")
    /\ user_id (session_after (signup true now uuid4 POST form c db)) = Some uid
    /\ response (login true now' uuid4' POST form' c'
                       (db_after (signup true now uuid4 POST form c db)))
       = Ok (redirect "dashboard")
    /\ db_after (login true now' uuid4' POST form' c'
                       (db_after (signup true now uuid4 POST form c db)))
       = db_after (signup true now uuid4 POST form c db)
    /\ session_after (login true now' uuid4' POST form' c'
                            (db_after (signup true now uuid4 POST form c db)))
       = mkSession (Some uid) (Some (Some u))
                   (Some (Some (if truthy (Some (form_get_default "full_name" form ""))
                                then form_get_default "full_name" form ""
                                else u)))
                   (Some uuid4).
Proof.
  intros Fu Fe Fp Fu' Fp' Hu He Hs Hfk.
  destruct (signup_login_run now now' uuid4 uuid4' u e p form form' c c' db
              Fu Fe Fp Fu' Fp' Hu He Hs Hfk)
    as [uid [db1 [shown_name [E1 [E2 [En _]]]]]].
  exists uid. rewrite E1. cbn [response session_after db_after set_user user_id].
  rewrite E2. cbn [response session_after db_after]. subst shown_name.
  repeat split; reflexivity.
Qed.

Lemma signup_then_login_witness :
  (~ In "alice" (map DB.u_username (DB.users Scenario.fresh_db))
   /\ ~ In "a@x.com" (map DB.u_email (DB.users Scenario.fresh_db))
   /\ ~ In Scenario.uuid_a (session_ids Scenario.fresh_db)
   /\ Forall (session_fk Scenario.fresh_db) (DB.chat_sessions Scenario.fresh_db))
  /\ exists uid,
      response Scenario.after_signup = Ok (redirect "dashboard")
      /\ user_id (session_after Scenario.after_signup) = Some uid
      /\ response Scenario.after_login = Ok (redirect "dashboard")
      /\ db_after Scenario.after_login = db_after Scenario.after_signup
      /\ session_after Scenario.after_login
         = mkSession (Some uid) (Some (Some "alice")) (Some (Some "Alice"))
                     (Some Scenario.uuid_a).
Proof.
  split; [repeat split; try (simpl; tauto); constructor|].
  apply (signup_then_login 100 103 Scenario.uuid_a Scenario.uuid_b
           "alice" "a@x.com" "pw" Scenario.alice Scenario.alice
           no_session no_session Scenario.fresh_db);
    try reflexivity; try (simpl; tauto); constructor.
Defined.

End ChatSpec.

(* ================================================================== *)
(** ** The routes: what /api/chat and /chat store *)

Module ApiChatSpec.

Import Py App Router Props Inv.

(** *** strip *)

Lemma lstrip_starts_clean (s : string) : starts_clean (lstrip s).
Proof.
  induction s as [|c s IH]; simpl; [exact I|].
  destruct (isspace c) eqn:E; [exact IH | exact E].
Qed.

Lemma lstrip_snoc_clean (a : string) (c : ascii) :
  isspace c = false ->
  lstrip (a ++ String c EmptyString) = (lstrip a ++ String c EmptyString)%string.
Proof.
  intro Hc. induction a as [|x a IH]; simpl.
  - now rewrite Hc.
  - destruct (isspace x); [exact IH | reflexivity].
Qed.

Lemma string_rev_append (a b : string) :
  string_rev (a ++ b) = (string_rev b ++ string_rev a)%string.
Proof.
  induction a as [|x a IH]; simpl.
  - now rewrite JsonFacts.append_empty.
  - now rewrite IH, JsonFacts.append_assoc.
Qed.

Lemma string_rev_involutive (s : string) : string_rev (string_rev s) = s.
Proof.
  induction s as [|x s IH]; simpl; [reflexivity|].
  rewrite string_rev_append, IH. reflexivity.
Qed.

Lemma rstrip_keeps_head (c : ascii) (r : string) :
  isspace c = false -> exists t, rstrip (String c r) = String c t.
Proof.
  intro Hc. unfold rstrip. cbn [string_rev].
  rewrite (lstrip_snoc_clean _ c Hc), string_rev_append. cbn.
  now eexists.
Qed.

Lemma strip_trimmed (s : string) : trimmed (strip s).
Proof.
  unfold trimmed, strip. split.
  - pose proof (lstrip_starts_clean s) as H.
    destruct (lstrip s) as [|c r]; [exact I|].
    destruct (rstrip_keeps_head c r H) as [t ->]. exact H.
  - unfold rstrip. rewrite string_rev_involutive. apply lstrip_starts_clean.
Qed.

Lemma lstrip_not_blank (s : string) :
  only_whitespace s = false ->
  exists c r, lstrip s = String c r /\ isspace c = false.
Proof.
  induction s as [|x s IH]; simpl; [discriminate|].
  destruct (isspace x) eqn:E; simpl; [exact IH|].
  intros _. now exists x, s.
Qed.

Lemma strip_not_blank (s : string) :
  only_whitespace s = false -> truthy (Some (strip s)) = true.
Proof.
  intro H. destruct (lstrip_not_blank s H) as [c [r [E Hc]]].
  unfold strip. rewrite E. destruct (rstrip_keeps_head c r Hc) as [t ->].
  reflexivity.
Qed.

(** *** /api/chat *)

Lemma history_snoc (now : Z) (sid : string) (uid : Z) (role body : string)
      (db : DB.DB) :
  Forall (fun m => DB.m_session_id m = Some sid -> DB.m_user_id m = uid ->
                   DB.m_timestamp m <= now)
         (DB.chat_messages db) ->
  DB.get_chat_history (Some sid) uid
                      (DB.save_message now (Some sid) uid role body db)
  = DB.get_chat_history (Some sid) uid db ++ [DB.mkMessage role body now].
Proof.
  intro Hm. unfold DB.get_chat_history, DB.select_chat_history.
  rewrite StoreFacts.chat_messages_save_message, StoreFacts.filter_snoc.
  cbn [DB.m_session_id DB.m_user_id Sql.text_eq].
  rewrite String.eqb_refl, Z.eqb_refl. cbn [andb].
  rewrite SqlFacts.order_by_snoc.
  - now rewrite map_app.
  - rewrite Forall_forall. intros m Hin. apply filter_In in Hin.
    destruct Hin as [Hin Hp]. rewrite Forall_forall in Hm.
    apply andb_true_iff in Hp. destruct Hp as [H1 H2].
    apply StoreFrames.text_eq_true in H1. destruct H1 as [H1 _].
    apply Z.eqb_eq in H2.
    unfold Sql.asc. cbn [DB.m_timestamp]. apply Z.leb_le. now apply Hm.
Qed.

(** X13: an authenticated POST to /api/chat with a chat session in the
    cookie and a message that is not blank answers 200 with the answer of
    the answer generator and the session id, leaves the cookie and the
    users alone, and extends the history of that session and user by
    exactly two entries: the message without its surrounding whitespace as
    [user], then the answer as [assistant].  The clock does not run
    backwards. *)
Theorem api_chat_extends_history
        (ai : Components) (t1 t2 uid : Z) (sid body : string)
        (members : list (string * Json.value)) (c : Session) (db : DB.DB) :
  user_id c = Some uid ->
  session_id c = Some sid ->
  Json.get "message" members = Some (Json.Str body) ->
  only_whitespace body = false ->
  clock_ok t1 db ->
  t1 <= t2 ->
  response (api_chat true ai t1 t2 (Some (Json.Obj members)) c db)
  = Ok (jsonify (Json.Obj [("response", Json.Str (get_ai_response ai (strip body)));
                           ("session_id", Json.Str sid)]) 200)
  /\ session_after (api_chat true ai t1 t2 (Some (Json.Obj members)) c db) = c
  /\ DB.users (db_after (api_chat true ai t1 t2 (Some (Json.Obj members)) c db))
     = DB.users db
  /\ DB.get_chat_history (Some sid) uid
       (db_after (api_chat true ai t1 t2 (Some (Json.Obj members)) c db))
     = DB.get_chat_history (Some sid) uid db
       ++ [DB.mkMessage "user" (strip body) t1;
           DB.mkMessage "assistant" (get_ai_response ai (strip body)) t2].
Proof.
  intros Hu Hs Hm Hb [Hc _] Hle. unfold api_chat, message_of.
  rewrite Hu, Hs, Hm, (strip_not_blank body Hb).
  cbn [negb db_after session_after response json_of_pystr].
  repeat split.
  rewrite history_snoc.
  - rewrite history_snoc.
    + now rewrite <- app_assoc.
    + eapply Forall_impl; [|exact Hc]. simpl. intros; lia.
  - rewrite StoreFacts.chat_messages_save_message. apply Forall_app. split.
    + eapply Forall_impl; [|exact Hc]. simpl. intros; lia.
    + constructor; [simpl; lia | constructor].
Qed.

Lemma api_chat_extends_history_witness :
  (user_id (session_after Cases.opened) = Some 1
   /\ session_id (session_after Cases.opened) = Some Scenario.uuid_b
   /\ only_whitespace "  Which degree suits me? " = false
   /\ clock_ok 102 (db_after Cases.opened))
  /\ DB.get_chat_history (Some Scenario.uuid_b) 1
       (db_after (api_chat true Scenario.no_ai 102 103
                           (Some (Json.Obj [("message",
                                             Json.Str "  Which degree suits me? ")]))
                           (session_after Cases.opened) (db_after Cases.opened)))
     = [DB.mkMessage "user" "Which degree suits me?" 102;
        DB.mkMessage "assistant" unavailable 103].
Proof.
  assert (K : clock_ok 102 (db_after Cases.opened)).
  { split; vm_compute; repeat constructor; discriminate. }
  split; [split; [reflexivity|split; [reflexivity|split; [reflexivity|exact K]]]|].
  exact (proj2 (proj2 (proj2
           (api_chat_extends_history Scenario.no_ai 102 103 1 Scenario.uuid_b
              "  Which degree suits me? "
              [("message", Json.Str "  Which degree suits me? ")]
              (session_after Cases.opened) (db_after Cases.opened)
              eq_refl eq_refl eq_refl eq_refl K ltac:(lia))))).
Defined.

(** X14: an authenticated POST to /api/chat whose body cannot be decoded
    raises [BadRequest]; a body that is not a JSON object, or whose
    [message] is not a string, makes the handler raise [AttributeError]
    rather than answer 400.  Nothing is stored in either case. *)
Theorem api_chat_malformed_body
        (database_available : bool) (ai : Components) (t1 t2 uid : Z)
        (data : Json.value) (c : Session) (db : DB.DB) :
  user_id c = Some uid ->
  (forall members, data <> Json.Obj members)
  \/ (exists members v, data = Json.Obj members
                        /\ Json.get "message" members = Some v
                        /\ forall s, v <> Json.Str s) ->
  api_chat database_available ai t1 t2 (Some data) c db
  = mkHandled db c (Raise AttributeError)
  /\ api_chat database_available ai t1 t2 None c db
     = mkHandled db c (Raise BadRequest).
Proof.
  intros Hu H. unfold api_chat, message_of. rewrite Hu.
  split; [|reflexivity].
  destruct H as [H | [members [v [-> [Hv Hs]]]]].
  - destruct data; try reflexivity. now elim (H members).
  - rewrite Hv. destruct v; try reflexivity. now elim (Hs s).
Qed.

Lemma api_chat_malformed_body_witness :
  user_id (session_after Cases.opened) = Some 1
  /\ api_chat true Scenario.no_ai 102 103 (Some Cases.number_body)
              (session_after Cases.opened) (db_after Cases.opened)
     = mkHandled (db_after Cases.opened) (session_after Cases.opened)
                 (Raise AttributeError).
Proof.
  split; [reflexivity|].
  refine (proj1 (api_chat_malformed_body true Scenario.no_ai 102 103 1
                   Cases.number_body (session_after Cases.opened)
                   (db_after Cases.opened) eq_refl _)).
  right. exists [("message", Json.Num 5)], (Json.Num 5).
  split; [reflexivity|]. split; [reflexivity|]. intros s E. discriminate E.
Defined.

(** X15: the two rows an accepted POST to /api/chat appends to
    [chat_messages]: first the user's message, which is never empty and
    neither starts nor ends with whitespace, then the answer; both carry
    the user id and the session id of the cookie. *)
Theorem api_chat_stored_rows
        (ai : Components) (t1 t2 uid : Z) (body : string)
        (members : list (string * Json.value)) (c : Session) (db : DB.DB) :
  user_id c = Some uid ->
  Json.get "message" members = Some (Json.Str body) ->
  only_whitespace body = false ->
  exists id1 id2,
    DB.chat_messages
      (db_after (api_chat true ai t1 t2 (Some (Json.Obj members)) c db))
    = DB.chat_messages db
      ++ [DB.mkMessageRow id1 (session_id c) uid "user" (strip body) t1;
          DB.mkMessageRow id2 (session_id c) uid "assistant"
                          (get_ai_response ai (strip body)) t2]
    /\ strip body <> EmptyString
    /\ trimmed (strip body)
    /\ id1 < id2
    /\ Forall (fun m => DB.m_id m < id1) (DB.chat_messages db).
Proof.
  intros Hu Hm Hb. pose proof (strip_not_blank body Hb) as Ht.
  unfold api_chat, message_of. rewrite Hu, Hm, Ht. cbn [negb db_after].
  rewrite !StoreFacts.chat_messages_save_message, <- app_assoc.
  eexists _, _. split; [reflexivity|].
  split; [|split; [apply strip_trimmed|split]].
  - intro E. rewrite E in Ht. discriminate.
  - apply StoreMore.next_rowid_greater. rewrite map_app, in_app_iff.
    right. now left.
  - rewrite Forall_forall. intros m Hin.
    apply StoreMore.next_rowid_greater. now apply in_map.
Qed.

Lemma api_chat_stored_rows_witness :
  (user_id (session_after Scenario.after_signup) = Some 1
   /\ only_whitespace " hi " = false)
  /\ exists id1 id2,
      DB.chat_messages
        (db_after (api_chat true Scenario.no_ai 101 102
                            (Some (Json.Obj [("message", Json.Str " hi ")]))
                            (session_after Scenario.after_signup)
                            (db_after Scenario.after_signup)))
      = DB.chat_messages (db_after Scenario.after_signup)
        ++ [DB.mkMessageRow id1 None 1 "user" (strip " hi ") 101;
            DB.mkMessageRow id2 None 1 "assistant"
                            (get_ai_response Scenario.no_ai (strip " hi ")) 102].
Proof.
  split; [now split|].
  destruct (api_chat_stored_rows Scenario.no_ai 101 102 1 " hi "
              [("message", Json.Str " hi ")]
              (session_after Scenario.after_signup)
              (db_after Scenario.after_signup) eq_refl eq_refl eq_refl)
    as [id1 [id2 [E _]]].
  exists id1, id2. exact E.
Defined.

(** *** /chat *)

(** X16: GET /chat with a user id but no chat session in the cookie
    creates exactly one session, owned by that user and named by default,
    and puts its id in the cookie; users and messages are untouched.
    Visiting /chat again with that cookie changes nothing.  The id that
    [uuid4] yields is assumed new. *)
Theorem chat_opens_one_session
        (now now' uid : Z) (uuid4 uuid4' : string) (c : Session) (db : DB.DB) :
  user_id c = Some uid ->
  session_id c = None ->
  ~ In uuid4 (session_ids db) ->
  session_after (chat true now uuid4 c db) = set_session_id c uuid4
  /\ DB.chat_sessions (db_after (chat true now uuid4 c db))
     = DB.chat_sessions db
       ++ [DB.mkSessionRow uuid4 uid DB.default_session_name now now]
  /\ DB.users (db_after (chat true now uuid4 c db)) = DB.users db
  /\ DB.chat_messages (db_after (chat true now uuid4 c db)) = DB.chat_messages db
  /\ chat true now' uuid4' (session_after (chat true now uuid4 c db))
          (db_after (chat true now uuid4 c db))
     = chat true now uuid4 c db.
Proof.
  intros Hu Hs Hn. apply StoreMore.existsb_eqb_false in Hn.
  assert (E : chat true now uuid4 c db
              = mkHandled
                  (DB.with_sessions db
                     (DB.chat_sessions db
                      ++ [DB.mkSessionRow uuid4 uid DB.default_session_name
                                          now now]))
                  (set_session_id c uuid4)
                  (Ok (render_template "chat.html"
                         [("username", shown (username c));
                          ("full_name", shown (full_name c))]))).
  { unfold chat. rewrite Hu, Hs. unfold DB.create_session. now rewrite Hn. }
  rewrite E. cbn [db_after session_after].
  repeat split. unfold chat. cbn [user_id session_id set_session_id].
  rewrite Hu. reflexivity.
Qed.

Lemma chat_opens_one_session_witness :
  (user_id (session_after Scenario.after_signup) = Some 1
   /\ session_id (session_after Scenario.after_signup) = None
   /\ ~ In Scenario.uuid_b (session_ids (db_after Scenario.after_signup)))
  /\ session_after Cases.opened
     = set_session_id (session_after Scenario.after_signup) Scenario.uuid_b.
Proof.
  assert (H : ~ In Scenario.uuid_b (session_ids (db_after Scenario.after_signup))).
  { vm_compute. intros [E | []]. discriminate. }
  split; [now repeat split|].
  exact (proj1 (chat_opens_one_session 101 0 1 Scenario.uuid_b Scenario.uuid_a
                  (session_after Scenario.after_signup)
                  (db_after Scenario.after_signup) eq_refl eq_refl H)).
Defined.

End ApiChatSpec.

(* ================================================================== *)
(** ** Invariants of the running application *)

Module Reachable.

Import Py App Router Props Inv.

(** *** References survive when the tables grow *)

Lemma fk_ok_grows (db db' : DB.DB) :
  incl (user_ids db) (user_ids db') ->
  incl (session_ids db) (session_ids db') ->
  Forall (message_fk db) (DB.chat_messages db) ->
  Forall (session_fk db) (DB.chat_sessions db) ->
  Forall (message_fk db') (DB.chat_messages db)
  /\ Forall (session_fk db') (DB.chat_sessions db).
Proof.
  intros Iu Is Hm Hs. split.
  - eapply Forall_impl; [|exact Hm]. intros m [H1 H2]. split.
    + destruct (DB.m_session_id m); [now apply Is | exact I].
    + now apply Iu.
  - eapply Forall_impl; [|exact Hs]. intros s H. now apply Iu.
Qed.

Lemma cookie_ok_grows (db db' : DB.DB) (c : Session) :
  incl (user_ids db) (user_ids db') ->
  incl (session_ids db) (session_ids db') ->
  cookie_ok db c -> cookie_ok db' c.
Proof.
  intros Iu Is [H1 H2]. split.
  - destruct (user_id c); [now apply Iu | exact I].
  - destruct (session_id c); [now apply Is | exact I].
Qed.

(** *** The store methods, as the routes call them *)

Lemma create_session_keeps (now : Z) (uuid4 name : string) (uid : Z) (db : DB.DB) :
  fk_ok db -> In uid (user_ids db) ->
  fk_ok (fst (DB.create_session now uuid4 uid name db))
  /\ user_ids (fst (DB.create_session now uuid4 uid name db)) = user_ids db
  /\ incl (session_ids db)
          (session_ids (fst (DB.create_session now uuid4 uid name db)))
  /\ (forall sid, snd (DB.create_session now uuid4 uid name db) = Ok sid ->
                  In sid (session_ids (fst (DB.create_session now uuid4 uid name db)))).
Proof.
  intros [Hm Hs] Hu. unfold DB.create_session.
  destruct (existsb _ (DB.chat_sessions db)).
  - cbn [fst snd]. repeat split; try assumption; [apply incl_refl|].
    intros sid E. discriminate E.
  - cbn [fst snd].
    set (db' := DB.with_sessions db _).
    assert (Iu : incl (user_ids db) (user_ids db')) by apply incl_refl.
    assert (Is : incl (session_ids db) (session_ids db')).
    { unfold session_ids, db'. cbn [DB.chat_sessions DB.with_sessions].
      rewrite map_app. apply incl_appl, incl_refl. }
    destruct (fk_ok_grows db db' Iu Is Hm Hs) as [Hm' Hs'].
    split; [|split; [reflexivity|split; [exact Is|]]].
    + split; [exact Hm'|]. unfold db' at 2.
      cbn [DB.chat_sessions DB.with_sessions]. apply Forall_app.
      split; [exact Hs'|]. constructor; [exact Hu | constructor].
    + intros sid E. inversion E; subst. unfold session_ids, db'.
      cbn [DB.chat_sessions DB.with_sessions]. rewrite map_app.
      apply in_or_app. right. now left.
Qed.

Lemma save_message_keeps (now : Z) (sid : option string) (uid : Z)
      (role body : string) (db : DB.DB) :
  fk_ok db -> In uid (user_ids db) ->
  match sid with Some s => In s (session_ids db) | None => True end ->
  fk_ok (DB.save_message now sid uid role body db)
  /\ user_ids (DB.save_message now sid uid role body db) = user_ids db
  /\ session_ids (DB.save_message now sid uid role body db) = session_ids db.
Proof.
  intros [Hm Hs] Hu Hsid.
  assert (Eu : user_ids (DB.save_message now sid uid role body db) = user_ids db)
    by reflexivity.
  assert (Es : session_ids (DB.save_message now sid uid role body db)
               = session_ids db).
  { unfold session_ids, DB.save_message.
    cbn [DB.chat_sessions DB.with_sessions DB.with_messages].
    apply StoreMore.session_ids_touched. }
  split; [|now split]. split.
  - rewrite StoreFacts.chat_messages_save_message. apply Forall_app. split.
    + eapply Forall_impl; [|exact Hm]. intros m H.
      unfold message_fk in *. now rewrite Es, Eu.
    + constructor; [|constructor]. unfold message_fk.
      cbn [DB.m_session_id DB.m_user_id]. now rewrite Es, Eu.
  - unfold DB.save_message.
    cbn [DB.chat_sessions DB.with_sessions DB.with_messages].
    rewrite Forall_map. eapply Forall_impl; [|exact Hs].
    intros s H. unfold session_fk in *. unfold DB.touched.
    now destruct (Sql.text_eq _ _).
Qed.

Lemma create_user_keeps (now : Z) (uuid4 : string) (u e p : pystr)
      (fn ph : string) (db : DB.DB) :
  fk_ok db ->
  fk_ok (fst (DB.create_user now uuid4 u e p fn ph db))
  /\ incl (user_ids db) (user_ids (fst (DB.create_user now uuid4 u e p fn ph db)))
  /\ incl (session_ids db)
          (session_ids (fst (DB.create_user now uuid4 u e p fn ph db)))
  /\ (forall uid, snd (DB.create_user now uuid4 u e p fn ph db) = Ok (Some uid) ->
                  In uid (user_ids (fst (DB.create_user now uuid4 u e p fn ph db)))).
Proof.
  intros F. unfold DB.create_user.
  destruct (DB.hash_password p) as [h|x].
  2:{ cbn [fst snd]. repeat split; try apply F; try apply incl_refl.
      intros uid E. discriminate E. }
  destruct (DB.insert_user now u e h fn ph db) as [[db1 uid]|x] eqn:E.
  2:{ destruct x; cbn [fst snd]; repeat split; try apply F;
        try apply incl_refl; intros uid E'; discriminate E'. }
  assert (S1 : In uid (user_ids db1)
               /\ incl (user_ids db) (user_ids db1)
               /\ DB.chat_sessions db1 = DB.chat_sessions db
               /\ DB.chat_messages db1 = DB.chat_messages db).
  { unfold DB.insert_user in E. destruct u as [u|]; [|discriminate].
    destruct e as [e|]; [|discriminate].
    destruct (_ || _); [discriminate|]. inversion E; subst.
    unfold user_ids. cbn [DB.users DB.with_users DB.chat_sessions
                          DB.chat_messages].
    rewrite map_app. repeat split.
    - apply in_or_app. right. now left.
    - apply incl_appl, incl_refl. }
  destruct S1 as [Hin [Iu [Es Em]]].
  assert (Is : incl (session_ids db) (session_ids db1)).
  { unfold session_ids. rewrite Es. apply incl_refl. }
  assert (F1 : fk_ok db1).
  { destruct F as [Hm Hs]. destruct (fk_ok_grows db db1 Iu Is Hm Hs) as [A B].
    unfold fk_ok. now rewrite Em, Es. }
  destruct (create_session_keeps now uuid4 DB.default_session_name uid db1 F1 Hin)
    as [F2 [Eu2 [Is2 _]]].
  destruct (DB.create_session now uuid4 uid DB.default_session_name db1)
    as [db2 [sid|x]]; cbn [fst snd] in *.
  - repeat split; try apply F2.
    + rewrite Eu2. exact Iu.
    + eapply incl_tran; [exact Is | exact Is2].
    + intros uid' E'. inversion E'; subst. now rewrite Eu2.
  - destruct x; cbn [fst snd]; repeat split; try apply F2;
      try (rewrite Eu2; exact Iu);
      try (eapply incl_tran; [exact Is | exact Is2]);
      intros uid' E'; discriminate E'.
Qed.

Lemma verify_user_stored (name pw : pystr) (db : DB.DB) (user : DB.User) :
  DB.verify_user name pw db = Ok (Some user) -> In (DB.id user) (user_ids db).
Proof.
  unfold DB.verify_user. destruct (DB.hash_password pw) as [h|x]; [|discriminate].
  cbn [bind]. destruct (find _ (DB.users db)) as [r|] eqn:E; [|discriminate].
  cbn [DB.fetched_user]. destruct (DB.user_of_row r) as [u1|x] eqn:Eu;
    [|discriminate].
  cbn [bind]. intro H. inversion H; subst.
  apply ProfileSpec.id_of_row in Eu. rewrite Eu.
  apply find_some in E. destruct E as [E _]. now apply in_map.
Qed.

Lemma first_session_stored (uid : Z) (db : DB.DB) (first : DB.SessionInfo)
      (rest : list DB.SessionInfo) :
  DB.get_user_sessions uid db = first :: rest ->
  In (DB.session_id first) (session_ids db).
Proof.
  unfold DB.get_user_sessions. intro E.
  destruct (DB.select_user_sessions uid db) as [|s t] eqn:Es; [discriminate|].
  inversion E; subst.
  assert (H : In s (DB.select_user_sessions uid db)) by (rewrite Es; now left).
  apply StoreSpec.select_user_sessions_In in H. destruct H as [H _].
  now apply (in_map DB.s_session_id).
Qed.

(** *** One request *)

Lemma handle_keeps (env : Env) (req : Request) (c : Session) (db : DB.DB) :
  keys_ok db -> fk_ok db -> cookie_ok db c ->
  keys_ok (db_after (handle true env req c db))
  /\ fk_ok (db_after (handle true env req c db))
  /\ cookie_ok (db_after (handle true env req c db))
               (session_after (handle true env req c db))
  /\ incl (user_ids db) (user_ids (db_after (handle true env req c db)))
  /\ incl (session_ids db) (session_ids (db_after (handle true env req c db))).
Proof.
  intros K F C.
  assert (Same : keys_ok db /\ fk_ok db /\ cookie_ok db c
                 /\ incl (user_ids db) (user_ids db)
                 /\ incl (session_ids db) (session_ids db)).
  { repeat split; try apply K; try apply F; try apply C; exact (incl_refl _). }
  destruct req as [| | |m form|m form| | | |body| | | |];
    unfold handle; try exact Same.
  - (* signup *)
    unfold signup. destruct m; [exact Same|].
    pose proof (StoreKeys.keys_ok_create_user (now env) (uuid4 env)
                  (form_get "username" form) (form_get "email" form)
                  (form_get "password" form)
                  (form_get_default "full_name" form "") "" db K) as K1.
    destruct (create_user_keeps (now env) (uuid4 env)
                (form_get "username" form) (form_get "email" form)
                (form_get "password" form)
                (form_get_default "full_name" form "") "" db F)
      as [F1 [Iu [Is Hid]]].
    destruct (DB.create_user _ _ _ _ _ _ _ db) as [db1 [[uid|]|x]];
      cbn [fst snd] in *;
      try (cbn [db_after session_after]; repeat split;
           try apply K1; try apply F1; try assumption;
           apply (cookie_ok_grows db db1 c Iu Is C)).
    destruct (uid =? 0); cbn [db_after session_after]; repeat split;
      try apply K1; try apply F1; try assumption;
      try apply (cookie_ok_grows db db1 c Iu Is C).
    cbn [set_user user_id]. now apply Hid.
  - (* login *)
    unfold login. destruct m; [exact Same|].
    destruct (DB.verify_user _ _ db) as [[user|]|x] eqn:V; try exact Same.
    pose proof (verify_user_stored _ _ _ _ V) as Hu.
    destruct (DB.get_user_sessions (DB.id user) db) as [|first rest] eqn:G.
    + pose proof (StoreKeys.keys_ok_create_session (now env) (uuid4 env)
                    DB.default_session_name (DB.id user) db K) as K1.
      destruct (create_session_keeps (now env) (uuid4 env)
                  DB.default_session_name (DB.id user) db F Hu)
        as [F1 [Eu [Is Hsid]]].
      assert (Cs : forall db1, incl (session_ids db) (session_ids db1) ->
                               match session_id c with
                               | Some s => In s (session_ids db1)
                               | None => True
                               end).
      { intros db1 I1. destruct C as [_ C2].
        destruct (session_id c); [now apply I1 | exact I]. }
      destruct (DB.create_session _ _ _ _ db) as [db1 [sid|x]];
        cbn [fst snd] in *; cbn [db_after session_after]; repeat split;
        try apply K1; try apply F1; try assumption;
        try (rewrite Eu; exact (incl_refl _));
        cbn [set_session_id set_user user_id session_id];
        try (rewrite Eu; exact Hu); try (now apply Hsid); try now apply Cs.
    + cbn [db_after session_after]. repeat split;
        try apply K; try apply F; try exact (incl_refl _);
        cbn [set_session_id set_user user_id session_id];
        try exact Hu; try now apply (first_session_stored _ _ _ _ G).
  - (* logout *)
    unfold logout. cbn [db_after session_after]. repeat split;
      try apply K; try apply F; exact (incl_refl _).
  - (* dashboard *)
    unfold dashboard. destruct (user_id c); exact Same.
  - (* chat *)
    unfold chat. destruct (user_id c) as [uid|] eqn:U; [|exact Same].
    destruct (session_id c) as [sid|] eqn:S; [exact Same|].
    assert (Hu : In uid (user_ids db)).
    { destruct C as [C1 _]. now rewrite U in C1. }
    pose proof (StoreKeys.keys_ok_create_session (now env) (uuid4 env)
                  DB.default_session_name uid db K) as K1.
    destruct (create_session_keeps (now env) (uuid4 env)
                DB.default_session_name uid db F Hu)
      as [F1 [Eu [Is Hsid]]].
    destruct (DB.create_session _ _ _ _ db) as [db1 [sid|x]];
      cbn [fst snd] in *; cbn [db_after session_after]; repeat split;
      try apply K1; try apply F1; try assumption;
      try (rewrite Eu; exact (incl_refl _));
      cbn [set_session_id user_id session_id]; rewrite ?U, ?S;
      try (rewrite Eu; exact Hu); try (now apply Hsid); try exact I.
  - (* api_chat *)
    unfold api_chat. destruct (user_id c) as [uid|] eqn:U; [|exact Same].
    destruct body as [data|]; [|exact Same].
    destruct (message_of data) as [msg|x]; [|exact Same].
    destruct (negb (truthy (Some msg))); [exact Same|].
    assert (Hu : In uid (user_ids db)).
    { destruct C as [C1 _]. now rewrite U in C1. }
    assert (Hs : match session_id c with
                 | Some s => In s (session_ids db)
                 | None => True
                 end) by apply C.
    destruct (save_message_keeps (now env) (session_id c) uid "user" msg db
                F Hu Hs) as [F1 [Eu1 Es1]].
    set (db1 := DB.save_message (now env) (session_id c) uid "user" msg db) in *.
    assert (Hu1 : In uid (user_ids db1)) by now rewrite Eu1.
    assert (Hs1 : match session_id c with
                  | Some s => In s (session_ids db1)
                  | None => True
                  end) by now rewrite Es1.
    destruct (save_message_keeps (now_answer env) (session_id c) uid "assistant"
                (get_ai_response (ai env) msg) db1 F1 Hu1 Hs1)
      as [F2 [Eu2 Es2]].
    cbn [db_after session_after].
    split; [|split; [exact F2|split; [|split]]].
    + apply StoreKeys.keys_ok_save_message.
      now apply StoreKeys.keys_ok_save_message.
    + split; [rewrite Eu2, Eu1 | rewrite Es2, Es1]; apply C.
    + rewrite Eu2, Eu1. exact (incl_refl _).
    + rewrite Es2, Es1. exact (incl_refl _).
  - (* api_history *)
    unfold api_history. destruct (user_id c); exact Same.
  - (* api_sessions *)
    unfold api_sessions. destruct (user_id c); exact Same.
  - (* api_user_profile *)
    unfold api_user_profile. destruct (user_id c); exact Same.
Qed.

(** X17: in every state the application reaches from a new database
    through its routes (/api/update-profile apart), whatever cookies the
    requests replay: no username, email or id is stored twice; every
    session belongs to a stored user; every message belongs to a stored
    user and names a stored session or none; and every cookie issued names
    a stored user and a stored session, where it names any. *)
Theorem reachable_states_keep_references (db : DB.DB) (cookies : list Session) :
  reachable true db cookies ->
  keys_ok db /\ fk_ok db /\ Forall (cookie_ok db) cookies.
Proof.
  induction 1 as [|db cookies env req c _ [K [F C]] Hc].
  - split; [apply StoreKeys.keys_ok_init|]. split.
    + split; constructor.
    + constructor; [now split | constructor].
  - assert (Cc : cookie_ok db c).
    { rewrite Forall_forall in C. now apply C. }
    destruct (handle_keeps env req c db K F Cc) as [K' [F' [C' [Iu Is]]]].
    split; [exact K'|]. split; [exact F'|].
    constructor; [exact C'|].
    eapply Forall_impl; [|exact C]. intros c0. now apply cookie_ok_grows.
Qed.

Lemma reachable_states_keep_references_witness :
  reachable true (db_after Scenario.chat_after_signup)
            [session_after Scenario.chat_after_signup;
             session_after Scenario.after_signup; no_session]
  /\ fk_ok (db_after Scenario.chat_after_signup).
Proof.
  assert (R : reachable true (db_after Scenario.chat_after_signup)
                        [session_after Scenario.chat_after_signup;
                         session_after Scenario.after_signup; no_session]).
  { apply (reach_request true (db_after Scenario.after_signup)
             [session_after Scenario.after_signup; no_session]
             (mkEnv 101 102 Scenario.uuid_b Scenario.no_ai)
             (ApiChat (Some Scenario.question))
             (session_after Scenario.after_signup)).
    - apply (reach_request true (DB.init_db None) [no_session]
               (mkEnv 100 100 Scenario.uuid_a Scenario.no_ai)
               (Signup POST Scenario.alice) no_session).
      + apply reach_start.
      + now left.
    - now left. }
  split; [exact R|].
  exact (proj1 (proj2 (reachable_states_keep_references _ _ R))).
Defined.

End Reachable.

(* ================================================================== *)
(** ** The routes: from signup to history, refusals, demo mode *)

Module EndToEnd.

Import Py App Router Props Inv.

(** X18: sign up with an unused username and email, log in with the same
    username and password, post one message that is not blank to
    /api/chat, then read /api/history: the chat answers 200 with the id of
    the session the signup created, and the history holds exactly two
    entries, the message as [user] and then the answer as [assistant].  The
    stored references hold before the signup and the answer is not saved
    before the question. *)
Theorem signup_login_chat_history
        (ai : Components) (now now' t1 t2 : Z) (uuid4 uuid4' u e p body : string)
        (form form' : list (string * string))
        (members : list (string * Json.value)) (c c' : Session) (db : DB.DB) :
  form_get "username" form = Some u ->
  form_get "email" form = Some e ->
  form_get "password" form = Some p ->
  form_get "username" form' = Some u ->
  form_get "password" form' = Some p ->
  ~ In u (map DB.u_username (DB.users db)) ->
  ~ In e (map DB.u_email (DB.users db)) ->
  ~ In uuid4 (session_ids db) ->
  fk_ok db ->
  Json.get "message" members = Some (Json.Str body) ->
  only_whitespace body = false ->
  t1 <= t2 ->
  exists db1 c2 db3,
    db_after (signup true now uuid4 POST form c db) = db1
    /\ login true now' uuid4' POST form' c' db1
       = mkHandled db1 c2 (Ok (redirect "dashboard"))
    /\ api_chat true ai t1 t2 (Some (Json.Obj members)) c2 db1
       = mkHandled db3 c2
           (Ok (jsonify
                  (Json.Obj [("response",
                              Json.Str (get_ai_response ai (strip body)));
                             ("session_id", Json.Str uuid4)])
                  200))
    /\ response (api_history true c2 db3)
       = Ok (jsonify
               (Json.Arr
                  [json_of_message (DB.mkMessage "user" (strip body) t1);
                   json_of_message
                     (DB.mkMessage "assistant"
                                   (get_ai_response ai (strip body)) t2)])
               200).
Proof.
  intros Fu Fe Fp Fu' Fp' Hu He Hs [Hmk Hsk] Hm Hb Hle.
  destruct (ChatSpec.signup_login_run now now' uuid4 uuid4' u e p form form'
              c c' db Fu Fe Fp Fu' Fp' Hu He Hs Hsk)
    as [uid [db1 [shown_name [E1 [E2 [_ [_ [_ [Em _]]]]]]]]].
  exists db1. eexists. eexists.
  split; [now rewrite E1|]. split; [exact E2|].
  (* no message of the new session is stored yet *)
  assert (Hnone : Forall (fun m => DB.m_session_id m <> Some uuid4)
                         (DB.chat_messages db1)).
  { rewrite Em. eapply Forall_impl; [|exact Hmk].
    intros m [H _] E. rewrite E in H. contradiction. }
  assert (H0 : DB.get_chat_history (Some uuid4) uid db1 = []).
  { unfold DB.get_chat_history, DB.select_chat_history.
    rewrite ChatSpec.filter_none; [reflexivity|].
    intros m Hin. rewrite Forall_forall in Hnone. specialize (Hnone m Hin).
    apply andb_false_iff. left.
    destruct (Sql.text_eq (DB.m_session_id m) (Some uuid4)) eqn:E;
      [|reflexivity].
    apply StoreFrames.text_eq_true in E. destruct E as [E _]. contradiction. }
  unfold api_chat, message_of. cbn [user_id session_id].
  rewrite Hm, (ApiChatSpec.strip_not_blank body Hb).
  cbn [negb json_of_pystr]. split; [reflexivity|].
  unfold api_history. cbn [user_id session_id response].
  rewrite ApiChatSpec.history_snoc.
  - rewrite ApiChatSpec.history_snoc.
    + rewrite H0. reflexivity.
    + eapply Forall_impl; [|exact Hnone]. intros m N E. contradiction.
  - rewrite StoreFacts.chat_messages_save_message. apply Forall_app. split.
    + eapply Forall_impl; [|exact Hnone]. intros m N E. contradiction.
    + constructor; [|constructor]. intros _ _. cbn [DB.m_timestamp]. exact Hle.
Qed.

Lemma signup_login_chat_history_witness :
  (~ In "alice" (map DB.u_username (DB.users Scenario.fresh_db))
   /\ ~ In Scenario.uuid_a (session_ids Scenario.fresh_db)
   /\ fk_ok Scenario.fresh_db
   /\ only_whitespace "What can I do with a biology degree?" = false)
  /\ exists db3,
      api_chat true Scenario.no_ai 104 105 (Some Scenario.question)
               (session_after Scenario.after_login)
               (db_after Scenario.after_login)
      = mkHandled db3 (session_after Scenario.after_login)
          (Ok (jsonify
                 (Json.Obj [("response", Json.Str unavailable);
                            ("session_id", Json.Str Scenario.uuid_a)])
                 200))
      /\ response (api_history true (session_after Scenario.after_login) db3)
         = Ok (jsonify
                 (Json.Arr
                    [json_of_message
                       (DB.mkMessage "user"
                                     "What can I do with a biology degree?" 104);
                     json_of_message (DB.mkMessage "assistant" unavailable 105)])
                 200).
Proof.
  assert (F : fk_ok Scenario.fresh_db) by (split; constructor).
  split; [repeat split; try (simpl; tauto); try apply F; reflexivity|].
  destruct (signup_login_chat_history Scenario.no_ai 100 103 104 105
              Scenario.uuid_a Scenario.uuid_b "alice" "a@x.com" "pw"
              "What can I do with a biology degree?"
              Scenario.alice Scenario.alice
              [("message", Json.Str "What can I do with a biology degree?")]
              no_session no_session Scenario.fresh_db
              eq_refl eq_refl eq_refl eq_refl eq_refl
              ltac:(simpl; tauto) ltac:(simpl; tauto) ltac:(simpl; tauto)
              F eq_refl eq_refl ltac:(lia))
    as [db1 [c2 [db3 [E1 [E2 [E3 E4]]]]]].
  assert (Ec : c2 = session_after Scenario.after_login).
  { change (session_after Scenario.after_login)
      with (session_after (login true 103 Scenario.uuid_b POST Scenario.alice
                                 no_session
                                 (db_after (signup true 100 Scenario.uuid_a POST
                                                   Scenario.alice no_session
                                                   Scenario.fresh_db)))).
    rewrite E1, E2. reflexivity. }
  assert (Ed : db1 = db_after Scenario.after_login).
  { change (db_after Scenario.after_login)
      with (db_after (login true 103 Scenario.uuid_b POST Scenario.alice
                            no_session
                            (db_after (signup true 100 Scenario.uuid_a POST
                                              Scenario.alice no_session
                                              Scenario.fresh_db)))).
    rewrite E1, E2. reflexivity. }
  subst c2 db1. exists db3. split; [exact E3 | exact E4].
Defined.

(** X19: a signup is refused with the form and the duplicate error, the
    database and the cookie untouched, when the username or the email is
    already stored, and also when the username or the email field is
    missing from the form; when the password field is missing the handler
    raises before it reads the database. *)
Theorem signup_refused
        (now : Z) (uuid4 : string) (form : list (string * string))
        (c : Session) (db : DB.DB) :
  form_get "username" form = None
  \/ form_get "email" form = None
  \/ (exists u, form_get "username" form = Some u
                /\ In u (map DB.u_username (DB.users db)))
  \/ (exists e, form_get "email" form = Some e
                /\ In e (map DB.u_email (DB.users db))) ->
  signup true now uuid4 POST form c db
  = mkHandled db c
      (match form_get "password" form with
       | Some _ =>
           Ok (render_template "signup.html"
                 (error_context "Username or email already exists"))
       | None => Raise AttributeError
       end).
Proof.
  intro H. unfold signup, DB.create_user, DB.hash_password.
  destruct (form_get "password" form) as [p|]; [|reflexivity].
  assert (E : DB.insert_user now (form_get "username" form)
                (form_get "email" form) (Sha256.hexdigest (encode p))
                (form_get_default "full_name" form "") "" db
              = Raise IntegrityError).
  { unfold DB.insert_user.
    destruct (form_get "username" form) as [u|]; [|reflexivity].
    destruct (form_get "email" form) as [e|]; [|reflexivity].
    assert (T : existsb (fun r => String.eqb (DB.u_username r) u) (DB.users db)
                || existsb (fun r => String.eqb (DB.u_email r) e) (DB.users db)
                = true).
    { apply orb_true_iff.
      destruct H as [H | [H | [[u' [Eu Hin]] | [e' [Ee Hin]]]]];
        try discriminate.
      - left. inversion Eu; subst u'.
        destruct (existsb _ (DB.users db)) eqn:X; [reflexivity|].
        apply StoreMore.existsb_eqb_false in X. contradiction.
      - right. inversion Ee; subst e'.
        destruct (existsb (fun r => String.eqb (DB.u_email r) e) (DB.users db))
          eqn:X; [reflexivity|].
        apply StoreMore.existsb_eqb_false in X. contradiction. }
    now rewrite T. }
  now rewrite E.
Qed.

Lemma signup_refused_witness :
  (exists u, form_get "username" Scenario.alice = Some u
             /\ In u (map DB.u_username (DB.users (db_after Scenario.after_signup))))
  /\ signup true 200 Scenario.uuid_b POST Scenario.alice no_session
            (db_after Scenario.after_signup)
     = mkHandled (db_after Scenario.after_signup) no_session
         (Ok (render_template "signup.html"
                (error_context "Username or email already exists"))).
Proof.
  assert (H : exists u, form_get "username" Scenario.alice = Some u
                        /\ In u (map DB.u_username
                                     (DB.users (db_after Scenario.after_signup)))).
  { exists "alice". split; [reflexivity|]. vm_compute. now left. }
  split; [exact H|].
  exact (signup_refused 200 Scenario.uuid_b Scenario.alice no_session
           (db_after Scenario.after_signup) (or_intror (or_intror (or_introl H)))).
Defined.

(** X20: when the database module is not available, no request writes to
    the store; a POST to /login or /signup is accepted whatever the
    credentials, as user 1, and the login also sets the session
    [demo-session]. *)
Theorem demo_mode (env : Env) (req : Request) (c : Session) (db : DB.DB) :
  db_after (handle false env req c db) = db
  /\ (forall form, req = Login POST form ->
        handle false env req c db
        = mkHandled db
            (mkSession (Some 1) (Some (form_get "username" form))
                       (Some (form_get "username" form)) (Some "demo-session"))
            (Ok (redirect "dashboard")))
  /\ (forall form, req = Signup POST form ->
        handle false env req c db
        = mkHandled db
            (mkSession (Some 1) (Some (form_get "username" form))
                       (Some (Some (form_get_default "full_name" form "")))
                       (session_id c))
            (Ok (redirect "dashboard"))).
Proof.
  split; [|split].
  - destruct req as [| | |m form|m form| | | |body| | | |];
      unfold handle, landing, about, contact, signup, login, logout, dashboard,
        chat, api_chat, suggested_questions, api_history, api_sessions,
        api_user_profile;
      try reflexivity.
    + now destruct m.
    + now destruct m.
    + now destruct (user_id c).
    + destruct (user_id c); [|reflexivity]. now destruct (session_id c).
    + destruct (user_id c); [|reflexivity].
      destruct body as [data|]; [|reflexivity].
      destruct (message_of data) as [msg|x]; [|reflexivity].
      now destruct (negb (truthy (Some msg))).
    + now destruct (user_id c).
    + now destruct (user_id c).
    + now destruct (user_id c).
  - intros form ->. reflexivity.
  - intros form ->. reflexivity.
Qed.

End EndToEnd.

(* ================================================================== *)
(** ** Who is let in *)

Module AuthSpec.

Import Py CareerCounselingDB Inv.

(** X21: [verify_user] accepts only what is stored: when it returns a
    user, a password was given, the username asked for is that user's, and
    a stored row with that user's id and username holds the SHA-256 hex
    digest of the password given; [get_user_by_id] returns a user only with
    the id asked for, read from a stored row. *)
Theorem lookups_return_stored_rows
        (name pw : pystr) (uid : Z) (db : DB) (user : User) :
  (verify_user name pw db = Ok (Some user) ->
   exists p row,
     pw = Some p /\ name = Some (username user)
     /\ In row (users db)
     /\ u_id row = id user /\ u_username row = username user
     /\ u_email row = email user
     /\ u_password_hash row = Sha256.hexdigest (encode p))
  /\ (get_user_by_id uid db = Ok (Some user) ->
      id user = uid
      /\ exists row, In row (users db) /\ u_id row = uid
                     /\ u_username row = username user
                     /\ u_email row = email user).
Proof.
  assert (Row : forall r u, user_of_row r = Ok u ->
                            id u = u_id r /\ username u = u_username r
                            /\ email u = u_email r).
  { intros r u. unfold user_of_row.
    destruct (match u_interests r with
              | Some (String c t) =>
                  match Json.loads (String c t) with
                  | Some v => Ok v
                  | None => Raise JSONDecodeError
                  end
              | _ => Ok (Json.PyList [])
              end) as [l|x]; cbn [bind]; [|discriminate].
    intro H. inversion H. now repeat split. }
  split.
  - unfold verify_user, hash_password. destruct pw as [p|]; [|discriminate].
    cbn [bind]. destruct (find _ (users db)) as [r|] eqn:F; [|discriminate].
    cbn [fetched_user]. destruct (user_of_row r) as [u1|x] eqn:Eu;
      [|discriminate].
    cbn [bind]. intro H. inversion H; subst u1.
    destruct (Row r user Eu) as [E1 [E2 E3]].
    apply find_some in F. destruct F as [Hin Hp].
    apply andb_true_iff in Hp. destruct Hp as [H1 H2].
    apply StoreFrames.text_eq_true in H1. destruct H1 as [H1 _].
    apply String.eqb_eq in H2.
    exists p, r. rewrite E1, E2, E3. repeat split; try assumption.
    now rewrite <- H1.
  - unfold get_user_by_id.
    destruct (find _ (users db)) as [r|] eqn:F; [|discriminate].
    cbn [fetched_user]. destruct (user_of_row r) as [u1|x] eqn:Eu;
      [|discriminate].
    cbn [bind]. intro H. inversion H; subst u1.
    destruct (Row r user Eu) as [E1 [E2 E3]].
    apply find_some in F. destruct F as [Hin Hp]. apply Z.eqb_eq in Hp.
    split; [congruence|]. exists r. rewrite E2, E3. now repeat split.
Qed.

Lemma lookups_return_stored_rows_witness :
  verify_user (Some "alice") (Some "pw") (App.db_after Scenario.after_signup)
  = Ok (Some (mkUser 1 "alice" "a@x.com" (Some "Alice") (Some "") None (Json.PyList [])))
  /\ exists p row,
      Some "pw" = Some p
      /\ In row (users (App.db_after Scenario.after_signup))
      /\ u_password_hash row = Sha256.hexdigest (encode p).
Proof.
  assert (V : verify_user (Some "alice") (Some "pw")
                          (App.db_after Scenario.after_signup)
              = Ok (Some (mkUser 1 "alice" "a@x.com" (Some "Alice") (Some "")
                                 None (Json.PyList [])))) by (vm_compute; reflexivity).
  split; [exact V|].
  destruct (proj1 (lookups_return_stored_rows (Some "alice") (Some "pw") 1
                     (App.db_after Scenario.after_signup) _) V)
    as [p [row [E1 [_ [E2 [_ [_ [_ E3]]]]]]]].
  exists p, row. now repeat split.
Defined.

End AuthSpec.
